(** * Galaxia_ananke.Input: a shallow embedding and its verified properties

    The development follows [src/Galaxia_ananke/Input.py].  Python values
    are embedded as follows.

    - NumPy arrays carry a dtype tag and their entries, idealised as real
      numbers: rounding error, overflow, [inf] and [nan] are outside the
      model.  Shapes up to two dimensions are represented, with NumPy's
      broadcasting rule written out.
    - Python dictionaries keyed by strings are finite maps ([gmap string]),
      Python sets of strings are finite sets ([gset string]).
    - Exceptions are values of [exn]; a computation that may raise returns
      [result A]; a method that also touches the object or the file system
      is a state transformer over [world].
    - The EBF files are finite maps from item names to arrays, stored in a
      file system keyed by [pathlib] paths. *)

From Stdlib Require Import Reals Lra Lia ZArith String Ascii List.
From stdpp Require Import gmap strings list fin_maps pretty sorting.

Local Open Scope string_scope.

(** ** Exceptions and fallible computations *)

Inductive exn : Type :=
| ValueError
| TypeError
| IndexError
| KeyError (key : string)
| RuntimeError
| OSError
| SchemaError
| LengthMismatchError (keys : gset string)
| RegexOutsideFragment.

Definition result (A : Type) : Type := exn + A.

Definition ok {A} (a : A) : result A := inr a.
Definition raise {A} (e : exn) : result A := inl e.

#[global] Instance result_ret : MRet result := fun A a => inr a.
#[global] Instance result_bind : MBind result := fun A B f m =>
  match m with
  | inl e => inl e
  | inr a => f a
  end.

Definition raises {A} (m : result A) : Prop := exists e, m = inl e.

(** ** NumPy arrays *)

Inductive dtype : Type := Int64 | Float32 | Float64.

#[global] Instance dtype_eq_dec : EqDecision dtype.
Proof. solve_decision. Defined.

(** [Scalar] is a Python or NumPy floating scalar, [Arr1] an array of shape
    [(n,)], [Arr2] an array of shape [(n, ncols)] given by its rows. *)
Inductive ndarray : Type :=
| Scalar (x : R)
| Arr1 (d : dtype) (v : list R)
| Arr2 (d : dtype) (ncols : nat) (rows : list (list R)).

(** The only object array the code can build: [np.vstack([a, None]).T],
    one row holding the entries of [a] followed by [None]. *)
Inductive objarray : Type :=
| RowWithNone (xs : list R).

Section Numpy.
Local Open Scope R_scope.

Definition FOURTHIRDPI : R := 4 * PI / 3.

(** [np.cbrt] on a float: the real cube root. *)
Definition cbrt (x : R) : R :=
  if Rlt_dec 0 x then Rpower x (/ 3)
  else if Rlt_dec x 0 then - Rpower (- x) (/ 3)
  else 0.

(** [len(a)] *)
Definition np_len (a : ndarray) : result nat :=
  match a with
  | Scalar _ => raise TypeError
  | Arr1 _ v => ok (length v)
  | Arr2 _ _ rows => ok (length rows)
  end.

(** Leading dimension, [None] for an unsized scalar. *)
Definition leading_dim (a : ndarray) : option nat :=
  match a with
  | Scalar _ => None
  | Arr1 _ v => Some (length v)
  | Arr2 _ _ rows => Some (length rows)
  end.

Definition ndim (a : ndarray) : nat :=
  match a with
  | Scalar _ => 0
  | Arr1 _ _ => 1
  | Arr2 _ _ _ => 2
  end.

(** dtype of an array; a scalar is weakly typed and has none. *)
Definition dtype_of (a : ndarray) : option dtype :=
  match a with
  | Scalar _ => None
  | Arr1 d _ => Some d
  | Arr2 d _ _ => Some d
  end.

Definition float_dtype (d : dtype) : dtype :=
  match d with
  | Float32 => Float32
  | _ => Float64
  end.

Definition promote (d1 d2 : dtype) : dtype :=
  match d1, d2 with
  | Int64, Int64 => Int64
  | Float32, Float32 => Float32
  | _, _ => Float64
  end.

(** dtype of [a op b]: a scalar operand does not promote an array. *)
Definition promote_opt (o1 o2 : option dtype) : dtype :=
  match o1, o2 with
  | Some d1, Some d2 => promote d1 d2
  | Some d, None | None, Some d => float_dtype d
  | None, None => Float64
  end.

(** [np.atleast_2d]: number of rows, number of columns, rows. *)
Definition atleast_2d (a : ndarray) : nat * nat * list (list R) :=
  match a with
  | Scalar x => (1%nat, 1%nat, [[x]])
  | Arr1 _ v => (1%nat, length v, [v])
  | Arr2 _ c rows => (length rows, c, rows)
  end.

(** Broadcasting of one axis: equal sizes, or one of them is 1. *)
Definition broadcast_dim (m n : nat) : result nat :=
  if decide (m = n) then ok m
  else if decide (m = 1%nat) then ok n
  else if decide (n = 1%nat) then ok m
  else raise ValueError.

(** Stretch an axis of size 1 to [n]; other axes already have size [n]. *)
Definition stretch {A} (n : nat) (l : list A) : list A :=
  match l with
  | [x] => replicate n x
  | _ => l
  end.

Definition of_2d (nd : nat) (d : dtype) (c : nat) (rows : list (list R))
  : ndarray :=
  match nd with
  | O => Scalar (nth 0 (nth 0 rows []) 0)
  | S O => Arr1 d (nth 0 rows [])
  | _ => Arr2 d c rows
  end.

(** An elementwise binary ufunc [a op b] producing dtype [d]. *)
Definition np_binop (op : R -> R -> R) (d : dtype) (a b : ndarray)
  : result ndarray :=
  let '(ra, ca, xa) := atleast_2d a in
  let '(rb, cb, xb) := atleast_2d b in
  r ← broadcast_dim ra rb;
  c ← broadcast_dim ca cb;
  let rows :=
    zip_with (fun rowa rowb => zip_with op (stretch c rowa) (stretch c rowb))
             (stretch r xa) (stretch r xb) in
  ok (of_2d (Nat.max (ndim a) (ndim b)) d c rows).

(** [a * b] *)
Definition np_mul (a b : ndarray) : result ndarray :=
  np_binop Rmult (promote_opt (dtype_of a) (dtype_of b)) a b.

(** [a / b] (true division always yields floats) *)
Definition np_div (a b : ndarray) : result ndarray :=
  np_binop Rdiv (float_dtype (promote_opt (dtype_of a) (dtype_of b))) a b.

(** An elementwise unary function keeping the shape. *)
Definition np_map (f : R -> R) (conv : dtype -> dtype) (a : ndarray)
  : ndarray :=
  match a with
  | Scalar x => Scalar (f x)
  | Arr1 d v => Arr1 (conv d) (map f v)
  | Arr2 d c rows => Arr2 (conv d) c (map (map f) rows)
  end.

(** [np.cbrt(a)], [a**3] with a Python [int] exponent, and [k*a] for a
    Python [int] constant [k]: the last two keep the dtype. *)
Definition np_cbrt (a : ndarray) : ndarray := np_map cbrt float_dtype a.
Definition np_cube (a : ndarray) : ndarray := np_map (fun x => x ^ 3) (fun d => d) a.
Definition int_times (k : Z) (a : ndarray) : ndarray :=
  np_map (Rmult (IZR k)) (fun d => d) a.

(** [a[:, j]] *)
Definition column (j : nat) (a : ndarray) : result ndarray :=
  match a with
  | Arr2 d c rows =>
      if decide (j < c)%nat then ok (Arr1 d (map (fun r => nth j r 0) rows))
      else raise IndexError
  | _ => raise IndexError
  end.

(** [np.arange(n)] and [np.zeros(n)] *)
Definition np_arange (n : nat) : ndarray := Arr1 Int64 (map INR (seq 0 n)).
Definition np_zeros (n : nat) : ndarray := Arr1 Float64 (replicate n 0).

(** All entries in row-major order. *)
Definition flatten (a : ndarray) : list R :=
  match a with
  | Scalar x => [x]
  | Arr1 _ v => v
  | Arr2 _ _ rows => concat rows
  end.

(** [a.T] for a two-dimensional array given by rows. *)
Definition transpose (c : nat) (rows : list (list R)) : list (list R) :=
  map (fun j => map (fun r => nth j r 0) rows) (seq 0 c).

(** [np.vstack([a, b]).T] where [b] may be [None]. *)
Definition vstack_T (a : ndarray) (b : option ndarray)
  : result (ndarray + objarray) :=
  let '(ra, ca, xa) := atleast_2d a in
  match b with
  | Some b =>
      let '(rb, cb, xb) := atleast_2d b in
      if decide (ca = cb) then
        ok (inl (Arr2 (promote_opt (dtype_of a) (dtype_of b))
                      (ra + rb) (transpose ca (xa ++ xb))))
      else raise ValueError
  | None =>
      if decide (ca = 1%nat) then
        ok (inr (RowWithNone (map (fun r => nth 0 r 0) xa)))
      else raise ValueError
  end.

End Numpy.

(** ** Rounding, distinct values and the median *)

Section Statistics.
Local Open Scope R_scope.

#[global] Instance Rle_rel_dec : RelDecision Rle := Rle_dec.

(** [np.round(x)]: the nearest integer, a tie going to the even
    neighbour. *)
Definition round_half_even (x : R) : Z :=
  let f := Zfloor x in
  let d := x - IZR f in
  if Rlt_dec d (1 / 2) then f
  else if Rlt_dec (1 / 2) d then (f + 1)%Z
  else if Z.even f then f else (f + 1)%Z.

(** [.astype('int')] on an array of integral floats: the 64-bit integer of
    the same value, and the least 64-bit integer for a value outside the
    range of the type (the conversion of x86-64, which NumPy reports with
    a warning only). *)
Definition INT64_MIN : Z := (- 2 ^ 63)%Z.

Definition astype_int (z : Z) : Z :=
  if decide (INT64_MIN <= z < 2 ^ 63)%Z then z else INT64_MIN.

(** [np.unique(l)]: the distinct values, in increasing order. *)
Definition np_unique (l : list Z) : list Z :=
  merge_sort Z.le (remove_dups l).

(** [np.median(a)] over all entries: the middle entry of the sorted
    values, or the mean of the two middle ones.  (NumPy yields [nan] for
    an empty array; the code never takes the median of one.) *)
Definition np_median (a : ndarray) : R :=
  let s := merge_sort Rle (flatten a) in
  let n := length s in
  if Nat.even n then (nth (n / 2 - 1) s 0 + nth (n / 2) s 0) / 2
  else nth (n / 2) s 0.

(** [np.finfo(d).eps]; integer dtypes have no [finfo]. *)
Definition finfo_eps (d : dtype) : result R :=
  match d with
  | Float64 => ok (/ 2 ^ 52)
  | Float32 => ok (/ 2 ^ 23)
  | Int64 => raise ValueError
  end.

End Statistics.

(** ** Paths ([pathlib.Path]) *)

Record path : Type := Path { absolute : bool; parts : list string }.

#[global] Instance path_eq_dec : EqDecision path.
Proof. solve_decision. Defined.

#[global] Instance path_countable : Countable path :=
  inj_countable' (fun p => (absolute p, parts p))
                 (fun '(a, l) => Path a l)
                 (fun p => match p with Path _ _ => eq_refl end).

(** [p.parent], [p.name] and [p / q] *)
Definition path_parent (p : path) : path :=
  Path (absolute p) (removelast (parts p)).

Definition path_name (p : path) : string := List.last (parts p) "".

Definition path_join (p q : path) : path :=
  if absolute q then q else Path (absolute p) (parts p ++ parts q)%list.

Fixpoint split_on (c : ascii) (s : string) : list string :=
  match s with
  | EmptyString => [""]
  | String a s' =>
      if Ascii.eqb a c then "" :: split_on c s'
      else match split_on c s' with
           | h :: t => String a h :: t
           | [] => [String a ""]
           end
  end.

(** [pathlib.Path(s)] for a string: empty and ["."] components vanish. *)
Definition path_of_string (s : string) : path :=
  Path (String.prefix "/" s)
       (List.filter (fun x => negb (String.eqb x "" || String.eqb x "."))
                    (split_on "/" s)).

(** ** The fragment of Python regular expressions the constructor uses

    Literal characters, [.], [\d], a greedy star on one of these, and
    capturing groups without nesting.  A pattern outside the fragment is
    reported as [RegexOutsideFragment]. *)

Inductive atom : Type := ALit (c : ascii) | ADot | ADigit.
Inductive piece : Type := POne (a : atom) | PStar (a : atom).
Inductive node : Type := NPiece (p : piece) | NGroup (ps : list piece).

(** The decimal digits among the characters below code point 128; the
    ones of other scripts, which [\d] and [int] of Python take as well, are
    outside the model. *)
Definition is_digit (c : ascii) : bool :=
  (48 <=? nat_of_ascii c)%nat && (nat_of_ascii c <=? 57)%nat.

Definition is_meta (c : ascii) : bool :=
  existsb (Ascii.eqb c) (list_ascii_of_string "\^$.|?*+()[]{}").

Definition atom_matches (a : atom) (c : ascii) : bool :=
  match a with
  | ALit x => Ascii.eqb x c
  | ADot => negb (Ascii.eqb c "010"%char)
  | ADigit => is_digit c
  end.

Definition parse_atom (s : list ascii) : option (atom * list ascii) :=
  match s with
  | "\"%char :: "d"%char :: r => Some (ADigit, r)
  | "\"%char :: _ => None
  | "."%char :: r => Some (ADot, r)
  | c :: r => if is_meta c then None else Some (ALit c, r)
  | [] => None
  end.

Fixpoint re_parse_go (fuel : nat) (s : list ascii) (grp : option (list piece))
  (acc : list node) : option (list node) :=
  match fuel with
  | O => None
  | S fuel' =>
      match s with
      | [] => match grp with None => Some (rev acc) | Some _ => None end
      | "("%char :: r =>
          match grp with
          | None => re_parse_go fuel' r (Some []) acc
          | Some _ => None
          end
      | ")"%char :: r =>
          match grp with
          | Some ps => re_parse_go fuel' r None (NGroup (rev ps) :: acc)
          | None => None
          end
      | _ =>
          match parse_atom s with
          | None => None
          | Some (a, r) =>
              let '(p, r') := match r with
                              | "*"%char :: r' => (PStar a, r')
                              | _ => (POne a, r)
                              end in
              match grp with
              | None => re_parse_go fuel' r' None (NPiece p :: acc)
              | Some ps => re_parse_go fuel' r' (Some (p :: ps)) acc
              end
          end
      end
  end.

Definition re_parse (pattern : string) : option (list node) :=
  let s := list_ascii_of_string pattern in
  re_parse_go (S (length s)) s None [].

(** Backtracking matching: every way to match, in the order Python tries
    them (a star takes as many characters as it can first). *)
Fixpoint star_splits (a : atom) (s : list ascii)
  : list (list ascii * list ascii) :=
  match s with
  | c :: s' =>
      if atom_matches a c
      then (map (fun '(m, r) => (c :: m, r)) (star_splits a s') ++ [([], s)])%list
      else [([], s)]
  | [] => [([], [])]
  end.

Fixpoint match_pieces (ps : list piece) (s : list ascii)
  : list (list ascii * list ascii) :=
  match ps with
  | [] => [([], s)]
  | POne a :: ps' =>
      match s with
      | c :: s' =>
          if atom_matches a c
          then map (fun '(m, r) => (c :: m, r)) (match_pieces ps' s')
          else []
      | [] => []
      end
  | PStar a :: ps' =>
      flat_map (fun '(m1, r1) =>
                  map (fun '(m, r) => ((m1 ++ m)%list, r)) (match_pieces ps' r1))
               (star_splits a s)
  end.

Fixpoint match_nodes (ns : list node) (s : list ascii)
  : list (list (list ascii) * list ascii) :=
  match ns with
  | [] => [([], s)]
  | NPiece p :: ns' =>
      flat_map (fun '(_, r1) => match_nodes ns' r1) (match_pieces [p] s)
  | NGroup ps :: ns' =>
      flat_map (fun '(m1, r1) =>
                  map (fun '(caps, r) => (m1 :: caps, r)) (match_nodes ns' r1))
               (match_pieces ps s)
  end.

(** The groups of the leftmost match. *)
Fixpoint re_search (ns : list node) (s : list ascii)
  : option (list (list ascii)) :=
  match match_nodes ns s with
  | (caps, _) :: _ => Some caps
  | [] =>
      match s with
      | [] => None
      | _ :: s' => re_search ns s'
      end
  end.

(** [re.findall(pattern, s)[0]] for a pattern with groups: the groups of
    the leftmost match, [IndexError] when [findall] returns [[]]. *)
Definition findall_first (pattern s : string) : result (list string) :=
  match re_parse pattern with
  | None => raise RegexOutsideFragment
  | Some ns =>
      match re_search ns (list_ascii_of_string s) with
      | None => raise IndexError
      | Some caps => ok (map string_of_list_ascii caps)
      end
  end.

(** [int(s)] for a string: decimal digits, [ValueError] otherwise. *)
Fixpoint digits_value (acc : Z) (s : list ascii) : option Z :=
  match s with
  | [] => Some acc
  | c :: s' =>
      if is_digit c
      then digits_value (10 * acc + Z.of_nat (nat_of_ascii c - 48)) s'
      else None
  end.

Definition py_int (s : string) : result Z :=
  match list_ascii_of_string s with
  | [] => raise ValueError
  | l => match digits_value 0 l with
         | Some z => ok z
         | None => raise ValueError
         end
  end.

(** ** Files *)

Inductive file : Type :=
| EbfFile (items : gmap string ndarray)
| TextFile (content : string).

Abbreviation filesystem := (gmap path file).

(** [ebf.read(p)]: all items of the file, by name. *)
Definition ebf_read (fs : filesystem) (p : path)
  : result (gmap string ndarray) :=
  match fs !! p with
  | Some (EbfFile items) => ok items
  | Some (TextFile _) => raise RuntimeError
  | None => raise OSError
  end.

(** [ebf.initialize(p)]: an empty EBF file replaces whatever was there. *)
Definition ebf_initialize (p : path) (fs : filesystem) : filesystem :=
  <[p := EbfFile ∅]> fs.

(** [ebf.write(p, "/" + key, data, "a")]: append one item; an item of that
    name must not be there yet. *)
Definition ebf_write (p : path) (key : string) (data : ndarray)
  (fs : filesystem) : result filesystem :=
  match fs !! p with
  | Some (EbfFile items) =>
      match items !! key with
      | None => ok (<[p := EbfFile (<[key := data]> items)]> fs)
      | Some _ => raise RuntimeError
      end
  | Some (TextFile _) => raise RuntimeError
  | None => raise OSError
  end.

(** [d[key]] on a dictionary *)
Definition getitem {V} (d : gmap string V) (key : string) : result V :=
  match d !! key with
  | Some v => ok v
  | None => raise (KeyError key)
  end.

(** ** The property tables of [Input] *)

Definition _pos := "pos3".
Definition _vel := "vel3".
Definition _mass := "mass".
Definition _age := "age".
Definition _feh := "feh".
Definition _parentid := "parentid".
Definition _pop_id := "id".
Definition _dform := "dform".
Definition _He := "helium".
Definition _C := "carbon".
Definition _N := "nitrogen".
Definition _O := "oxygen".
Definition _Ne := "neon".
Definition _Mg := "magnesium".
Definition _Si := "silicon".
Definition _S := "sulphur".
Definition _Ca := "calcium".
Definition _alph := "alpha".
Definition _kernels := "h_cubic".
Definition _density := "density".

Definition _required_keys_in_particles : gset string :=
  {[ _pos; _vel; _mass; _age; _feh ]}.

Definition _optional_keys_in_particles : gset string :=
  {[ _parentid; _pop_id; _dform; _He; _C; _N; _O; _Ne; _Mg; _Si; _S; _Ca;
     _alph ]}.

Definition all_possible_keys_in_particles : gset string :=
  _required_keys_in_particles ∪ _optional_keys_in_particles.

(** ** The validators of [utils] *)

(** Modelled from the spec: [utils.compare_given_and_required], whose source
    is not part of the files at hand.  It fails with a SchemaError unless
    every required key is given and every given key is required or
    optional. *)
Definition compare_given_and_required (given required optional : gset string)
  : result unit :=
  if decide (required ⊆ given ∧ given ⊆ required ∪ optional) then ok tt
  else raise SchemaError.

(** The keys whose array does not have the leading dimension of the array
    under [control]. *)
Definition mismatched_keys (d : gmap string ndarray) (control : ndarray)
  : gset string :=
  dom (filter (fun kv => leading_dim kv.2 ≠ leading_dim control) d).

(** Modelled from the spec: [utils.confirm_equal_length_arrays_in_dict],
    whose source is not part of the files at hand.  It fails with a
    LengthMismatchError listing every key whose array length differs from
    the length of the array under the reference key. *)
Definition confirm_equal_length_arrays_in_dict (d : gmap string ndarray)
  (control_key : string) : result unit :=
  control ← getitem d control_key;
  let bad := mismatched_keys d control in
  if decide (bad = ∅) then ok tt else raise (LengthMismatchError bad).

(** ** The [Input] object *)

(** The neighbour count is an [int] when the caller or a file name gives
    it; its default is the constant [TTAGS.nres], which is also the name of
    a parameter-file field, hence a string. *)
Inductive pyscalar : Type := PyInt (n : Z) | PyStr (s : string).

(** [former_kernel]: a [bool], or a dictionary that may hold ['knorm']. *)
Inductive former : Type :=
| FormerBool (b : bool)
| FormerDict (knorm : option ndarray).

Definition truthy (f : former) : bool :=
  match f with
  | FormerBool b => b
  | FormerDict o => bool_decide (is_Some o)
  end.

Record Input : Type := mkInput {
  particles : gmap string ndarray;
  rho_pos : ndarray;
  rho_vel : option ndarray;
  input_dir : path;
  name : string;
  pname_attr : option path;
  kname_attr : option path;
  ngb : pyscalar;
  k_factor : ndarray;
  input_files_exist : bool
}.

(** The keyword arguments of the constructor; [None] is an absent key. *)
Record kwargs : Type := mkKwargs {
  kw_particles : option (gmap string ndarray);
  kw_rho_pos : option ndarray;
  kw_rho_vel : option ndarray;
  kw_input_dir : option path;
  kw_name : option string;
  kw_pname : option path;
  kw_kname : option path;
  kw_ngb : option pyscalar;
  kw_k_factor : option ndarray;
  kw_former_kernel : option former
}.

Definition no_kwargs : kwargs :=
  mkKwargs None None None None None None None None None None.

(** The positional arguments: none, [(particles, rho_pos)],
    [(particles, rho_pos, rho_vel)], or any other number of them. *)
Inductive posargs : Type :=
| NoArgs
| Args2 (p : gmap string ndarray) (rp : ndarray)
| Args3 (p : gmap string ndarray) (rp : ndarray) (rv : option ndarray)
| ArgsOther.

(** [str(x)] inside an f-string *)
Definition py_str (x : pyscalar) : string :=
  match x with
  | PyInt n => pretty n
  | PyStr s => s
  end.

(** [np.sqrt(x)] *)
Definition np_sqrt (x : pyscalar) : result ndarray :=
  match x with
  | PyInt n => ok (Scalar (sqrt (IZR n)))
  | PyStr _ => raise TypeError
  end.

(** [Input.length] on a particle dictionary *)
Definition length_of (p : gmap string ndarray) : result nat :=
  m ← getitem p _mass; np_len m.

(** [Input.__verify_particles]: the dictionary after the call. *)
Definition verify_particles (p : gmap string ndarray)
  : result (gmap string ndarray) :=
  _ ← compare_given_and_required (dom p) _required_keys_in_particles
        _optional_keys_in_particles;
  _ ← confirm_equal_length_arrays_in_dict p _mass;
  p1 ← (if decide (_parentid ∈ dom p) then ok p
        else n ← length_of p; ok (<[_parentid := np_arange n]> p));
  p2 ← (if decide (_dform ∈ dom p1) then ok p1
        else m ← getitem p1 _mass; ok (<[_dform := int_times 0 m]> p1));
  ok p2.



(** ** The object together with the file system *)

Record world : Type := World { self : Input; files : filesystem }.

(** A method: it returns or raises, and leaves a new state either way. *)
Definition M (A : Type) : Type := world -> result A * world.

#[global] Instance M_ret : MRet M := fun A a w => (inr a, w).
#[global] Instance M_bind : MBind M := fun A B f m w =>
  match m w with
  | (inl e, w') => (inl e, w')
  | (inr a, w') => f a w'
  end.

(** Values of the parameter file and of [**kwargs]. *)
Inductive pyval : Type :=
| VStr (s : string)
| VInt (z : Z)
| VFloat (r : R)
| VPath (p : path).

Definition pyval_of_scalar (x : pyscalar) : pyval :=
  match x with
  | PyInt n => VInt n
  | PyStr s => VStr s
  end.

(** [photometry.Isochrone]: the object is its directory. *)
Record Isochrone : Type := mkIsochrone { _path : path }.

Definition Isochrone_category (iso : Isochrone) : string :=
  path_name (path_parent (_path iso)).

Definition Isochrone_name (iso : Isochrone) : string := path_name (_path iso).

(** ** The constructor and the methods

    [constants.py] is not part of the files at hand: the constants the
    code takes from it are variables of this section. *)

Section InputClass.
Variable GALAXIA_TMP : path.
(** [TTAGS]: the names of four fields of the parameter file. *)
Variables TTAGS_photo_categ TTAGS_photo_sys TTAGS_mag_color_names
          TTAGS_nres : string.

(** The two regular expressions of the file-based signature. *)
Definition parse_pname (pname_name : string) : result string :=
  caps ← findall_first "(.*).ebf" pname_name;
  match caps with
  | g :: _ => ok g
  | [] => raise IndexError
  end.

(** [map(int, groups)] unpacked into two variables *)
Definition kernel_pattern (name : string) : string :=
  name ++ "_d(\d*)n(\d*)_den.ebf".

Definition parse_kname (name kname_name : string) : result (Z * Z) :=
  caps ← findall_first (kernel_pattern name) kname_name;
  match caps with
  | [g1; g2] => h ← py_int g1; n ← py_int g2; ok (h, n)
  | _ => raise ValueError
  end.

(** The former convention: the normalisation, collapsed to its median
    when all entries, rounded and converted to 64-bit integers, are one
    integer. *)
Definition rounded_knorm (knorm : ndarray) (eps : R) : list Z :=
  map (fun x => astype_int (round_half_even (x / (2 * eps))%R))
      (flatten knorm).

Definition collapse_knorm (knorm : ndarray) : result ndarray :=
  eps ← finfo_eps (default Float64 (dtype_of knorm));
  if decide (length (np_unique (rounded_knorm knorm eps)) = 1)
  then ok (Scalar (np_median knorm))
  else ok knorm.

(** The branch [elif {'pname', 'kname'}.issubset(kwargs.keys())]: the
    keyword arguments after it. *)
Definition from_files (fs : filesystem) (_pname _kname : path) (kw : kwargs)
  : result kwargs :=
  _ ← (if decide (path_parent _pname = path_parent _kname) then ok tt
       else raise ValueError);
  nm ← parse_pname (path_name _pname);
  '(_hdim, ngb_) ← parse_kname nm (path_name _kname);
  parts_ ← ebf_read fs _pname;
  _k ← ebf_read fs _kname;
  _mass_ ← getitem _k _mass;
  density ← getitem _k _density;
  h ← getitem _k _kernels;
  h0 ← column 0 h;
  fd ← np_mul (Scalar FOURTHIRDPI) density;
  _k_factor ← np_mul h0 (np_cbrt fd);
  let kw1 :=
    mkKwargs (Some parts_) (Some density) (kw_rho_vel kw)
             (Some (path_parent _pname)) (Some nm) (Some _pname)
             (Some _kname) (Some (PyInt ngb_)) (kw_k_factor kw)
             (kw_former_kernel kw) in
  if truthy (default (FormerBool false) (kw_former_kernel kw)) then
    s ← np_sqrt (PyInt ngb_);
    den ← np_mul s (Scalar (cbrt FOURTHIRDPI));
    _knorm ← np_div _k_factor den;
    _knorm ← collapse_knorm _knorm;
    num ← np_mul s _knorm;
    h1 ← column 1 h;
    q ← np_div num h1;
    ok (mkKwargs (kw_particles kw1) (kw_rho_pos kw1) (Some (np_cube q))
                 (kw_input_dir kw1) (kw_name kw1) (kw_pname kw1)
                 (kw_kname kw1) (kw_ngb kw1) (kw_k_factor kw1)
                 (Some (FormerDict (Some _knorm))))
  else
    h1 ← column 1 h;
    q ← np_div _k_factor h1;
    rv ← np_div (np_cube q) (Scalar FOURTHIRDPI);
    ok (mkKwargs (kw_particles kw1) (kw_rho_pos kw1) (Some rv)
                 (kw_input_dir kw1) (kw_name kw1) (kw_pname kw1)
                 (kw_kname kw1) (kw_ngb kw1) (Some _k_factor)
                 (kw_former_kernel kw1)).

(** The default of [k_factor]: 1, or [sqrt(ngb) * knorm * cbrt(4pi/3)]
    under the former convention (knorm 0.596831 unless given). *)
Definition default_k_factor (ngb_ : pyscalar) (old : former)
  : result ndarray :=
  let old' := match old with
              | FormerBool true => FormerDict None
              | _ => old
              end in
  match old' with
  | FormerDict o =>
      let __knorm := default (Scalar 0.596831%R) o in
      s ← np_sqrt ngb_;
      t ← np_mul s __knorm;
      np_mul t (Scalar (cbrt FOURTHIRDPI))
  | FormerBool _ => ok (Scalar 1%R)
  end.

(** [Input.__init__] *)
Definition Input_init (fs : filesystem) (args : posargs) (kw : kwargs)
  : result Input :=
  '(kw', files_exist) ←
    match args with
    | ArgsOther => raise RuntimeError
    | Args2 p rp =>
        ok (mkKwargs (Some p) (Some rp) (kw_rho_vel kw) (kw_input_dir kw)
                     (kw_name kw) (kw_pname kw) (kw_kname kw) (kw_ngb kw)
                     (kw_k_factor kw) (kw_former_kernel kw), false)
    | Args3 p rp rv =>
        ok (mkKwargs (Some p) (Some rp) rv (kw_input_dir kw)
                     (kw_name kw) (kw_pname kw) (kw_kname kw) (kw_ngb kw)
                     (kw_k_factor kw) (kw_former_kernel kw), false)
    | NoArgs =>
        match kw_pname kw, kw_kname kw with
        | Some _pname, Some _kname =>
            kw' ← from_files fs _pname _kname kw; ok (kw', true)
        | _, _ => raise ValueError
        end
    end;
  p ← match kw_particles kw' with
      | Some p => ok p
      | None => raise (KeyError "particles")
      end;
  p ← verify_particles p;
  rp ← match kw_rho_pos kw' with
       | Some rp => ok rp
       | None => raise (KeyError "rho_pos")
       end;
  let ngb_ := default (PyStr TTAGS_nres) (kw_ngb kw') in
  kf ← default_k_factor ngb_ (default (FormerBool false)
                                      (kw_former_kernel kw'));
  ok (mkInput p rp (kw_rho_vel kw')
              (default GALAXIA_TMP (kw_input_dir kw'))
              (default "sim" (kw_name kw'))
              (kw_pname kw') (kw_kname kw') ngb_
              (default kf (kw_k_factor kw')) files_exist).

(** *** Properties *)

Definition length (i : Input) : result nat := length_of (particles i).

Definition hdim (i : Input) : Z :=
  match rho_vel i with
  | None => 3
  | Some _ => 6
  end.

Definition rho (i : Input) : result (ndarray + objarray) :=
  vstack_T (rho_pos i) (rho_vel i).

(** [k_factor / np.cbrt(FOURTHIRDPI * rho)]: the product with an object
    array holding [None] is a [TypeError]. *)
Definition kernels (i : Input) : result ndarray :=
  r ← rho i;
  match r with
  | inl a =>
      fr ← np_mul (Scalar FOURTHIRDPI) a;
      np_div (k_factor i) (np_cbrt fr)
  | inr _ => raise TypeError
  end.

Definition keys (i : Input) : gset string := dom (particles i).

Definition optional_keys (i : Input) : gset string :=
  keys i ∩ _optional_keys_in_particles.

(** *** Methods that touch the object or the files *)

Definition get_self : M Input := fun w => (ok (self w), w).

Definition set_self (i : Input) : M unit :=
  fun w => (ok tt, World i (files w)).

Definition lift {A} (r : result A) : M A := fun w => (r, w).

Definition update_files (f : filesystem -> result filesystem) : M unit :=
  fun w =>
    match f (files w) with
    | inl e => (inl e, w)
    | inr fs' => (ok tt, World (self w) fs')
    end.

Fixpoint for_each {A} (l : list A) (body : A -> M unit) : M unit :=
  match l with
  | [] => mret tt
  | x :: l' => _ ← body x; for_each l' body
  end.

(** The cached properties [kname] and [pname] *)
Definition kname : M path :=
  i ← get_self;
  match kname_attr i with
  | Some p => mret p
  | None =>
      let p := path_join (input_dir i)
                 (path_of_string (name i ++ "_d" ++ pretty (hdim i) ++ "n"
                                    ++ py_str (ngb i) ++ "_den.ebf")) in
      _ ← set_self (mkInput (particles i) (rho_pos i) (rho_vel i)
                      (input_dir i) (name i) (pname_attr i) (Some p)
                      (ngb i) (k_factor i) (input_files_exist i));
      mret p
  end.

Definition pname : M path :=
  i ← get_self;
  match pname_attr i with
  | Some p => mret p
  | None =>
      let p := path_join (input_dir i) (path_of_string (name i ++ ".ebf")) in
      _ ← set_self (mkInput (particles i) (rho_pos i) (rho_vel i)
                      (input_dir i) (name i) (Some p) (kname_attr i)
                      (ngb i) (k_factor i) (input_files_exist i));
      mret p
  end.

Definition _write_kernels : M path :=
  kn ← kname;
  i ← get_self;
  if input_files_exist i then mret kn
  else
    p ← kname;
    _ ← update_files (fun fs => ok (ebf_initialize p fs));
    _ ← update_files (ebf_write kn _density (rho_pos i));
    ks ← lift (kernels i);
    _ ← update_files (ebf_write kn _kernels ks);
    m ← lift (getitem (particles i) "mass");
    _ ← update_files (ebf_write kn _mass m);
    mret kn.

Definition _write_particles : M path :=
  pn ← pname;
  i ← get_self;
  if input_files_exist i then mret pn
  else
    _ ← update_files (fun fs => ok (ebf_initialize pn fs));
    _ ← for_each (elements _required_keys_in_particles) (fun key =>
          d ← lift (getitem (particles i) key);
          update_files (ebf_write pn key d));
    _ ← for_each (elements _optional_keys_in_particles) (fun key =>
          d ← lift (if decide (key ∈ keys i) then getitem (particles i) key
                    else n ← length i; ok (np_zeros n));
          update_files (ebf_write pn key d));
    mret pn.

(** *** The parameter file *)

Variable DEFAULT_PARFILE : path.
Variable DEFAULTS_FOR_PARFILE : gmap string pyval.
(** [PARFILE_TEMPLATE.substitute] *)
Variable PARFILE_TEMPLATE_substitute : gmap string pyval -> result string.

(** The dictionary display of the four mandatory fields; a later entry
    replaces an earlier one of the same name. *)
Definition mandatory_fields (i : Input) (isochrone : Isochrone)
  (cmd_magnames : pyval) : gmap string pyval :=
  <[TTAGS_nres := pyval_of_scalar (ngb i)]>
    (<[TTAGS_mag_color_names := cmd_magnames]>
       (<[TTAGS_photo_sys := VStr (Isochrone_name isochrone)]>
          (<[TTAGS_photo_categ := VStr (Isochrone_category isochrone)]> ∅))).

Definition mandatory_names : gset string :=
  {[ TTAGS_photo_categ; TTAGS_photo_sys; TTAGS_mag_color_names; TTAGS_nres ]}.

(** [pathlib.Path(kwargs.pop('parfile', DEFAULT_PARFILE))] *)
Definition pop_parfile (kw : gmap string pyval) : result path :=
  match kw !! "parfile" with
  | Some (VPath p) => ok p
  | Some (VStr s) => ok (path_of_string s)
  | Some _ => raise TypeError
  | None => ok DEFAULT_PARFILE
  end.

(** The call of [for_parfile.update] unpacks the mandatory fields and
    then [kwargs] into one set of keyword arguments: a name given twice
    is a [TypeError]. *)
Definition merge_keywords (d1 d2 : gmap string pyval)
  : result (gmap string pyval) :=
  if decide (dom d1 ∩ dom d2 = ∅) then ok (d1 ∪ d2) else raise TypeError.

Definition _write_parameter_file (isochrone : Isochrone)
  (cmd_magnames : pyval) (kw : gmap string pyval)
  : M (path * gmap string pyval) :=
  i ← get_self;
  parfile ← lift (pop_parfile kw);
  let kw := delete "parfile" kw in
  let parfile := if absolute parfile then parfile
                 else path_join (input_dir i) parfile in
  let for_parfile := DEFAULTS_FOR_PARFILE in
  upd ← lift (merge_keywords (mandatory_fields i isochrone cmd_magnames) kw);
  let for_parfile := upd ∪ for_parfile in
  text ← lift (PARFILE_TEMPLATE_substitute for_parfile);
  _ ← update_files (fun fs => ok (<[parfile := TextFile text]> fs));
  mret (parfile, for_parfile).

End InputClass.

(** ** Sample data

    Three particles with the required properties and one optional one, unit
    densities, and the files of a run called [sim] in the directory
    [/data]. *)

Definition sample_dir : path := Path true ["data"].
Definition sample_tmp : path := Path true ["tmp"].

Definition sample_vec3 : ndarray :=
  Arr2 Float64 3 [[1; 2; 3]; [4; 5; 6]; [7; 8; 9]]%R.
Definition sample_col : ndarray := Arr1 Float64 [1; 2; 3]%R.

Definition sample_particles : gmap string ndarray :=
  <[_pos := sample_vec3]> (<[_vel := sample_vec3]> (<[_mass := sample_col]>
  (<[_age := sample_col]> (<[_feh := sample_col]> (<[_He := sample_col]> ∅))))).

Definition sample_missing_mass : gmap string ndarray :=
  delete _mass sample_particles.
Definition sample_extra_key : gmap string ndarray :=
  <["spin" := sample_col]> sample_particles.
Definition sample_short_age : gmap string ndarray :=
  <[_age := Arr1 Float64 [1; 2]%R]> sample_particles.

Definition sample_rho_pos : ndarray := Arr1 Float64 [1; 1; 1]%R.
Definition sample_rho_vel : ndarray := Arr1 Float64 [1; 1; 1]%R.

Definition sample_kwargs : kwargs :=
  mkKwargs None None None (Some sample_dir) None None None
           (Some (PyInt 64)) None None.

Definition sample_pname : path := Path true ["data"; "sim.ebf"].
Definition sample_kname : path := Path true ["data"; "sim_d6n64_den.ebf"].
Definition sample_kname_d3 : path := Path true ["data"; "sim_d3n64_den.ebf"].

Definition sample_kernel_file : gmap string ndarray :=
  <[_density := sample_rho_pos]>
    (<[_kernels := Arr2 Float64 2 [[1; 2]; [1; 2]; [1; 2]]%R]>
       (<[_mass := sample_col]> ∅)).

Definition sample_files : filesystem :=
  <[sample_pname := EbfFile sample_particles]>
    (<[sample_kname := EbfFile sample_kernel_file]>
       (<[sample_kname_d3 := EbfFile sample_kernel_file]> ∅)).

Definition sample_kname_bad : path := Path true ["data"; "sim_6_64.ebf"].

Definition file_kwargs (pn kn : path) (fk : option former) : kwargs :=
  mkKwargs None None None None None (Some pn) (Some kn) None None fk.

(** Sample constants of the parameter file: four field names, two
    defaults, and a template that needs the photometric system. *)
Definition sample_defaults : gmap string pyval :=
  <["nres" := VInt 64]> (<["fSample" := VInt 1]> ∅).

Definition sample_substitute (m : gmap string pyval) : result string :=
  match m !! "photoSys" with
  | Some _ => ok "rendered"
  | None => raise (KeyError "photoSys")
  end.

Definition sample_isochrone : Isochrone :=
  mkIsochrone (Path true ["iso"; "py_custom"; "WFIRST"]).

Definition sample_input : Input :=
  mkInput sample_particles sample_rho_pos (Some sample_rho_vel) sample_dir
          "sim" None None (PyInt 64) (Scalar 1%R) false.

Definition sample_write_parameter_file :=
  _write_parameter_file "photoCateg" "photoSys" "magcolorNames" "nres"
    (Path false ["galaxia_param"]) sample_defaults sample_substitute
    sample_isochrone (VStr "F814W,F555W-F814W").


(** The round trip: write the kernel and particle files of an Input, then
    construct a second Input from the two paths. *)
Definition write_then_reload (tmp : path) (nres : string) (i : Input)
  (fs0 : filesystem) (fk : option former) : result Input :=
  match _write_kernels (World i fs0) with
  | (inr kn, w1) =>
      match _write_particles w1 with
      | (inr pn, w2) =>
          Input_init tmp nres (files w2) NoArgs (file_kwargs pn kn fk)
      | (inl e, _) => inl e
      end
  | (inl e, _) => inl e
  end.

(** The paths the [kname] and [pname] properties compute when none is
    stored in the object. *)
Definition default_kname (i : Input) : path :=
  path_join (input_dir i)
    (path_of_string (name i ++ "_d" ++ pretty (hdim i) ++ "n"
                       ++ py_str (ngb i) ++ "_den.ebf")).

Definition default_pname (i : Input) : path :=
  path_join (input_dir i) (path_of_string (name i ++ ".ebf")).

(** The kernel file a fresh Input with unit densities and [k_factor] 1
    writes for the sample particles. *)
Definition sample_written_kernels : ndarray :=
  Arr2 Float64 2
    (zip_with (fun p q => [1 / cbrt (FOURTHIRDPI * p);
                           1 / cbrt (FOURTHIRDPI * q)]%R)
       [1; 1; 1]%R [1; 1; 1]%R).

Definition sample_written_kernel_file : gmap string ndarray :=
  <[_density := sample_rho_pos]>
    (<[_kernels := sample_written_kernels]> (<[_mass := sample_col]> ∅)).

Definition sample_written_files : filesystem :=
  <[sample_pname := EbfFile sample_particles]>
    (<[sample_kname := EbfFile sample_written_kernel_file]> ∅).



(** ** File names: auxiliary notions

    The nodes of a literal text, the names free of metacharacters, and the
    matches of a group that is one starred atom. *)

Definition lits (l : list ascii) : list node :=
  map (fun c => NPiece (POne (ALit c))) l.

Definition plain (l : list ascii) : bool :=
  forallb (fun c => negb (is_meta c)) l.

(** Strings of characters below code point 128: on these the digits and
    the characters [\d] and [.] stand for in Python are the ones of
    [is_digit] and [ADot]. *)
Definition is_ascii (s : string) : bool :=
  forallb (fun c => (nat_of_ascii c <? 128)%nat) (list_ascii_of_string s).

(** A name the two patterns of the constructor take literally: characters
    below code point 128, without metacharacters of regular expressions,
    [/] and line breaks. *)
Definition plain_name (nm : string) : bool :=
  forallb (fun c => negb (is_meta c) && negb (Ascii.eqb c "/")
                    && negb (Ascii.eqb c "010")
                    && (nat_of_ascii c <? 128)%nat)
          (list_ascii_of_string nm).

(** *** What the fragment accepts

    The texts a sequence of pieces or of nodes matches, with the texts of
    the groups. *)
Fixpoint pieces_accept (ps : list piece) (m : list ascii) : Prop :=
  match ps with
  | [] => m = []
  | POne a :: ps' =>
      exists c m', m = c :: m' /\ atom_matches a c = true
                   /\ pieces_accept ps' m'
  | PStar a :: ps' =>
      exists m1 m2, m = (m1 ++ m2)%list
                    /\ forallb (atom_matches a) m1 = true
                    /\ pieces_accept ps' m2
  end.

Fixpoint nodes_accept (ns : list node) (m : list ascii)
  (caps : list (list ascii)) : Prop :=
  match ns with
  | [] => m = [] /\ caps = []
  | NPiece p :: ns' =>
      exists m1 m2, m = (m1 ++ m2)%list /\ pieces_accept [p] m1
                    /\ nodes_accept ns' m2 caps
  | NGroup ps :: ns' =>
      exists m1 m2 caps', m = (m1 ++ m2)%list /\ caps = m1 :: caps'
                          /\ pieces_accept ps m1
                          /\ nodes_accept ns' m2 caps'
  end.

(** The pattern of the kernel file, built from the name [nm], occurs in
    the file name [k]: somewhere in it stand the name, [_d], digits, [n],
    digits, [_den], one character that is no line feed, and [ebf]. *)
Definition kernel_occurs (nm k : string) : Prop :=
  exists pre dh dn c post,
    list_ascii_of_string k
    = (pre ++ list_ascii_of_string nm ++ list_ascii_of_string "_d" ++ dh
           ++ list_ascii_of_string "n" ++ dn
           ++ list_ascii_of_string "_den" ++ c :: list_ascii_of_string "ebf"
           ++ post)%list
    /\ forallb is_digit dh = true /\ forallb is_digit dn = true
    /\ c <> "010"%char.

(** Two kernel file names that are not of the form
    [<name>_d<hdim>n<ngb>_den.ebf] *)
Definition sample_kname_odd : path :=
  Path true ["data"; "oldsim_d3n8_den_ebf.bak"].

Definition sample_kname_empty : path :=
  Path true ["data"; "sim_dn_den.ebf"].

Definition sample_odd_files : filesystem :=
  <[sample_kname_odd := EbfFile sample_kernel_file]> sample_files.

Definition kernel_tail_nodes : list node :=
  [NPiece (POne (ALit "_")); NPiece (POne (ALit "d"));
   NGroup [PStar ADigit]; NPiece (POne (ALit "n")); NGroup [PStar ADigit];
   NPiece (POne (ALit "_")); NPiece (POne (ALit "d"));
   NPiece (POne (ALit "e")); NPiece (POne (ALit "n")); NPiece (POne ADot);
   NPiece (POne (ALit "e")); NPiece (POne (ALit "b"));
   NPiece (POne (ALit "f"))]%char.

Definition grow (c : ascii) (x : list (list ascii) * list ascii)
  : list (list ascii) * list ascii :=
  match x with
  | (m :: caps, r) => ((c :: m) :: caps, r)
  | ([], r) => ([], r)
  end.

Definition group_star (ns : list node)
  (L : list (list ascii * list ascii))
  : list (list (list ascii) * list ascii) :=
  flat_map
    (fun '(m1, r1) => map (fun '(caps, r) => (m1 :: caps, r))
                          (match_nodes ns r1))
    (flat_map (fun '(m1, r1) =>
                 map (fun '(m, r) => ((m1 ++ m)%list, r)) [([], r1)]) L).

(** * photometry.Isochrone: the file descriptor

    The development follows [src/Galaxia/photometry/Isochrone.py].
    Strings are taken to consist of characters below code point 128
    ([is_ascii]), and the properties are stated for such strings.  A data
    frame enters by the list of its column names, taken to be strings; the
    metallicities that key the isochrone data are values of a type with
    decidable equality.  Directories are taken to exist. *)

(** ** Strings *)

(** [c.isspace()] on a character below code point 128: the six of
    [string.whitespace] and the four separators 28 to 31 *)
Definition py_isspace (c : ascii) : bool :=
  let n := nat_of_ascii c in
  ((9 <=? n) && (n <=? 13) || (28 <=? n) && (n <=? 32))%nat.

(** [s.split()]: the maximal runs of characters that are not white space *)
Fixpoint py_split (s : string) : list string :=
  match s with
  | EmptyString => []
  | String c s' =>
      if py_isspace c then py_split s'
      else match s' with
           | EmptyString => [String c ""]
           | String c' _ =>
               if py_isspace c' then String c "" :: py_split s'
               else match py_split s' with
                    | w :: ws => String c w :: ws
                    | [] => [String c ""]
                    end
           end
  end.

(** [s.strip('\n')] *)
Fixpoint lstrip_newlines (s : string) : string :=
  match s with
  | EmptyString => ""
  | String c s' => if Ascii.eqb c "010" then lstrip_newlines s' else s
  end.

Fixpoint rstrip_newlines (s : string) : string :=
  match s with
  | EmptyString => ""
  | String c s' =>
      match rstrip_newlines s' with
      | EmptyString => if Ascii.eqb c "010" then "" else String c ""
      | r => String c r
      end
  end.

Definition strip_newlines (s : string) : string :=
  rstrip_newlines (lstrip_newlines s).

(** [f.readline()] on a file opened for reading as text, from its start:
    the first line with its end, which a line feed, a carriage return or
    both may mark, given as one line feed. *)
Fixpoint readline (s : string) : string :=
  match s with
  | EmptyString => ""
  | String c s' =>
      if Ascii.eqb c "010" || Ascii.eqb c "013" then String "010" ""
      else String c (readline s')
  end.

(** [s.lower()] on characters below code point 128 *)
Definition py_lower_char (c : ascii) : ascii :=
  let n := nat_of_ascii c in
  if ((65 <=? n) && (n <=? 90))%nat then ascii_of_nat (n + 32) else c.

Definition py_lower (s : string) : string :=
  string_of_list_ascii (map py_lower_char (list_ascii_of_string s)).

(** [sorted] on strings: by code points, a proper prefix first *)
Definition str_le (s t : string) : Prop := String.leb s t = true.

#[global] Instance str_le_dec : RelDecision str_le :=
  fun s t => bool_eq_dec (String.leb s t) true.

Definition sorted (l : list string) : list string := merge_sort str_le l.

(** A string [split] gives back as one word *)
Definition no_space (s : string) : bool :=
  forallb (fun c => negb (py_isspace c)) (list_ascii_of_string s).

Definition is_word (s : string) : bool :=
  negb (String.eqb s "")
  && forallb (fun c => negb (py_isspace c)) (list_ascii_of_string s).

(** The characters of a line: no line feed and no carriage return *)
Definition one_line (s : string) : bool :=
  forallb (fun c => negb (Ascii.eqb c "010" || Ascii.eqb c "013"))
          (list_ascii_of_string s).

(** ** The class *)

Definition _required_keys : list string :=
  ["Age"; "M_ini"; "M_act"; "Lum"; "T_eff"; "Grav"].

(** The loop that collects the headers that differ, in their order *)
Fixpoint distinct_headers (check headers : list (list string))
  : list (list string) :=
  match headers with
  | [] => check
  | header :: rest =>
      distinct_headers
        (if decide (header ∈ check) then check else (check ++ [header])%list)
        rest
  end.

(** What [mag_names] raises; reading an EBF file as text is outside the
    model. *)
Inductive mag_error : Type := NotImplementedError | NotATextFile.

Section IsochroneClass.
Context {F : Type} `{Countable F}.
(** [constants.py]: the metallicities an isochrone set must cover, and the
    name of the descriptor file. *)
Variable ISO_REQUI_METAL : gset F.
Variable ISO_FILE_DESCRI : string.

Definition file_descriptor_path (iso : Isochrone) : path :=
  path_join (_path iso) (path_of_string ISO_FILE_DESCRI).

Definition has_file_descriptor (iso : Isochrone) (fs : filesystem) : bool :=
  bool_decide (is_Some (fs !! file_descriptor_path iso)).

(** The line the descriptor holds, followed by an empty line *)
Definition descriptor_text (iso : Isochrone) (magnames : list string)
  : string :=
  "Python_" ++ Isochrone_name iso ++ " "
    ++ pretty (List.length (_required_keys ++ magnames)) ++ " "
    ++ pretty (List.length _required_keys) ++ " "
    ++ pretty (List.length magnames) ++ " "
    ++ String.concat " " magnames
    ++ String "010" (String "010" "").

(** [Isochrone._write_file_descriptor]: the column order it returns and
    the file system after the call. *)
Definition _write_file_descriptor (iso : Isochrone)
  (isochrone_data : list (F * list string)) (fs : filesystem)
  : result (list string) * filesystem :=
  match isochrone_data with
  | [] => (raise ValueError, fs)
  | _ :: _ =>
      let metallicities : gset F := list_to_set (map fst isochrone_data) in
      let headers := map snd isochrone_data in
      if decide (metallicities = ISO_REQUI_METAL) then
        let check := distinct_headers [] headers in
        if decide (1 < List.length check)%nat then (raise ValueError, fs)
        else
          match check with
          | [] => (raise IndexError, fs)
          | header :: _ =>
              let remain : gset string :=
                list_to_set _required_keys ∖ list_to_set header in
              if decide (remain = ∅) then
                let magnames :=
                  sorted (elements ((list_to_set header : gset string)
                                      ∖ list_to_set _required_keys)) in
                match magnames with
                | [] => (raise ValueError, fs)
                | _ :: _ =>
                    let iso_column_order :=
                      (_required_keys ++ magnames)%list in
                    (ok iso_column_order,
                     <[file_descriptor_path iso
                         := TextFile (descriptor_text iso magnames)]> fs)
                end
              else (raise ValueError, fs)
          end
      else (raise ValueError, fs)
  end.

(** [Isochrone.mag_names] *)
Definition mag_names (iso : Isochrone) (fs : filesystem)
  : mag_error + list string :=
  match fs !! file_descriptor_path iso with
  | None => inl NotImplementedError
  | Some (TextFile content) =>
      inr (drop 4 (py_split (strip_newlines (readline content))))
  | Some (EbfFile _) => inl NotATextFile
  end.

(** [Isochrone.to_export_keys] *)
Definition to_export_keys (iso : Isochrone) (fs : filesystem)
  : mag_error + list string :=
  match mag_names iso fs with
  | inl e => inl e
  | inr names =>
      inr (map (fun mag_name =>
                  py_lower (Isochrone_name iso) ++ "_" ++ py_lower mag_name)
               names)
  end.

End IsochroneClass.

(** What the validation accepts: data that covers exactly the required
    metallicities, with one and the same header everywhere that holds all
    required columns and at least one more. *)
Definition valid_isochrone_data `{Countable F} (ISO_REQUI_METAL : gset F)
  (isochrone_data : list (F * list string)) (header : list string) : Prop :=
  isochrone_data <> []
  /\ list_to_set (map fst isochrone_data) = ISO_REQUI_METAL
  /\ Forall (fun x => snd x = header) isochrone_data
  /\ (forall k, k ∈ _required_keys -> k ∈ header)
  /\ exists c, c ∈ header /\ c ∉ _required_keys.

(** The magnitude columns of a header, as the descriptor lists them *)
Definition magnitude_columns (header : list string) : list string :=
  sorted (elements ((list_to_set header : gset string)
                      ∖ list_to_set _required_keys)).

(** An isochrone set on two metallicities with two magnitude columns *)
Definition sample_header : list string :=
  ["Age"; "M_ini"; "M_act"; "Lum"; "T_eff"; "Grav"; "F814W"; "F555W"].

Definition sample_isochrone_data : list (Z * list string) :=
  [(0%Z, sample_header); (1%Z, sample_header)].

Definition sample_metallicities : gset Z := {[ 0%Z; 1%Z ]}.

(** The same columns in another order, and a directory whose name has two
    words *)
Definition sample_header_reordered : list string :=
  ["Age"; "M_ini"; "M_act"; "Lum"; "T_eff"; "Grav"; "F555W"; "F814W"].

Definition sample_isochrone_two_words : Isochrone :=
  mkIsochrone (Path true ["iso"; "py_custom"; "my WFIRST"]).

Definition sample_descriptor : string := "IsoFileDescriptor.txt".

(** What the sample call returns and leaves behind *)
Definition sample_order : list string :=
  ["Age"; "M_ini"; "M_act"; "Lum"; "T_eff"; "Grav"; "F555W"; "F814W"].

Definition sample_descriptor_files (iso : Isochrone) : filesystem :=
  <[file_descriptor_path sample_descriptor iso
      := TextFile (descriptor_text iso ["F555W"; "F814W"])]> ∅.

(** ** Arrays with entries that are not finite

    The arrays above hold finite numbers.  [Input.__verify_particles]
    accepts arrays with entries [inf], [-inf] and [nan] as well; it is
    traced here a second time, on arrays that may hold them. *)
















(** * Properties *)

(** ** Reasoning about fallible computations *)

Lemma bind_ok_inv {A B} (m : result A) (f : A -> result B) (b : B) :
  (m ≫= f) = inr b -> exists a, m = inr a /\ f a = inr b.
Proof. destruct m as [e|a]; simpl; [discriminate | eauto]. Qed.


Lemma bind_raise {A B} (m : result A) (f : A -> result B) (e : exn) :
  m = inl e -> (m ≫= f) = inl e.
Proof. intros ->. reflexivity. Qed.

(** Split a successful sequence of binds into its successful steps. *)
Ltac bind_inv H :=
  repeat first
    [ apply bind_ok_inv in H;
      let a := fresh "x" in
      let Ha := fresh "E" in
      destruct H as (a & Ha & H)
    | match type of H with
      | (let '(_, _) := ?p in _) = _ => destruct p
      end ].

(** Use a successful or failing step and continue with the rest. *)
Ltac step H := rewrite H; cbn [mbind result_bind ok raise].

Section FileBased.
Variable GALAXIA_TMP : path.
Variable TTAGS_nres : string.

(** What the file-based branch leaves in the keyword arguments. *)
Lemma from_files_ok fs pn kn kw kw' :
  from_files fs pn kn kw = inr kw' ->
  kw_pname kw' = Some pn /\ kw_kname kw' = Some kn
  /\ is_Some (kw_rho_vel kw')
  /\ exists nm hd ng,
       parse_pname (path_name pn) = ok nm
       /\ parse_kname nm (path_name kn) = ok (hd, ng)
       /\ kw_name kw' = Some nm /\ kw_ngb kw' = Some (PyInt ng).
Proof.
  unfold from_files. intros H. bind_inv H.
  destruct (truthy _); bind_inv H; inversion H; subst; simpl; eauto 15.
Qed.

Lemma Input_init_files_inv fs kw i :
  Input_init GALAXIA_TMP TTAGS_nres fs NoArgs kw = inr i ->
  exists pn kn,
    kw_pname kw = Some pn /\ kw_kname kw = Some kn
    /\ pname_attr i = Some pn /\ kname_attr i = Some kn
    /\ is_Some (rho_vel i) /\ input_files_exist i = true
    /\ exists nm hd ng,
         parse_pname (path_name pn) = ok nm
         /\ parse_kname nm (path_name kn) = ok (hd, ng)
         /\ name i = nm /\ ngb i = PyInt ng.
Proof.
  unfold Input_init. intros H. bind_inv H.
  destruct (kw_pname kw) as [pn|] eqn:Hp; [|discriminate].
  destruct (kw_kname kw) as [kn|] eqn:Hk; [|discriminate].
  bind_inv E. inversion E; subst; clear E.
  apply from_files_ok in E4
    as (Hpn & Hkn & Hrv & nm & hd & ng & Hnm & Hng & Hname & Hngb).
  inversion H; subst; simpl. exists pn, kn.
  rewrite Hname, Hngb. simpl. eauto 20.
Qed.
End FileBased.

(** ** Inputs built from existing files *)

Section FileBasedClaims.
Variable GALAXIA_TMP : path.
Variable TTAGS_nres : string.

(** C10: an Input constructed from existing files always holds a velocity
    density, so its [hdim] is 6 whatever digit the kernel file name
    declares. *)
Theorem file_based_hdim_is_6 fs kw i :
  Input_init GALAXIA_TMP TTAGS_nres fs NoArgs kw = ok i ->
  rho_vel i <> None /\ hdim i = 6%Z.
Proof.
  intros H.
  apply Input_init_files_inv in H
    as (pn & kn & _ & _ & _ & _ & [rv Hrv] & _).
  unfold hdim. rewrite Hrv. split; [discriminate | reflexivity].
Qed.

(** C9: for an Input constructed from existing files, writing the kernels
    and writing the particles change neither the files nor the object,
    and return the paths the constructor was given. *)
Theorem file_based_writes_nothing fs kw i :
  Input_init GALAXIA_TMP TTAGS_nres fs NoArgs kw = ok i ->
  forall fs' : filesystem,
  exists pn kn,
    kw_pname kw = Some pn /\ kw_kname kw = Some kn
    /\ _write_kernels (World i fs') = (ok kn, World i fs')
    /\ _write_particles (World i fs') = (ok pn, World i fs').
Proof.
  intros H fs'.
  apply Input_init_files_inv in H
    as (pn & kn & Hp & Hk & Hpa & Hka & _ & Hex & _).
  exists pn, kn. repeat split; try assumption.
  - unfold _write_kernels, kname, get_self, mbind, M_bind. simpl.
    rewrite Hka. simpl. rewrite Hex. reflexivity.
  - unfold _write_particles, pname, get_self, mbind, M_bind. simpl.
    rewrite Hpa. simpl. rewrite Hex. reflexivity.
Qed.
End FileBasedClaims.

Lemma file_based_hdim_is_6_witness :
  exists i,
    Input_init sample_tmp "nres" sample_files NoArgs
      (file_kwargs sample_pname sample_kname_d3 None) = ok i
    /\ hdim i = 6%Z.
Proof.
  assert (exists i, Input_init sample_tmp "nres" sample_files NoArgs
                      (file_kwargs sample_pname sample_kname_d3 None) = ok i)
    as [i H] by (eexists; vm_compute; reflexivity).
  exists i. split; [exact H |].
  exact (proj2 (file_based_hdim_is_6 _ _ _ _ _ H)).
Defined.

Lemma file_based_writes_nothing_witness :
  exists i,
    Input_init sample_tmp "nres" sample_files NoArgs
      (file_kwargs sample_pname sample_kname None) = ok i
    /\ _write_kernels (World i sample_files)
       = (ok sample_kname, World i sample_files)
    /\ _write_particles (World i sample_files)
       = (ok sample_pname, World i sample_files).
Proof.
  assert (exists i, Input_init sample_tmp "nres" sample_files NoArgs
                      (file_kwargs sample_pname sample_kname None) = ok i)
    as [i H] by (eexists; vm_compute; reflexivity).
  exists i. split; [exact H |].
  destruct (file_based_writes_nothing _ _ _ _ _ H sample_files)
    as (pn & kn & Hp & Hk & Hwk & Hwp).
  simpl in Hp, Hk. inversion Hp; inversion Hk; subst. split; assumption.
Defined.

(** ** The regular expressions on sample names *)

Example findall_first_sim :
  findall_first "(.*).ebf" "sim.ebf" = ok ["sim"].
Proof. reflexivity. Qed.

Example findall_first_kernel :
  findall_first "sim_d(\d*)n(\d*)_den.ebf" "sim_d6n64_den.ebf" = ok ["6"; "64"].
Proof. reflexivity. Qed.

Example findall_first_unanchored :
  findall_first "sim_d(\d*)n(\d*)_den.ebf" "oldsim_d3n8_den_ebf.bak"
  = ok ["3"; "8"].
Proof. reflexivity. Qed.

Example findall_first_no_match :
  findall_first "sim_d(\d*)n(\d*)_den.ebf" "sim_6_64.ebf" = raise IndexError.
Proof. reflexivity. Qed.

(** ** Broadcasting on the shapes the code meets *)

Section NumpyFacts.
Local Open Scope R_scope.

Lemma zip_with_replicate_l {A B C} (f : A -> B -> C) (x : A) (l : list B) :
  zip_with f (replicate (List.length l) x) l = map (f x) l.
Proof. induction l as [|y l IH]; simpl; [reflexivity | now rewrite IH]. Qed.

Lemma zip_with_replicate_r {A B C} (f : A -> B -> C) (l : list A) (y : B) :
  zip_with f l (replicate (List.length l) y) = map (fun x => f x y) l.
Proof. induction l as [|x l IH]; simpl; [reflexivity | now rewrite IH]. Qed.

Lemma stretch_same {A} (l : list A) : stretch (List.length l) l = l.
Proof. destruct l as [|x [|y l]]; reflexivity. Qed.

Lemma broadcast_dim_same n : broadcast_dim n n = ok n.
Proof. unfold broadcast_dim. now rewrite decide_True. Qed.

Lemma broadcast_dim_1_l n : broadcast_dim 1 n = ok n.
Proof.
  unfold broadcast_dim. destruct (decide (1%nat = n)) as [<-|]; [reflexivity|].
  now rewrite decide_True.
Qed.

Lemma broadcast_dim_1_r n : broadcast_dim n 1 = ok n.
Proof.
  unfold broadcast_dim. destruct (decide (n = 1%nat)) as [->|]; [reflexivity|].
  destruct (decide (n = 1%nat)); [contradiction|]. now rewrite decide_True.
Qed.

Lemma broadcast_dim_mismatch m n :
  m <> n -> m <> 1%nat -> n <> 1%nat -> broadcast_dim m n = raise ValueError.
Proof.
  intros. unfold broadcast_dim. now rewrite !decide_False.
Qed.

(** scalar op vector *)
Lemma np_binop_scalar_arr1 op d s d' v :
  np_binop op d (Scalar s) (Arr1 d' v) = ok (Arr1 d (map (op s) v)).
Proof.
  unfold np_binop. simpl. rewrite broadcast_dim_1_l. simpl.
  now rewrite stretch_same, zip_with_replicate_l.
Qed.

(** vector op scalar *)
Lemma np_binop_arr1_scalar op d s d' v :
  np_binop op d (Arr1 d' v) (Scalar s) = ok (Arr1 d (map (fun x => op x s) v)).
Proof.
  unfold np_binop. simpl. rewrite broadcast_dim_1_r. simpl.
  now rewrite stretch_same, zip_with_replicate_r.
Qed.

(** vector op vector of the same length *)
Lemma np_binop_arr1_arr1 op d d1 d2 u v :
  List.length u = List.length v ->
  np_binop op d (Arr1 d1 u) (Arr1 d2 v) = ok (Arr1 d (zip_with op u v)).
Proof.
  intros Hl. unfold np_binop. simpl. rewrite Hl, broadcast_dim_same. simpl.
  rewrite stretch_same. rewrite <- Hl. now rewrite stretch_same.
Qed.

(** scalar op matrix with rows of the declared width *)
Lemma np_binop_scalar_arr2 op d s d' c rows :
  Forall (fun r => List.length r = c) rows ->
  np_binop op d (Scalar s) (Arr2 d' c rows) = ok (Arr2 d c (map (map (op s)) rows)).
Proof.
  intros Hw. unfold np_binop. simpl. rewrite !broadcast_dim_1_l. simpl.
  rewrite stretch_same, zip_with_replicate_l. do 2 f_equal.
  induction Hw as [|r rows Hr Hw IH]; simpl; [reflexivity|].
  f_equal; [| exact IH]. subst c.
  now rewrite stretch_same, zip_with_replicate_l.
Qed.

(** vector op matrix: the vector runs along the columns, so its length
    must be the number of columns (or one of the two is 1). *)
Lemma np_binop_arr1_arr2_mismatch op d d1 d2 v c rows :
  List.length v <> c -> List.length v <> 1%nat -> c <> 1%nat ->
  np_binop op d (Arr1 d1 v) (Arr2 d2 c rows) = raise ValueError.
Proof.
  intros H1 H2 H3. unfold np_binop. simpl. rewrite broadcast_dim_1_l. simpl.
  now rewrite broadcast_dim_mismatch.
Qed.

End NumpyFacts.

(** ** The cube root *)

Section CubeRoot.
Local Open Scope R_scope.

Lemma FOURTHIRDPI_pos : 0 < FOURTHIRDPI.
Proof. unfold FOURTHIRDPI. pose proof PI_RGT_0. lra. Qed.

Lemma Rpower_third_cube x : 0 < x -> Rpower x (/ 3) ^ 3 = x.
Proof.
  intros Hx.
  rewrite <- (Rpower_pow 3) by apply exp_pos.
  rewrite Rpower_mult.
  replace (/ 3 * INR 3) with 1 by (simpl; lra).
  now apply Rpower_1.
Qed.

Lemma cbrt_cube x : cbrt x ^ 3 = x.
Proof.
  unfold cbrt. destruct (Rlt_dec 0 x) as [Hp|Hp].
  - now apply Rpower_third_cube.
  - destruct (Rlt_dec x 0) as [Hn|Hn].
    + replace ((- Rpower (- x) (/ 3)) ^ 3) with (- (Rpower (- x) (/ 3) ^ 3))
        by ring.
      rewrite Rpower_third_cube by lra. ring.
    + assert (x = 0) by lra. subst. ring.
Qed.

Lemma cbrt_neq_0 x : x <> 0 -> cbrt x <> 0.
Proof.
  intros Hx Hc. apply Hx. rewrite <- (cbrt_cube x), Hc. ring.
Qed.

(** Deriving the kernel from a density and going back, entry by entry. *)
Lemma roundtrip_k_factor k p :
  p <> 0 -> k / cbrt (FOURTHIRDPI * p) * cbrt (FOURTHIRDPI * p) = k.
Proof.
  intros Hp. pose proof FOURTHIRDPI_pos.
  assert (cbrt (FOURTHIRDPI * p) <> 0) by (apply cbrt_neq_0; nra).
  now field.
Qed.

Lemma roundtrip_rho_vel k v :
  k <> 0 -> v <> 0 ->
  (k / (k / cbrt (FOURTHIRDPI * v))) ^ 3 / FOURTHIRDPI = v.
Proof.
  intros Hk Hv. pose proof FOURTHIRDPI_pos.
  assert (cbrt (FOURTHIRDPI * v) <> 0) by (apply cbrt_neq_0; nra).
  replace (k / (k / cbrt (FOURTHIRDPI * v))) with (cbrt (FOURTHIRDPI * v))
    by now field.
  rewrite cbrt_cube. field. lra.
Qed.

End CubeRoot.

(** ** Kernels of an Input *)

Section Kernels.
Local Open Scope R_scope.

Lemma transpose_pair (u v : list R) :
  List.length u = List.length v ->
  transpose (List.length u) [u; v] = zip_with (fun a b => [a; b]) u v.
Proof.
  unfold transpose. simpl.
  revert v. induction u as [|a u IH]; intros [|b v] Hl; try discriminate.
  - reflexivity.
  - simpl. rewrite <- seq_shift, map_map. simpl. f_equal.
    apply IH. now inversion Hl.
Qed.

Lemma vstack_T_pair d1 d2 (u v : list R) :
  List.length u = List.length v ->
  vstack_T (Arr1 d1 u) (Some (Arr1 d2 v))
  = ok (inl (Arr2 (promote d1 d2) 2 (zip_with (fun a b => [a; b]) u v))).
Proof.
  intros Hl. unfold vstack_T. simpl. rewrite decide_True by exact Hl.
  now rewrite transpose_pair.
Qed.

Lemma Forall_zip_pair_width (u v : list R) :
  Forall (fun r : list R => List.length r = 2%nat)
         (zip_with (fun a b => [a; b]) u v).
Proof.
  revert v. induction u as [|a u IH]; intros [|b v]; simpl; constructor; auto.
Qed.

Lemma float_dtype_idemp d : float_dtype (float_dtype d) = float_dtype d.
Proof. now destruct d. Qed.

(** The quotient [k_factor / cbrt((4/3) pi rho)] on two densities. *)
Lemma kernels_pair_formula i d1 d2 u v k :
  rho_pos i = Arr1 d1 u -> rho_vel i = Some (Arr1 d2 v) ->
  List.length u = List.length v -> k_factor i = Scalar k ->
  kernels i
  = ok (Arr2 (float_dtype (promote d1 d2)) 2
          (zip_with (fun p q => [k / cbrt (FOURTHIRDPI * p);
                                 k / cbrt (FOURTHIRDPI * q)]) u v)).
Proof.
  intros Hp Hv Hl Hk. unfold kernels, rho. rewrite Hp, Hv, Hk.
  rewrite vstack_T_pair by exact Hl. simpl.
  unfold np_mul. rewrite np_binop_scalar_arr2 by apply Forall_zip_pair_width.
  simpl. unfold np_div. rewrite np_binop_scalar_arr2.
  - simpl. rewrite !float_dtype_idemp. do 2 f_equal.
    rewrite !map_map. clear. revert v.
    induction u as [|a u IH]; intros [|b v]; simpl; try reflexivity.
    now rewrite IH.
  - rewrite !Forall_map. eapply Forall_impl; [apply Forall_zip_pair_width|].
    intros r Hr. simpl. now rewrite !length_map.
Qed.

(** The kernels of an Input holding both densities and a scalar
    [k_factor]: [k_factor / cbrt((4/3) pi rho)], entry by entry, for the
    position and the velocity density. *)
Theorem kernels_both_densities i d1 d2 u v k :
  rho_pos i = Arr1 d1 u -> rho_vel i = Some (Arr1 d2 v) ->
  List.length u = List.length v -> k_factor i = Scalar k ->
  kernels i
  = ok (Arr2 (float_dtype (promote d1 d2)) 2
          (zip_with (fun p q => [k / cbrt (FOURTHIRDPI * p);
                                 k / cbrt (FOURTHIRDPI * q)]) u v)).
Proof. apply kernels_pair_formula. Qed.


Lemma hdim_6_iff i : hdim i = 6%Z <-> rho_vel i <> None.
Proof. unfold hdim. destruct (rho_vel i); split; congruence. Qed.

Lemma hdim_3_iff i : hdim i = 3%Z <-> rho_vel i = None.
Proof. unfold hdim. destruct (rho_vel i); split; congruence. Qed.

Lemma kernels_none_raise i : rho_vel i = None -> raises (kernels i).
Proof.
  intros Hv. unfold kernels, rho, vstack_T. rewrite Hv.
  destruct (atleast_2d (rho_pos i)) as [[ra ca] xa].
  destruct (decide (ca = 1%nat)); simpl; eexists; reflexivity.
Qed.

(** C2: with no velocity density the Input has [hdim] 3, and its kernels
    cannot be derived: the [kernels] property raises instead of yielding
    [k_factor / cbrt((4/3) pi rho_pos)]. *)
Theorem kernels_without_rho_vel_raise i :
  rho_vel i = None -> hdim i = 3%Z /\ raises (kernels i).
Proof.
  intros Hv. split; [now apply hdim_3_iff|].
  unfold kernels, rho, vstack_T. rewrite Hv.
  destruct (atleast_2d (rho_pos i)) as [[ra ca] xa].
  destruct (decide (ca = 1%nat)); simpl; eexists; reflexivity.
Qed.

End Kernels.

Lemma kernels_without_rho_vel_raise_witness :
  exists i,
    Input_init sample_tmp "nres" ∅ (Args2 sample_particles sample_rho_pos)
      sample_kwargs = ok i
    /\ hdim i = 3%Z /\ raises (kernels i).
Proof.
  assert (exists i,
            Input_init sample_tmp "nres" ∅
              (Args2 sample_particles sample_rho_pos) sample_kwargs = ok i
            /\ rho_vel i = None)
    as (i & H & Hv) by (eexists; split; [vm_compute; reflexivity | reflexivity]).
  exists i. split; [exact H |].
  exact (kernels_without_rho_vel_raise i Hv).
Defined.

(** On three particles the failure is the [ValueError] of [np.vstack]. *)
Example kernels_without_rho_vel_sample :
  (i ← Input_init sample_tmp "nres" ∅ (Args2 sample_particles sample_rho_pos)
         sample_kwargs;
   kernels i) = raise ValueError.
Proof. vm_compute. reflexivity. Qed.

(** ** Validation and defaults at construction *)

Section Construction.
Variable GALAXIA_TMP : path.
Variable TTAGS_nres : string.

Lemma elem_of_mismatched_keys (d : gmap string ndarray) (c : ndarray) k :
  k ∈ mismatched_keys d c
  <-> exists a, d !! k = Some a /\ leading_dim a <> leading_dim c.
Proof.
  unfold mismatched_keys. rewrite elem_of_dom. unfold is_Some.
  setoid_rewrite map_lookup_filter_Some. naive_solver.
Qed.

Lemma compare_given_missing (given required optional : gset string) k :
  k ∈ required -> k ∉ given ->
  compare_given_and_required given required optional = raise SchemaError.
Proof.
  intros Hk Hn. unfold compare_given_and_required.
  rewrite decide_False; [reflexivity|]. intros [H _]. auto.
Qed.

Lemma compare_given_extra (given required optional : gset string) k :
  k ∈ given -> k ∉ required ∪ optional ->
  compare_given_and_required given required optional = raise SchemaError.
Proof.
  intros Hk Hn. unfold compare_given_and_required.
  rewrite decide_False; [reflexivity|]. intros [_ H]. auto.
Qed.

Lemma compare_given_ok (given required optional : gset string) :
  required ⊆ given -> given ⊆ required ∪ optional ->
  compare_given_and_required given required optional = ok tt.
Proof.
  intros. unfold compare_given_and_required. now rewrite decide_True.
Qed.

(** The positional call with two arguments takes the velocity density
    from the keyword arguments. *)
Lemma Input_init_Args2 fs p rp kw :
  Input_init GALAXIA_TMP TTAGS_nres fs (Args2 p rp) kw
  = Input_init GALAXIA_TMP TTAGS_nres fs (Args3 p rp (kw_rho_vel kw)) kw.
Proof. reflexivity. Qed.

Lemma Input_init_arrays fs p rp rv kw :
  Input_init GALAXIA_TMP TTAGS_nres fs (Args3 p rp rv) kw
  = (p' ← verify_particles p;
     kf ← default_k_factor (default (PyStr TTAGS_nres) (kw_ngb kw))
            (default (FormerBool false) (kw_former_kernel kw));
     ok (mkInput p' rp rv (default GALAXIA_TMP (kw_input_dir kw))
           (default "sim" (kw_name kw)) (kw_pname kw) (kw_kname kw)
           (default (PyStr TTAGS_nres) (kw_ngb kw))
           (default kf (kw_k_factor kw)) false)).
Proof. reflexivity. Qed.

(** C4: construction from arrays validates at once.  A mapping that lacks
    a required key, or holds a key that is neither required nor optional,
    is rejected with a SchemaError; a mapping with the right keys in which
    some array's length differs from that of the mass array is rejected
    with a LengthMismatchError that lists exactly the offending keys. *)
Theorem construction_validates fs (p : gmap string ndarray) rp rv kw :
  ((exists k, k ∈ _required_keys_in_particles /\ p !! k = None) ->
   Input_init GALAXIA_TMP TTAGS_nres fs (Args3 p rp rv) kw = raise SchemaError)
  /\ ((exists k, is_Some (p !! k) /\ k ∉ all_possible_keys_in_particles) ->
      Input_init GALAXIA_TMP TTAGS_nres fs (Args3 p rp rv) kw
      = raise SchemaError)
  /\ (_required_keys_in_particles ⊆ dom p ->
      dom p ⊆ all_possible_keys_in_particles ->
      forall m, p !! _mass = Some m ->
      (exists k a, p !! k = Some a /\ leading_dim a <> leading_dim m) ->
      exists bad,
        Input_init GALAXIA_TMP TTAGS_nres fs (Args3 p rp rv) kw
        = raise (LengthMismatchError bad)
        /\ forall k, k ∈ bad
                     <-> exists a, p !! k = Some a
                                   /\ leading_dim a <> leading_dim m).
Proof.
  rewrite Input_init_arrays. unfold verify_particles. repeat split.
  - intros (k & Hk & Hn).
    rewrite (compare_given_missing _ _ _ k); [reflexivity | exact Hk |].
    now apply not_elem_of_dom.
  - intros (k & Hk & Hn).
    rewrite (compare_given_extra _ _ _ k); [reflexivity | | exact Hn].
    now apply elem_of_dom.
  - intros Hreq Hall m Hm (k & a & Hk & Hne).
    rewrite compare_given_ok by assumption. simpl.
    unfold confirm_equal_length_arrays_in_dict, getitem. rewrite Hm. simpl.
    exists (mismatched_keys p m). split.
    + rewrite (decide_False (P := mismatched_keys p m = ∅)); [reflexivity|].
      intros He. assert (Hin : k ∈ mismatched_keys p m)
        by (apply elem_of_mismatched_keys; eauto).
      rewrite He in Hin. now apply not_elem_of_empty in Hin.
    + intros k'. apply elem_of_mismatched_keys.
Qed.

End Construction.

Lemma construction_validates_witness :
  Input_init sample_tmp "nres" ∅
    (Args3 sample_missing_mass sample_rho_pos (Some sample_rho_vel))
    sample_kwargs = raise SchemaError
  /\ Input_init sample_tmp "nres" ∅
       (Args3 sample_extra_key sample_rho_pos (Some sample_rho_vel))
       sample_kwargs = raise SchemaError
  /\ exists bad,
       Input_init sample_tmp "nres" ∅
         (Args3 sample_short_age sample_rho_pos (Some sample_rho_vel))
         sample_kwargs = raise (LengthMismatchError bad)
       /\ _age ∈ bad.
Proof.
  split; [| split].
  - apply (proj1 (construction_validates sample_tmp "nres" ∅
                    sample_missing_mass sample_rho_pos (Some sample_rho_vel)
                    sample_kwargs)).
    exists _mass. split; [vm_compute; reflexivity | reflexivity].
  - apply (proj1 (proj2 (construction_validates sample_tmp "nres" ∅
                           sample_extra_key sample_rho_pos
                           (Some sample_rho_vel) sample_kwargs))).
    exists "spin". split; [eexists; reflexivity | vm_compute; intros H; discriminate H].
  - destruct (proj2 (proj2 (construction_validates sample_tmp "nres" ∅
                              sample_short_age sample_rho_pos
                              (Some sample_rho_vel) sample_kwargs)))
      with (m := sample_col) as (bad & Hbad & Hin).
    + compute_done.
    + compute_done.
    + reflexivity.
    + exists _age, (Arr1 Float64 [1; 2]%R). split; [reflexivity|].
      simpl. intros H. discriminate H.
    + exists bad. split; [exact Hbad|]. apply Hin.
      exists (Arr1 Float64 [1; 2]%R). split; [reflexivity|].
      simpl. intros H. discriminate H.
Defined.

(** ** Defaults filled in by the constructor *)

Section Defaults.
Variable GALAXIA_TMP : path.
Variable TTAGS_nres : string.






Lemma int_times_zero m :
  dtype_of (int_times 0 m) = dtype_of m
  /\ leading_dim (int_times 0 m) = leading_dim m
  /\ Forall (eq 0%R) (flatten (int_times 0 m)).
Proof.
  assert (Hz : forall v, Forall (eq 0%R) (map (Rmult 0) v)).
  { intros v. apply Forall_map, Forall_forall. intros x _. simpl. ring. }
  destruct m as [x | d v | d c rows]; simpl; repeat split.
  - repeat constructor. ring.
  - now rewrite length_map.
  - apply Hz.
  - now rewrite length_map.
  - apply Forall_concat, Forall_map, Forall_forall. intros r _. apply Hz.
Qed.

(** The particle dictionary after validation, for a valid particle set. *)
Definition with_defaults (p : gmap string ndarray) (n : nat) (m : ndarray)
  : gmap string ndarray :=
  let p1 := if decide (_parentid ∈ dom p) then p
            else <[_parentid := np_arange n]> p in
  if decide (_dform ∈ dom p1) then p1 else <[_dform := int_times 0 m]> p1.



(** *** Entries that are not finite *)










End Defaults.


(** ** Writing the particle file *)

Section Writers.
Variable GALAXIA_TMP : path.
Variable TTAGS_nres : string.

Lemma M_bind_ok {A B} (m : M A) (f : A -> M B) (w : world) (a : A)
  (w' : world) :
  m w = (ok a, w') -> (m ≫= f) w = f a w'.
Proof. intros H. unfold mbind, M_bind. now rewrite H. Qed.

Lemma M_bind_raise {A B} (m : M A) (f : A -> M B) (w : world) (e : exn)
  (w' : world) :
  m w = (raise e, w') -> (m ≫= f) w = (raise e, w').
Proof. intros H. unfold mbind, M_bind. now rewrite H. Qed.

(** A loop of [ebf.write] over distinct names not yet in the file. *)
Lemma for_each_write (pn : path) (data : string -> result ndarray) (i : Input)
  (l : list string) :
  forall (fs : filesystem) (items : gmap string ndarray),
    NoDup l ->
    (forall k, k ∈ l -> items !! k = None) ->
    (forall k, k ∈ l -> exists a, data k = ok a) ->
    fs !! pn = Some (EbfFile items) ->
    exists items',
      for_each l (fun key => d ← lift (data key);
                             update_files (ebf_write pn key d)) (World i fs)
      = (ok tt, World i (<[pn := EbfFile items']> fs))
      /\ (forall k a, k ∈ l -> data k = ok a -> items' !! k = Some a)
      /\ (forall k, k ∉ l -> items' !! k = items !! k).
Proof.
  induction l as [|k l IH]; intros fs items Hnd Hfree Hdata Hfs.
  - exists items. split; [| split].
    + simpl. now rewrite insert_id.
    + intros k a Hk. now apply elem_of_nil in Hk.
    + reflexivity.
  - apply NoDup_cons in Hnd as [Hk Hnd].
    destruct (Hdata k) as [a Ha]; [left|].
    assert (Hw : ebf_write pn k a fs
                 = ok (<[pn := EbfFile (<[k := a]> items)]> fs)).
    { unfold ebf_write. rewrite Hfs, Hfree; [reflexivity | left]. }
    destruct (IH (<[pn := EbfFile (<[k := a]> items)]> fs) (<[k := a]> items))
      as (items' & Hrun & Hin & Hout); try assumption.
    + intros k' Hk'. rewrite lookup_insert_ne by (intros ->; contradiction).
      apply Hfree. now right.
    + intros k' Hk'. apply Hdata. now right.
    + apply lookup_insert_eq.
    + exists items'. split; [| split].
      * simpl. unfold mbind at 1, M_bind at 1.
        unfold mbind at 1, M_bind at 1, lift, update_files. simpl.
        rewrite Ha. simpl. rewrite Hw. simpl.
        rewrite insert_insert_eq in Hrun. exact Hrun.
      * intros k' a' Hk' Ha'. apply elem_of_cons in Hk' as [->|Hk'].
        -- rewrite (Hout k Hk), lookup_insert_eq.
           rewrite Ha in Ha'. now inversion Ha'.
        -- now apply Hin.
      * intros k' Hk'. apply not_elem_of_cons in Hk' as [Hne Hk'].
        rewrite (Hout k' Hk'). now apply lookup_insert_ne.
Qed.


Lemma required_optional_disjoint :
  _required_keys_in_particles ## _optional_keys_in_particles.
Proof. compute_done. Qed.

(** The optional entry written for [key]. *)
Definition optional_entry (i : Input) (key : string) : result ndarray :=
  if decide (key ∈ keys i) then getitem (particles i) key
  else n ← length i; ok (np_zeros n).

Lemma optional_entry_ok i n key :
  length i = ok n ->
  optional_entry i key = ok (default (np_zeros n) (particles i !! key)).
Proof.
  intros Hn. unfold optional_entry, keys, getitem.
  destruct (decide (key ∈ dom (particles i))) as [Hk|Hk].
  - apply elem_of_dom in Hk as [a Ha]. now rewrite Ha.
  - apply not_elem_of_dom in Hk. now rewrite Hk, Hn.
Qed.




End Writers.


(** ** The parameter file *)

Section ParameterFile.
Variables TTAGS_photo_categ TTAGS_photo_sys TTAGS_mag_color_names
          TTAGS_nres : string.
Variable DEFAULT_PARFILE : path.
Variable DEFAULTS_FOR_PARFILE : gmap string pyval.
Variable PARFILE_TEMPLATE_substitute : gmap string pyval -> result string.

Let mandatory := mandatory_fields TTAGS_photo_categ TTAGS_photo_sys
                   TTAGS_mag_color_names TTAGS_nres.
Let write_parameter_file :=
  _write_parameter_file TTAGS_photo_categ TTAGS_photo_sys
    TTAGS_mag_color_names TTAGS_nres DEFAULT_PARFILE DEFAULTS_FOR_PARFILE
    PARFILE_TEMPLATE_substitute.

Let names := mandatory_names TTAGS_photo_categ TTAGS_photo_sys
               TTAGS_mag_color_names TTAGS_nres.

Lemma dom_mandatory_fields i iso cmd :
  dom (mandatory i iso cmd) = names.
Proof.
  unfold mandatory, mandatory_fields, names, mandatory_names.
  rewrite !dom_insert_L, dom_empty_L. apply set_eq. intros k.
  rewrite !elem_of_union, !elem_of_singleton, elem_of_empty. tauto.
Qed.

Lemma merge_keywords_disjoint (d1 d2 : gmap string pyval) :
  dom d1 ## dom d2 -> merge_keywords d1 d2 = ok (d1 ∪ d2).
Proof.
  intros H. apply disjoint_intersection_L in H. unfold merge_keywords.
  destruct (decide _) as [_|Hn]; [reflexivity | contradiction].
Qed.

Lemma merge_keywords_clash (d1 d2 : gmap string pyval) k :
  k ∈ dom d1 -> k ∈ dom d2 -> merge_keywords d1 d2 = raise TypeError.
Proof.
  intros H1 H2. unfold merge_keywords.
  destruct (decide _) as [Hd|_]; [| reflexivity].
  apply disjoint_intersection_L in Hd. destruct (Hd k H1 H2).
Qed.

(** C5, as the code has it: the resolved mapping holds the four mandatory
    fields and the caller's overrides on top of the defaults, and the
    function returns the written path with it, provided no override is
    named like a mandatory field; an override so named makes the call
    fail with a [TypeError] before anything is written. *)
Theorem parameter_file_merge i fs iso cmd (kw : gmap string pyval) parfile :
  pop_parfile DEFAULT_PARFILE kw = ok parfile ->
  let kw' := delete "parfile" kw in
  let target := if absolute parfile then parfile
                else path_join (input_dir i) parfile in
  ((forall k, k ∈ names -> kw' !! k = None) ->
   forall text,
     PARFILE_TEMPLATE_substitute
       ((mandatory i iso cmd ∪ kw') ∪ DEFAULTS_FOR_PARFILE) = ok text ->
     exists mapping,
       write_parameter_file iso cmd kw (World i fs)
       = (ok (target, mapping), World i (<[target := TextFile text]> fs))
       /\ mapping !! TTAGS_nres = Some (pyval_of_scalar (ngb i))
       /\ (forall k, k ∈ names ->
                     mapping !! k = mandatory i iso cmd !! k
                     /\ is_Some (mapping !! k))
       /\ (forall k v, kw' !! k = Some v -> mapping !! k = Some v)
       /\ (forall k, k ∉ names -> kw' !! k = None ->
                     mapping !! k = DEFAULTS_FOR_PARFILE !! k))
  /\ (forall k, k ∈ names -> is_Some (kw' !! k) ->
      write_parameter_file iso cmd kw (World i fs)
      = (raise TypeError, World i fs)).
Proof.
  intros Hpop kw' target. split.
  - intros Hfree text Htext.
    assert (Hdis : dom (mandatory i iso cmd) ## dom kw').
    { rewrite dom_mandatory_fields. intros k Hk Hk'.
      apply elem_of_dom in Hk'. rewrite (Hfree k Hk) in Hk'.
      now destruct Hk'. }
    exists ((mandatory i iso cmd ∪ kw') ∪ DEFAULTS_FOR_PARFILE).
    assert (Hmand : forall k, k ∈ names ->
              ((mandatory i iso cmd ∪ kw') ∪ DEFAULTS_FOR_PARFILE) !! k
              = mandatory i iso cmd !! k
              /\ is_Some (((mandatory i iso cmd ∪ kw') ∪ DEFAULTS_FOR_PARFILE)
                            !! k)).
    { intros k Hk. rewrite <- dom_mandatory_fields with (i := i) (iso := iso)
        (cmd := cmd) in Hk. apply elem_of_dom in Hk as [v Hv].
      rewrite (lookup_union_Some_l _ _ _ v); [rewrite Hv; eauto|].
      now apply lookup_union_Some_l. }
    split; [| split; [| split; [| split]]].
    + unfold write_parameter_file, _write_parameter_file.
      rewrite (M_bind_ok get_self _ (World i fs) i (World i fs) eq_refl).
      rewrite (M_bind_ok (lift (pop_parfile DEFAULT_PARFILE kw)) _
                 (World i fs) parfile (World i fs))
        by (unfold lift; now rewrite Hpop).
      cbv zeta.
      rewrite (M_bind_ok (lift (merge_keywords _ _)) _ (World i fs)
                 (mandatory i iso cmd ∪ kw') (World i fs))
        by (unfold lift; fold mandatory; fold kw';
            now rewrite (merge_keywords_disjoint _ _ Hdis)).
      rewrite (M_bind_ok (lift (PARFILE_TEMPLATE_substitute _)) _ (World i fs)
                 text (World i fs))
        by (unfold lift; now rewrite Htext).
      reflexivity.
    + destruct (Hmand TTAGS_nres) as [-> _].
      * unfold names, mandatory_names.
        rewrite !elem_of_union, !elem_of_singleton. tauto.
      * unfold mandatory, mandatory_fields. apply lookup_insert_eq.
    + exact Hmand.
    + intros k v Hv. apply lookup_union_Some_l, lookup_union_Some_raw.
      right. split; [| exact Hv].
      apply not_elem_of_dom. intros Hk. apply (Hdis k Hk).
      apply elem_of_dom. eauto.
    + intros k Hk Hkw.
      rewrite <- dom_mandatory_fields with (i := i) (iso := iso) (cmd := cmd)
        in Hk. apply not_elem_of_dom in Hk.
      rewrite lookup_union_r; [reflexivity|].
      apply lookup_union_None. split; assumption.
  - intros k Hk Hkw.
    unfold write_parameter_file, _write_parameter_file.
    rewrite (M_bind_ok get_self _ (World i fs) i (World i fs) eq_refl).
    rewrite (M_bind_ok (lift (pop_parfile DEFAULT_PARFILE kw)) _
               (World i fs) parfile (World i fs))
      by (unfold lift; now rewrite Hpop).
    cbv zeta.
    apply M_bind_raise. unfold lift. f_equal.
    apply (merge_keywords_clash _ _ k).
    + fold mandatory. now rewrite dom_mandatory_fields.
    + now apply elem_of_dom.
Qed.

End ParameterFile.

(** C5, as stated, fails: a caller override named like the mandatory
    neighbour-count field does not lose to the mandatory value; the call
    raises and returns no path and no mapping. *)
Lemma parameter_file_override_raises :
  sample_write_parameter_file (<["nres" := VInt 32]> ∅)
    (World sample_input ∅)
  = (raise TypeError, World sample_input ∅)
  /\ ~ (exists r w, sample_write_parameter_file (<["nres" := VInt 32]> ∅)
                      (World sample_input ∅) = (ok r, w)).
Proof.
  assert (H : sample_write_parameter_file (<["nres" := VInt 32]> ∅)
                (World sample_input ∅)
              = (raise TypeError, World sample_input ∅))
    by (vm_compute; reflexivity).
  split; [exact H|]. intros (r & w & Hr). rewrite H in Hr. discriminate Hr.
Qed.

Lemma parameter_file_merge_witness :
  (exists mapping,
     sample_write_parameter_file (<["fSample" := VInt 5]> ∅)
       (World sample_input ∅)
     = (ok (Path true ["data"; "galaxia_param"], mapping),
        World sample_input
          (<[Path true ["data"; "galaxia_param"] := TextFile "rendered"]> ∅))
     /\ mapping !! "nres" = Some (VInt 64)
     /\ mapping !! "fSample" = Some (VInt 5))
  /\ sample_write_parameter_file (<["photoSys" := VStr "UBV"]> ∅)
       (World sample_input ∅)
     = (raise TypeError, World sample_input ∅).
Proof.
  assert (Hpop1 : pop_parfile (Path false ["galaxia_param"])
                    (<["fSample" := VInt 5]> ∅)
                  = ok (Path false ["galaxia_param"]))
    by (vm_compute; reflexivity).
  assert (Hpop2 : pop_parfile (Path false ["galaxia_param"])
                    (<["photoSys" := VStr "UBV"]> ∅)
                  = ok (Path false ["galaxia_param"]))
    by (vm_compute; reflexivity).
  split.
  - destruct (proj1 (parameter_file_merge "photoCateg" "photoSys"
                "magcolorNames" "nres" (Path false ["galaxia_param"])
                sample_defaults sample_substitute sample_input ∅
                sample_isochrone (VStr "F814W,F555W-F814W")
                (<["fSample" := VInt 5]> ∅) (Path false ["galaxia_param"])
                Hpop1))
      with (text := "rendered") as (mapping & Hrun & Hnres & _ & Hkw & _).
    + intros k Hk.
      assert (Hne : k <> "fSample") by (intros ->; revert Hk; compute_done).
      apply lookup_delete_None. right.
      rewrite lookup_insert_ne by congruence. apply lookup_empty.
    + vm_compute. reflexivity.
    + exists mapping. split; [exact Hrun|]. split; [exact Hnres|].
      apply Hkw. vm_compute. reflexivity.
  - apply (proj2 (parameter_file_merge "photoCateg" "photoSys"
               "magcolorNames" "nres" (Path false ["galaxia_param"])
               sample_defaults sample_substitute sample_input ∅
               sample_isochrone (VStr "F814W,F555W-F814W")
               (<["photoSys" := VStr "UBV"]> ∅) (Path false ["galaxia_param"])
               Hpop2) "photoSys").
    + compute_done.
    + exists (VStr "UBV"). vm_compute. reflexivity.
Defined.

(** ** Reconstruction from a kernel file *)

Section Reconstruction.
Local Open Scope R_scope.


Lemma np_mul_scalar_arr1 s d v :
  np_mul (Scalar s) (Arr1 d v) = ok (Arr1 (float_dtype d) (map (Rmult s) v)).
Proof. unfold np_mul. now rewrite np_binop_scalar_arr1. Qed.

Lemma np_mul_arr1_arr1 d1 d2 u v :
  List.length u = List.length v ->
  np_mul (Arr1 d1 u) (Arr1 d2 v) = ok (Arr1 (promote d1 d2) (zip_with Rmult u v)).
Proof. intros H. unfold np_mul. now rewrite np_binop_arr1_arr1. Qed.

Lemma np_div_arr1_scalar d v s :
  np_div (Arr1 d v) (Scalar s)
  = ok (Arr1 (float_dtype d) (map (fun x => x / s) v)).
Proof.
  unfold np_div. rewrite np_binop_arr1_scalar. simpl.
  now rewrite float_dtype_idemp.
Qed.


Lemma np_div_arr1_arr1 d1 d2 u v :
  List.length u = List.length v ->
  np_div (Arr1 d1 u) (Arr1 d2 v)
  = ok (Arr1 (float_dtype (promote d1 d2)) (zip_with Rdiv u v)).
Proof. intros H. unfold np_div. now rewrite np_binop_arr1_arr1. Qed.

Lemma column_arr2 j d c rows :
  (j < c)%nat ->
  column j (Arr2 d c rows) = ok (Arr1 d (map (fun r => nth j r 0) rows)).
Proof. intros H. unfold column. now rewrite decide_True. Qed.

Lemma zip_with_map_map {A B C D E} (f : C -> D -> E) (g : A -> C) (h : B -> D)
  (l : list A) (k : list B) :
  zip_with f (map g l) (map h k) = zip_with (fun a b => f (g a) (h b)) l k.
Proof.
  revert k. induction l as [|a l IH]; intros [|b k]; simpl; try reflexivity.
  now rewrite IH.
Qed.

Lemma zip_with_map_l {A B C D} (f : C -> B -> D) (g : A -> C) (l : list A)
  (k : list B) :
  zip_with f (map g l) k = zip_with (fun a b => f (g a) b) l k.
Proof.
  revert k. induction l as [|a l IH]; intros [|b k]; simpl; try reflexivity.
  now rewrite IH.
Qed.

Lemma zip_with_map_r {A B C D} (f : A -> C -> D) (h : B -> C) (l : list A)
  (k : list B) :
  zip_with f l (map h k) = zip_with (fun a b => f a (h b)) l k.
Proof.
  revert k. induction l as [|a l IH]; intros [|b k]; simpl; try reflexivity.
  now rewrite IH.
Qed.

Lemma map_zip_with_fuse {A B C D} (f : C -> D) (g : A -> B -> C) (l : list A)
  (k : list B) :
  map f (zip_with g l k) = zip_with (fun a b => f (g a b)) l k.
Proof.
  revert k. induction l as [|a l IH]; intros [|b k]; simpl; try reflexivity.
  now rewrite IH.
Qed.






(** The keyword arguments left by the current convention. *)
Lemma from_files_current_eq fs pn kn kw nm hd ng parts_ kfile mass_ dr rho_ dh
  rows :
  path_parent pn = path_parent kn ->
  parse_pname (path_name pn) = ok nm ->
  parse_kname nm (path_name kn) = ok (hd, ng) ->
  ebf_read fs pn = ok parts_ -> ebf_read fs kn = ok kfile ->
  kfile !! _mass = Some mass_ ->
  kfile !! _density = Some (Arr1 dr rho_) ->
  kfile !! _kernels = Some (Arr2 dh 2 rows) ->
  List.length rows = List.length rho_ ->
  truthy (default (FormerBool false) (kw_former_kernel kw)) = false ->
  let kf := zip_with (fun r p => nth 0 r 0 * cbrt (FOURTHIRDPI * p)) rows rho_ in
  exists dk dv,
    from_files fs pn kn kw
    = ok (mkKwargs (Some parts_) (Some (Arr1 dr rho_))
            (Some (Arr1 dv (zip_with (fun k r => (k / nth 1 r 0) ^ 3
                                                 / FOURTHIRDPI) kf rows)))
            (Some (path_parent pn)) (Some nm) (Some pn) (Some kn)
            (Some (PyInt ng)) (Some (Arr1 dk kf)) (kw_former_kernel kw)).
Proof.
  intros Hpar Hnm Hng Hp Hk Hmass Hden Hker Hlen Hfk kf.
  eexists _, _. unfold from_files.
  rewrite (decide_True (P := path_parent pn = path_parent kn)) by exact Hpar.
  cbn [mbind result_bind ok raise].
  step Hnm. step Hng. step Hp. step Hk.
  unfold getitem. rewrite Hmass, Hden, Hker. cbn [mbind result_bind ok raise].
  step (column_arr2 0 dh 2 rows ltac:(lia)).
  step np_mul_scalar_arr1.
  unfold np_cbrt, np_map.
  rewrite np_mul_arr1_arr1 by (now rewrite !length_map).
  cbn [mbind result_bind ok raise].
  rewrite Hfk.
  step (column_arr2 1 dh 2 rows ltac:(lia)).
  rewrite np_div_arr1_arr1 by (rewrite length_zip_with, !length_map; lia).
  cbn [mbind result_bind ok raise].
  unfold np_cube, np_map.
  step np_div_arr1_scalar.
  cbn [kw_particles kw_rho_pos kw_rho_vel kw_input_dir kw_name kw_pname
       kw_kname kw_ngb kw_k_factor kw_former_kernel].
  unfold ok. do 2 f_equal.
  - do 2 f_equal. subst kf.
    rewrite !map_map, zip_with_map_map, zip_with_map_r, map_zip_with_fuse.
    reflexivity.
  - do 2 f_equal. subst kf. rewrite map_map, zip_with_map_map. reflexivity.
Qed.

(** A kernel file with [n] densities and [n] rows of two kernel lengths,
    read under the current convention: the factor is
    [h_cubic[:,0] * cbrt((4/3) pi density)] and the velocity density
    [(factor / h_cubic[:,1])^3 / ((4/3) pi)], entry by entry. *)
Theorem from_files_current fs pn kn kw nm hd ng parts_ kfile mass_ dr rho_ dh
  rows :
  path_parent pn = path_parent kn ->
  parse_pname (path_name pn) = ok nm ->
  parse_kname nm (path_name kn) = ok (hd, ng) ->
  ebf_read fs pn = ok parts_ -> ebf_read fs kn = ok kfile ->
  kfile !! _mass = Some mass_ ->
  kfile !! _density = Some (Arr1 dr rho_) ->
  kfile !! _kernels = Some (Arr2 dh 2 rows) ->
  List.length rows = List.length rho_ ->
  truthy (default (FormerBool false) (kw_former_kernel kw)) = false ->
  let kf := zip_with (fun r p => nth 0 r 0 * cbrt (FOURTHIRDPI * p)) rows rho_ in
  exists dk dv,
    from_files fs pn kn kw
    = ok (mkKwargs (Some parts_) (Some (Arr1 dr rho_))
            (Some (Arr1 dv (zip_with (fun k r => (k / nth 1 r 0) ^ 3
                                                 / FOURTHIRDPI) kf rows)))
            (Some (path_parent pn)) (Some nm) (Some pn) (Some kn)
            (Some (PyInt ng)) (Some (Arr1 dk kf)) (kw_former_kernel kw)).
Proof. apply from_files_current_eq. Qed.









End Reconstruction.




(** ** The round trip through the files *)

Section RoundTrip.
Variable GALAXIA_TMP : path.
Variable TTAGS_nres : string.

(** C1 on three particles: the files written by a fresh Input are read
    back with the same density and mass, but the kernels of the second
    Input cannot be derived.  Its [k_factor] is an array with one entry per
    particle, and dividing it by the array of shape [(3, 2)] is a
    broadcasting [ValueError]; the first Input yields its kernels. *)
Theorem roundtrip_kernels_raise :
  let fresh :=
    Input_init GALAXIA_TMP TTAGS_nres ∅
      (Args3 sample_particles sample_rho_pos (Some sample_rho_vel))
      sample_kwargs in
  let reloaded :=
    i1 ← fresh; write_then_reload GALAXIA_TMP TTAGS_nres i1 ∅ None in
  (i2 ← reloaded; ok (rho_pos i2, particles i2 !! _mass))
  = (i1 ← fresh; ok (rho_pos i1, particles i1 !! _mass))
  /\ (i1 ← fresh; i2 ← reloaded; ok (ndim (k_factor i1), ndim (k_factor i2)))
     = ok (0, 1)
  /\ (exists k, (i1 ← fresh; kernels i1) = ok k)
  /\ (i2 ← reloaded; kernels i2) = raise ValueError.
Proof.
  cbv zeta. split; [| split; [| split]].
  - vm_compute. reflexivity.
  - vm_compute. reflexivity.
  - eexists. vm_compute. reflexivity.
  - vm_compute. reflexivity.
Qed.

End RoundTrip.

(** * Further properties of the code *)

(** ** The signatures of the constructor *)

Section Signatures.
Variable GALAXIA_TMP : path.
Variable TTAGS_nres : string.

(** A call with one or more than three positional arguments re-raises
    without an active exception; a call without positional arguments needs
    both [pname] and [kname], even when it gives the particles and the
    density by keyword; and the two files must share their directory. *)
Theorem wrong_signatures fs kw :
  Input_init GALAXIA_TMP TTAGS_nres fs ArgsOther kw = raise RuntimeError
  /\ (kw_pname kw = None \/ kw_kname kw = None ->
      Input_init GALAXIA_TMP TTAGS_nres fs NoArgs kw = raise ValueError)
  /\ (forall pn kn,
        kw_pname kw = Some pn -> kw_kname kw = Some kn ->
        path_parent pn <> path_parent kn ->
        Input_init GALAXIA_TMP TTAGS_nres fs NoArgs kw = raise ValueError).
Proof.
  split; [reflexivity|]. split.
  - intros [H|H]; unfold Input_init; rewrite H; [reflexivity|].
    now destruct (kw_pname kw).
  - intros pn kn Hp Hk Hne. unfold Input_init, from_files. rewrite Hp, Hk.
    now rewrite (decide_False (P := path_parent pn = path_parent kn)).
Qed.

(** Reading the kernel file: the constructor looks up [mass] although it
    does not use it, then [density], then the two columns of [h_cubic]. *)
Theorem kernel_file_format_errors fs pn kn kw nm hd ng parts_ kfile :
  kw_pname kw = Some pn -> kw_kname kw = Some kn ->
  path_parent pn = path_parent kn ->
  parse_pname (path_name pn) = ok nm ->
  parse_kname nm (path_name kn) = ok (hd, ng) ->
  ebf_read fs pn = ok parts_ -> ebf_read fs kn = ok kfile ->
  (kfile !! _mass = None ->
   Input_init GALAXIA_TMP TTAGS_nres fs NoArgs kw = raise (KeyError "mass"))
  /\ (is_Some (kfile !! _mass) -> kfile !! _density = None ->
      Input_init GALAXIA_TMP TTAGS_nres fs NoArgs kw
      = raise (KeyError "density"))
  /\ (is_Some (kfile !! _mass) -> is_Some (kfile !! _density) ->
      kfile !! _kernels = None ->
      Input_init GALAXIA_TMP TTAGS_nres fs NoArgs kw
      = raise (KeyError "h_cubic"))
  /\ (forall d v,
        is_Some (kfile !! _mass) -> is_Some (kfile !! _density) ->
        kfile !! _kernels = Some (Arr1 d v) ->
        Input_init GALAXIA_TMP TTAGS_nres fs NoArgs kw = raise IndexError).
Proof.
  intros Hp Hk Hpar Hnm Hng Hrp Hrk.
  assert (Hpre : forall X,
    from_files fs pn kn kw = inl X ->
    Input_init GALAXIA_TMP TTAGS_nres fs NoArgs kw = inl X).
  { intros X HX. unfold Input_init. rewrite Hp, Hk, HX. reflexivity. }
  assert (Hopen : forall X,
    (_mass_ ← getitem kfile _mass;
     density ← getitem kfile _density;
     h ← getitem kfile _kernels;
     h0 ← column 0 h; ok h0) = inl X ->
    from_files fs pn kn kw = inl X).
  { intros X HX. unfold from_files.
    rewrite (decide_True (P := path_parent pn = path_parent kn)) by exact Hpar.
    cbn [mbind result_bind ok raise].
    step Hnm. step Hng. step Hrp. step Hrk.
    destruct (getitem kfile _mass) as [e|m];
      cbn [mbind result_bind ok raise] in HX |- *;
      [now inversion HX|].
    destruct (getitem kfile _density) as [e|r];
      cbn [mbind result_bind ok raise] in HX |- *;
      [now inversion HX|].
    destruct (getitem kfile _kernels) as [e|h];
      cbn [mbind result_bind ok raise] in HX |- *;
      [now inversion HX|].
    destruct (column 0 h) as [e|h0];
      cbn [mbind result_bind ok raise] in HX |- *;
      [now inversion HX | discriminate HX]. }
  repeat split.
  - intros Hm. apply Hpre, Hopen. unfold getitem. now rewrite Hm.
  - intros [m Hm] Hd. apply Hpre, Hopen. unfold getitem. now rewrite Hm, Hd.
  - intros [m Hm] [r Hr] Hh. apply Hpre, Hopen. unfold getitem.
    now rewrite Hm, Hr, Hh.
  - intros d v [m Hm] [r Hr] Hh. apply Hpre, Hopen. unfold getitem.
    now rewrite Hm, Hr, Hh.
Qed.

End Signatures.

Lemma kernel_file_format_errors_witness :
  Input_init sample_tmp "nres"
    (<[sample_kname := EbfFile (delete _mass sample_kernel_file)]> sample_files)
    NoArgs (file_kwargs sample_pname sample_kname None)
  = raise (KeyError "mass").
Proof.
  apply (proj1 (kernel_file_format_errors sample_tmp "nres"
                  (<[sample_kname := EbfFile (delete _mass sample_kernel_file)]>
                     sample_files)
                  sample_pname sample_kname
                  (file_kwargs sample_pname sample_kname None)
                  "sim" 6%Z 64%Z sample_particles
                  (delete _mass sample_kernel_file)
                  eq_refl eq_refl ltac:(vm_compute; reflexivity)
                  ltac:(vm_compute; reflexivity) ltac:(vm_compute; reflexivity)
                  ltac:(vm_compute; reflexivity)
                  ltac:(vm_compute; reflexivity))).
  vm_compute. reflexivity.
Defined.

(** ** The cached file names *)

Section Names.

(** The first access of [kname] stores the path in the object and touches
    nothing else; every later access returns the stored path and leaves
    the object alone.  The same holds for [pname]. *)
Theorem names_are_cached i fs :
  exists i1 i2,
    let kn := match kname_attr i with
              | Some p => p
              | None => default_kname i
              end in
    let pn := match pname_attr i with
              | Some p => p
              | None => default_pname i
              end in
    kname (World i fs) = (ok kn, World i1 fs)
    /\ kname (World i1 fs) = (ok kn, World i1 fs)
    /\ pname (World i1 fs) = (ok pn, World i2 fs)
    /\ pname (World i2 fs) = (ok pn, World i2 fs)
    /\ kname (World i2 fs) = (ok kn, World i2 fs)
    /\ kname_attr i2 = Some kn /\ pname_attr i2 = Some pn
    /\ particles i2 = particles i /\ rho_pos i2 = rho_pos i
    /\ rho_vel i2 = rho_vel i /\ k_factor i2 = k_factor i
    /\ ngb i2 = ngb i /\ name i2 = name i /\ input_dir i2 = input_dir i
    /\ input_files_exist i2 = input_files_exist i.
Proof.
  destruct i as [p rp rv dir nm pa ka ng kf ex].
  unfold kname, pname, get_self, set_self, mbind, M_bind, mret, M_ret,
    default_kname, default_pname. cbn.
  destruct ka as [k|], pa as [q|]; cbn; eexists _, _; repeat split.
Qed.

End Names.

(** ** Kernels of an Input read from files *)

Section FileKernels.
Variable GALAXIA_TMP : path.
Variable TTAGS_nres : string.
Local Open Scope R_scope.

Lemma from_files_inv_reads fs pn kn kw kw' :
  from_files fs pn kn kw = ok kw' ->
  path_parent pn = path_parent kn
  /\ exists nm hd ng parts_ kfile mass_,
       parse_pname (path_name pn) = ok nm
       /\ parse_kname nm (path_name kn) = ok (hd, ng)
       /\ ebf_read fs pn = ok parts_ /\ ebf_read fs kn = ok kfile
       /\ kfile !! _mass = Some mass_.
Proof.
  unfold from_files. intros H.
  destruct (decide (path_parent pn = path_parent kn)) as [Hpar|];
    [| discriminate H].
  cbn [mbind result_bind ok raise] in H. bind_inv H.
  split; [exact Hpar|].
  unfold getitem in E3. destruct (x1 !! _mass) as [m|] eqn:Hm;
    [| discriminate E3].
  exists x, z, z0, x0, x1, m. auto.
Qed.

(** Under the current convention the Input read from a kernel file with
    [n] particles carries a per-particle [k_factor]; unless [n] is 1 or 2,
    its [kernels] property raises the broadcasting [ValueError]. *)
Theorem file_based_kernels_raise fs kw pn kn kfile dr rho_ dh rows i :
  kw_pname kw = Some pn -> kw_kname kw = Some kn ->
  ebf_read fs kn = ok kfile ->
  kfile !! _density = Some (Arr1 dr rho_) ->
  kfile !! _kernels = Some (Arr2 dh 2 rows) ->
  List.length rows = List.length rho_ ->
  truthy (default (FormerBool false) (kw_former_kernel kw)) = false ->
  List.length rho_ <> 1%nat -> List.length rho_ <> 2%nat ->
  Input_init GALAXIA_TMP TTAGS_nres fs NoArgs kw = ok i ->
  ndim (k_factor i) = 1%nat /\ kernels i = raise ValueError.
Proof.
  intros Hp Hk Hrk Hden Hker Hlen Hfk Hn1 Hn2 Hi.
  unfold Input_init in Hi. rewrite Hp, Hk in Hi.
  destruct (from_files fs pn kn kw) as [e|k] eqn:Hff; [discriminate Hi|].
  destruct (from_files_inv_reads _ _ _ _ _ Hff)
    as (Hpar & nm & hd & ng & parts_ & kfile' & mass_ & Hnm & Hng & Hrp
        & Hrk' & Hmass).
  assert (kfile' = kfile) by (rewrite Hrk in Hrk'; now inversion Hrk').
  subst kfile'.
  destruct (from_files_current_eq fs pn kn kw nm hd ng parts_ kfile mass_ dr rho_
              dh rows Hpar Hnm Hng Hrp Hrk Hmass Hden Hker Hlen Hfk)
    as (dk & dv & Hcur).
  rewrite Hcur in Hff. inversion Hff; subst k; clear Hff.
  cbn [mbind result_bind ok raise kw_particles kw_rho_pos kw_rho_vel
       kw_input_dir kw_name kw_pname kw_kname kw_ngb kw_k_factor
       kw_former_kernel default] in Hi.
  bind_inv Hi. inversion Hi; subst i; clear Hi.
  cbn [k_factor ndim]. split; [reflexivity|].
  unfold kernels, rho. cbn [rho_pos rho_vel k_factor].
  rewrite vstack_T_pair
    by (rewrite !length_zip_with; lia).
  cbn [mbind result_bind ok raise].
  unfold np_mul. rewrite np_binop_scalar_arr2 by apply Forall_zip_pair_width.
  cbn [mbind result_bind ok raise np_cbrt np_map].
  unfold np_div. apply np_binop_arr1_arr2_mismatch;
    rewrite ?length_zip_with; lia.
Qed.

End FileKernels.

Lemma file_based_kernels_raise_witness :
  exists i,
    Input_init sample_tmp "nres" sample_files NoArgs
      (file_kwargs sample_pname sample_kname None) = ok i
    /\ kernels i = raise ValueError.
Proof.
  assert (exists i, Input_init sample_tmp "nres" sample_files NoArgs
                      (file_kwargs sample_pname sample_kname None) = ok i)
    as [i Hi] by (eexists; vm_compute; reflexivity).
  exists i. split; [exact Hi|].
  apply (file_based_kernels_raise sample_tmp "nres" sample_files
           (file_kwargs sample_pname sample_kname None) sample_pname
           sample_kname sample_kernel_file Float64 [1; 1; 1]%R Float64
           [[1; 2]; [1; 2]; [1; 2]]%R i);
    try exact Hi; try (vm_compute; reflexivity); simpl; lia.
Defined.

(** ** Reading back what the kernel writer derived *)

Section Inversion.
Local Open Scope R_scope.

Lemma k_factor_recovered k (u v : list R) :
  Forall (fun p => p <> 0) u -> List.length u = List.length v ->
  zip_with (fun r p => nth 0 r 0 * cbrt (FOURTHIRDPI * p))
    (zip_with (fun p q => [k / cbrt (FOURTHIRDPI * p);
                           k / cbrt (FOURTHIRDPI * q)]) u v) u
  = replicate (List.length u) k.
Proof.
  intros Hu. revert v. induction Hu as [|p u Hp Hu IH]; intros [|q v] Hl;
    try discriminate; [reflexivity|].
  cbn [zip_with replicate nth List.length].
  rewrite (roundtrip_k_factor k p Hp). f_equal.
  apply IH. now inversion Hl.
Qed.

Lemma rho_vel_recovered k (u v : list R) :
  k <> 0 -> Forall (fun q => q <> 0) v -> List.length u = List.length v ->
  zip_with (fun kk r => (kk / nth 1 r 0) ^ 3 / FOURTHIRDPI)
    (replicate (List.length u) k)
    (zip_with (fun p q => [k / cbrt (FOURTHIRDPI * p);
                           k / cbrt (FOURTHIRDPI * q)]) u v)
  = v.
Proof.
  intros Hk Hv. revert u. induction Hv as [|q v Hq Hv IH]; intros [|p u] Hl;
    try discriminate; [reflexivity|].
  cbn [zip_with replicate nth List.length].
  rewrite (roundtrip_rho_vel k q Hk Hq). f_equal.
  apply IH. now inversion Hl.
Qed.

(** A kernel file holding the position density and the kernels of an
    Input with a scalar, nonzero [k_factor] and nonzero densities is read
    back, under the current convention, with the velocity density of that
    Input and with [k_factor] repeated for every particle. *)
Theorem reconstruction_inverts_kernels i1 d1 d2 u v k h fs pn kn kw nm hd ng
  parts_ kfile mass_ :
  rho_pos i1 = Arr1 d1 u -> rho_vel i1 = Some (Arr1 d2 v) ->
  k_factor i1 = Scalar k -> List.length u = List.length v ->
  k <> 0 -> Forall (fun p => p <> 0) u -> Forall (fun q => q <> 0) v ->
  kernels i1 = ok h ->
  kfile !! _density = Some (rho_pos i1) -> kfile !! _kernels = Some h ->
  kfile !! _mass = Some mass_ ->
  path_parent pn = path_parent kn ->
  parse_pname (path_name pn) = ok nm ->
  parse_kname nm (path_name kn) = ok (hd, ng) ->
  ebf_read fs pn = ok parts_ -> ebf_read fs kn = ok kfile ->
  truthy (default (FormerBool false) (kw_former_kernel kw)) = false ->
  exists kw' dk dv,
    from_files fs pn kn kw = ok kw'
    /\ kw_rho_pos kw' = Some (rho_pos i1)
    /\ kw_rho_vel kw' = Some (Arr1 dv v)
    /\ kw_k_factor kw' = Some (Arr1 dk (replicate (List.length u) k)).
Proof.
  intros Hrp Hrv Hkf Hl Hk Hu Hv Hker Hfd Hfk Hfm Hpar Hnm Hng Hp Hkn Hcur.
  rewrite (kernels_pair_formula i1 d1 d2 u v k Hrp Hrv Hl Hkf) in Hker.
  inversion Hker; subst h; clear Hker. rewrite Hrp in Hfd.
  destruct (from_files_current_eq fs pn kn kw nm hd ng parts_ kfile mass_ d1 u
              _ _ Hpar Hnm Hng Hp Hkn Hfm Hfd Hfk
              ltac:(rewrite length_zip_with; lia) Hcur)
    as (dk & dv & Hff).
  rewrite (k_factor_recovered k u v Hu Hl) in Hff.
  rewrite (rho_vel_recovered k u v Hk Hv Hl) in Hff.
  eexists _, dk, dv. split; [exact Hff|]. rewrite Hrp. repeat split.
Qed.

End Inversion.

Lemma reconstruction_inverts_kernels_witness :
  exists kw' dv,
    from_files sample_written_files sample_pname sample_kname
      (file_kwargs sample_pname sample_kname None) = ok kw'
    /\ kw_rho_vel kw' = Some (Arr1 dv [1; 1; 1]%R).
Proof.
  destruct (reconstruction_inverts_kernels sample_input Float64 Float64
              [1; 1; 1]%R [1; 1; 1]%R 1%R sample_written_kernels
              sample_written_files sample_pname sample_kname
              (file_kwargs sample_pname sample_kname None) "sim" 6%Z 64%Z
              sample_particles sample_written_kernel_file sample_col)
    as (kw' & dk & dv & Hff & _ & Hrv & _);
    try reflexivity; try (vm_compute; reflexivity);
    try (repeat constructor; lra); try lra.
  exists kw', dv. split; assumption.
Defined.

Lemma kernels_both_densities_witness :
  kernels sample_input
  = ok (Arr2 Float64 2
          (zip_with (fun p q => [1 / cbrt (FOURTHIRDPI * p);
                                 1 / cbrt (FOURTHIRDPI * q)]%R)
             [1; 1; 1]%R [1; 1; 1]%R)).
Proof.
  apply (kernels_both_densities sample_input Float64 Float64
           [1; 1; 1]%R [1; 1; 1]%R 1%R); reflexivity.
Defined.

Lemma from_files_current_witness :
  exists dk dv kf rv,
    from_files sample_files sample_pname sample_kname
      (file_kwargs sample_pname sample_kname None)
    = ok (mkKwargs (Some sample_particles) (Some sample_rho_pos)
            (Some (Arr1 dv rv)) (Some sample_dir) (Some "sim")
            (Some sample_pname) (Some sample_kname) (Some (PyInt 64))
            (Some (Arr1 dk kf)) None)
    /\ List.length kf = 3 /\ List.length rv = 3.
Proof.
  destruct (from_files_current sample_files sample_pname sample_kname
              (file_kwargs sample_pname sample_kname None) "sim" 6%Z 64%Z
              sample_particles sample_kernel_file sample_col Float64
              [1; 1; 1]%R Float64 [[1; 2]; [1; 2]; [1; 2]]%R)
    as (dk & dv & Hff); try (vm_compute; reflexivity).
  eexists dk, dv, _, _. split; [exact Hff|]. split; reflexivity.
Defined.

(** ** Writing the kernel file *)

Section KernelWriter.

Lemma kname_spec i fs :
  exists i',
    let kn := match kname_attr i with
              | Some p => p
              | None => default_kname i
              end in
    kname (World i fs) = (ok kn, World i' fs)
    /\ (forall fs', kname (World i' fs') = (ok kn, World i' fs'))
    /\ particles i' = particles i /\ rho_pos i' = rho_pos i
    /\ kernels i' = kernels i
    /\ input_files_exist i' = input_files_exist i
    /\ kname_attr i' = Some kn.
Proof.
  destruct i as [p rp rv dir nm pa ka ng kf ex].
  unfold kname, get_self, set_self, mbind, M_bind, mret, M_ret, default_kname.
  cbn. destruct ka as [k|]; cbn; eexists; repeat split.
Qed.

(** An Input not read from files whose kernels can be derived writes a
    kernel file with exactly the three items [density], [h_cubic] and
    [mass]; the file replaces whatever was stored under that path, and no
    other file changes. *)
Theorem write_kernels_fresh i h m fs0 :
  input_files_exist i = false ->
  kernels i = ok h -> particles i !! "mass" = Some m ->
  let kn := match kname_attr i with
            | Some p => p
            | None => default_kname i
            end in
  exists i',
    _write_kernels (World i fs0)
    = (ok kn,
       World i' (<[kn := EbfFile (<[_mass := m]>
                                    (<[_kernels := h]>
                                       (<[_density := rho_pos i]> ∅)))]> fs0))
    /\ kname_attr i' = Some kn.
Proof.
  intros Hex Hker Hm kn.
  destruct (kname_spec i fs0)
    as (i' & Hkn & Hkn' & Hp & Hrp & Hk & Hex' & Hattr).
  fold kn in Hkn, Hkn'.
  exists i'. split.
  - unfold _write_kernels.
    rewrite (M_bind_ok _ _ _ _ _ Hkn).
    rewrite (M_bind_ok get_self _ (World i' fs0) i' (World i' fs0) eq_refl).
    rewrite Hex', Hex. cbv iota.
    rewrite (M_bind_ok _ _ _ _ _ (Hkn' fs0)).
    rewrite (M_bind_ok
               (update_files (fun fs => ok (ebf_initialize kn fs))) _
               (World i' fs0) tt (World i' (ebf_initialize kn fs0)) eq_refl).
    rewrite (M_bind_ok
               (update_files (ebf_write kn _density (rho_pos i'))) _
               (World i' (ebf_initialize kn fs0)) tt
               (World i' (<[kn := EbfFile (<[_density := rho_pos i']> ∅)]>
                            (ebf_initialize kn fs0)))).
    2:{ unfold update_files, ebf_write, ebf_initialize. cbn [files self].
        rewrite lookup_insert_eq, lookup_empty. reflexivity. }
    rewrite (M_bind_ok (lift (kernels i')) _ _ h
               (World i' (<[kn := EbfFile (<[_density := rho_pos i']> ∅)]>
                            (ebf_initialize kn fs0))))
      by (unfold lift; now rewrite Hk, Hker).
    rewrite (M_bind_ok
               (update_files (ebf_write kn _kernels h)) _
               (World i' (<[kn := EbfFile (<[_density := rho_pos i']> ∅)]>
                            (ebf_initialize kn fs0))) tt
               (World i'
                  (<[kn := EbfFile (<[_kernels := h]>
                                      (<[_density := rho_pos i']> ∅))]>
                     (<[kn := EbfFile (<[_density := rho_pos i']> ∅)]>
                        (ebf_initialize kn fs0))))).
    2:{ unfold update_files, ebf_write. cbn [files self].
        rewrite lookup_insert_eq.
        rewrite lookup_insert_ne by discriminate.
        rewrite lookup_empty. reflexivity. }
    rewrite (M_bind_ok (lift (getitem (particles i') "mass")) _ _ m
               (World i'
                  (<[kn := EbfFile (<[_kernels := h]>
                                      (<[_density := rho_pos i']> ∅))]>
                     (<[kn := EbfFile (<[_density := rho_pos i']> ∅)]>
                        (ebf_initialize kn fs0)))))
      by (unfold lift, getitem; now rewrite Hp, Hm).
    rewrite (M_bind_ok
               (update_files (ebf_write kn _mass m)) _
               (World i'
                  (<[kn := EbfFile (<[_kernels := h]>
                                      (<[_density := rho_pos i']> ∅))]>
                     (<[kn := EbfFile (<[_density := rho_pos i']> ∅)]>
                        (ebf_initialize kn fs0)))) tt
               (World i'
                  (<[kn := EbfFile (<[_mass := m]>
                                      (<[_kernels := h]>
                                         (<[_density := rho_pos i']> ∅)))]>
                     (<[kn := EbfFile (<[_kernels := h]>
                                         (<[_density := rho_pos i']> ∅))]>
                        (<[kn := EbfFile (<[_density := rho_pos i']> ∅)]>
                           (ebf_initialize kn fs0)))))).
    2:{ unfold update_files, ebf_write. cbn [files self].
        rewrite lookup_insert_eq.
        rewrite !lookup_insert_ne by discriminate.
        rewrite lookup_empty. reflexivity. }
    unfold mret, M_ret, ebf_initialize. rewrite !insert_insert_eq, Hrp.
    reflexivity.
  - exact Hattr.
Qed.

(** When the kernels cannot be derived, as for an Input without velocity
    density, the writer fails after it has created the kernel file: the
    file is left behind holding the density alone. *)
Theorem write_kernels_partial i fs0 :
  input_files_exist i = false -> rho_vel i = None ->
  let kn := match kname_attr i with
            | Some p => p
            | None => default_kname i
            end in
  exists e i',
    _write_kernels (World i fs0)
    = (raise e,
       World i' (<[kn := EbfFile (<[_density := rho_pos i]> ∅)]> fs0)).
Proof.
  intros Hex Hrv kn.
  destruct (kernels_none_raise i Hrv) as [e He].
  destruct (kname_spec i fs0)
    as (i' & Hkn & Hkn' & Hp & Hrp & Hk & Hex' & Hattr).
  fold kn in Hkn, Hkn'.
  exists e, i'. unfold _write_kernels.
  rewrite (M_bind_ok _ _ _ _ _ Hkn).
  rewrite (M_bind_ok get_self _ (World i' fs0) i' (World i' fs0) eq_refl).
  rewrite Hex', Hex. cbv iota.
  rewrite (M_bind_ok _ _ _ _ _ (Hkn' fs0)).
  rewrite (M_bind_ok
             (update_files (fun fs => ok (ebf_initialize kn fs))) _
             (World i' fs0) tt (World i' (ebf_initialize kn fs0)) eq_refl).
  rewrite (M_bind_ok
             (update_files (ebf_write kn _density (rho_pos i'))) _
             (World i' (ebf_initialize kn fs0)) tt
             (World i' (<[kn := EbfFile (<[_density := rho_pos i']> ∅)]>
                          (ebf_initialize kn fs0)))).
  2:{ unfold update_files, ebf_write, ebf_initialize. cbn [files self].
      rewrite lookup_insert_eq, lookup_empty. reflexivity. }
  rewrite (M_bind_raise (lift (kernels i')) _ _ e
             (World i' (<[kn := EbfFile (<[_density := rho_pos i']> ∅)]>
                          (ebf_initialize kn fs0))))
    by (unfold lift; now rewrite Hk, He).
  unfold ebf_initialize. now rewrite insert_insert_eq, Hrp.
Qed.

End KernelWriter.

Lemma write_kernels_fresh_witness :
  exists i w f,
    _write_kernels (World sample_input ∅) = (ok sample_kname, World i w)
    /\ w !! sample_kname = Some (EbfFile f)
    /\ dom f = {[ _density; _kernels; _mass ]}.
Proof.
  destruct (write_kernels_fresh sample_input sample_written_kernels sample_col
              ∅ eq_refl (kernels_pair_formula sample_input Float64 Float64
                 [1; 1; 1]%R [1; 1; 1]%R 1%R eq_refl eq_refl eq_refl eq_refl) eq_refl)
    as (i & Hrun & _).
  eexists i, _, _. split; [exact Hrun|]. split.
  - apply lookup_insert_eq.
  - rewrite !dom_insert_L, dom_empty_L. apply set_eq. intros k.
    rewrite !elem_of_union, !elem_of_singleton, elem_of_empty. tauto.
Defined.

Lemma write_kernels_partial_witness :
  exists e i f,
    _write_kernels
      (World (mkInput sample_particles sample_rho_pos None sample_dir "sim"
                None None (PyInt 64) (Scalar 1%R) false) ∅)
    = (raise e, World i (<[Path true ["data"; "sim_d3n64_den.ebf"]
                            := EbfFile f]> ∅))
    /\ dom f = {[ _density ]}.
Proof.
  destruct (write_kernels_partial
              (mkInput sample_particles sample_rho_pos None sample_dir "sim"
                 None None (PyInt 64) (Scalar 1%R) false) ∅ eq_refl eq_refl)
    as (e & i & Hrun).
  exists e, i. eexists. split; [exact Hrun|].
  rewrite dom_insert_L, dom_empty_L. apply set_eq. intros k.
  rewrite !elem_of_union, !elem_of_singleton, elem_of_empty. tauto.
Defined.

(** ** The particle writer and the other files *)

Section ParticleWriter.

Lemma pname_spec_path i fs :
  exists i',
    let pn := match pname_attr i with
              | Some p => p
              | None => default_pname i
              end in
    pname (World i fs) = (ok pn, World i' fs)
    /\ particles i' = particles i
    /\ input_files_exist i' = input_files_exist i.
Proof.
  destruct i as [p rp rv dir nm pa ka ng kf ex].
  unfold pname, get_self, set_self, mbind, M_bind, mret, M_ret, default_pname.
  cbn. destruct pa as [q|]; cbn; eexists; repeat split.
Qed.

(** Writing the particles of an Input not read from files changes the
    file system at the particle path alone, and what it stores there does
    not depend on what the file system held before. *)
Theorem write_particles_frame i n fs0 :
  input_files_exist i = false ->
  _required_keys_in_particles ⊆ dom (particles i) ->
  length i = ok n ->
  let pn := match pname_attr i with
            | Some p => p
            | None => default_pname i
            end in
  exists w,
    _write_particles (World i fs0) = (ok pn, w)
    /\ (forall q, q <> pn -> files w !! q = fs0 !! q)
    /\ (forall fs1 w1 p1,
          _write_particles (World i fs1) = (ok p1, w1) ->
          p1 = pn /\ files w1 !! pn = files w !! pn).
Proof.
  intros Hex Hreq Hn pn.
  assert (Hrun : forall fs, exists i' f,
    _write_particles (World i fs)
    = (ok pn, World i' (<[pn := EbfFile f]> fs))
    /\ (forall k, f !! k
                  = if decide (k ∈ _required_keys_in_particles)
                    then particles i !! k
                    else if decide (k ∈ _optional_keys_in_particles)
                         then Some (default (np_zeros n) (particles i !! k))
                         else None)).
  { intros fs.
    destruct (pname_spec_path i fs) as (i' & Hpn & Hpart & Hex').
    fold pn in Hpn.
    assert (Hn' : length i' = ok n)
      by (unfold length in *; now rewrite Hpart).
    destruct (for_each_write pn (getitem (particles i')) i'
                (elements _required_keys_in_particles)
                (ebf_initialize pn fs) ∅)
      as (items1 & Hrun1 & Hin1 & Hout1).
    { apply NoDup_elements. }
    { intros; apply lookup_empty. }
    { intros k Hk. apply elem_of_elements, Hreq, elem_of_dom in Hk as [a Ha].
      exists a. unfold getitem. now rewrite Hpart, Ha. }
    { apply lookup_insert_eq. }
    destruct (for_each_write pn (optional_entry i') i'
                (elements _optional_keys_in_particles)
                (<[pn := EbfFile items1]> (ebf_initialize pn fs)) items1)
      as (items2 & Hrun2 & Hin2 & Hout2).
    { apply NoDup_elements. }
    { intros k Hk. rewrite Hout1; [apply lookup_empty|].
      rewrite elem_of_elements. apply elem_of_elements in Hk.
      intros Hk'. exact (required_optional_disjoint k Hk' Hk). }
    { intros k Hk. rewrite (optional_entry_ok i' n k Hn'). eauto. }
    { apply lookup_insert_eq. }
    exists i', items2. split.
    - unfold _write_particles.
      rewrite (M_bind_ok _ _ _ _ _ Hpn).
      rewrite (M_bind_ok get_self _ (World i' fs) i' (World i' fs) eq_refl).
      rewrite Hex', Hex. cbv iota.
      rewrite (M_bind_ok
                 (update_files (fun fs => ok (ebf_initialize pn fs))) _
                 (World i' fs) tt (World i' (ebf_initialize pn fs)) eq_refl).
      rewrite (M_bind_ok _ _ _ _ _ Hrun1).
      change (fun key => d ← lift (if decide (key ∈ keys i')
                                   then getitem (particles i') key
                                   else n0 ← length i'; ok (np_zeros n0));
                         update_files (ebf_write pn key d))
        with (fun key => d ← lift (optional_entry i' key);
                         update_files (ebf_write pn key d)).
      rewrite (M_bind_ok _ _ _ _ _ Hrun2).
      unfold mret, M_ret, ebf_initialize. now rewrite !insert_insert_eq.
    - intros k.
      destruct (decide (k ∈ _required_keys_in_particles)) as [Hk|Hk].
      + rewrite Hout2.
        * assert (Hk' := Hk). apply Hreq, elem_of_dom in Hk' as [a Ha].
          rewrite Ha. apply Hin1; [now apply elem_of_elements|].
          unfold getitem. now rewrite Hpart, Ha.
        * rewrite elem_of_elements. intros Hk'.
          exact (required_optional_disjoint k Hk Hk').
      + destruct (decide (k ∈ _optional_keys_in_particles)) as [Ho|Ho].
        * apply Hin2; [now apply elem_of_elements|].
          now rewrite (optional_entry_ok i' n k Hn'), Hpart.
        * rewrite Hout2, Hout1 by (rewrite elem_of_elements; assumption).
          apply lookup_empty. }
  destruct (Hrun fs0) as (i0 & f0 & Hrun0 & Hf0).
  eexists. split; [exact Hrun0|]. split.
  - intros q Hq. cbn [files]. now apply lookup_insert_ne.
  - intros fs1 w1 p1 H1. destruct (Hrun fs1) as (i1 & f1 & Hrun1 & Hf1).
    rewrite Hrun1 in H1. inversion H1; subst. split; [reflexivity|].
    cbn [files]. rewrite !lookup_insert_eq. do 2 f_equal.
    apply map_eq. intros k. now rewrite Hf0, Hf1.
Qed.

End ParticleWriter.

Lemma write_particles_frame_witness :
  exists w,
    _write_particles (World sample_input sample_files)
    = (ok sample_pname, w)
    /\ files w !! sample_kname = sample_files !! sample_kname.
Proof.
  destruct (write_particles_frame sample_input 3 sample_files eq_refl)
    as (w & Hrun & Hframe & _).
  - compute_done.
  - vm_compute. reflexivity.
  - exists w. split; [exact Hrun|]. apply Hframe. discriminate.
Defined.

(** ** Validated particles stay valid *)

Section Stability.
Variable GALAXIA_TMP : path.
Variable TTAGS_nres : string.

Lemma mismatched_keys_empty_iff (p : gmap string ndarray) m :
  mismatched_keys p m = ∅
  <-> forall k a, p !! k = Some a -> leading_dim a = leading_dim m.
Proof.
  split.
  - intros He k a Ha.
    destruct (decide (leading_dim a = leading_dim m)) as [|Hne]; [assumption|].
    assert (Hin : k ∈ mismatched_keys p m)
      by (apply elem_of_mismatched_keys; eauto).
    rewrite He in Hin. now apply not_elem_of_empty in Hin.
  - intros Hall. apply elem_of_equiv_empty_L. intros k Hk.
    apply elem_of_mismatched_keys in Hk as (a & Ha & Hne). eauto.
Qed.

Lemma verify_particles_shape p p' :
  verify_particles p = ok p' ->
  exists m n,
    p !! _mass = Some m
    /\ _required_keys_in_particles ⊆ dom p
    /\ dom p ⊆ all_possible_keys_in_particles
    /\ (forall k a, p !! k = Some a -> leading_dim a = leading_dim m)
    /\ (_parentid ∉ dom p -> leading_dim m = Some n)
    /\ p' = with_defaults p n m.
Proof.
  unfold verify_particles, compare_given_and_required. intros H.
  destruct (decide (_required_keys_in_particles ⊆ dom p
                    /\ dom p ⊆ _required_keys_in_particles
                                ∪ _optional_keys_in_particles))
    as [[Hreq Hall]|]; [| discriminate].
  cbn [mbind result_bind ok raise] in H.
  unfold confirm_equal_length_arrays_in_dict, getitem in H.
  destruct (p !! _mass) as [m|] eqn:Hm; [| discriminate].
  cbn [mbind result_bind ok raise] in H.
  destruct (decide (mismatched_keys p m = ∅)) as [Hbad|]; [| discriminate].
  cbn [mbind result_bind ok raise] in H.
  pose proof (proj1 (mismatched_keys_empty_iff p m) Hbad) as Hlen.
  clear Hbad. unfold with_defaults.
  destruct (decide (_parentid ∈ dom p)) as [Hp|Hp].
  - cbn [mbind result_bind ok raise] in H. exists m, 0%nat.
    repeat split; try assumption; [contradiction|].
    destruct (decide (_dform ∈ dom p)).
    + now inversion H.
    + unfold getitem in H. rewrite Hm in H. now inversion H.
  - unfold length_of, getitem in H. rewrite Hm in H.
    cbn [mbind result_bind ok raise] in H.
    destruct m as [x|d v|d c rows]; [discriminate H | |];
      cbn [np_len mbind result_bind ok raise] in H.
    + exists (Arr1 d v), (List.length v). repeat split; try assumption.
      destruct (decide (_dform ∈ dom (<[_parentid:=np_arange (List.length v)]> p))).
      * now inversion H.
      * unfold getitem in H. rewrite lookup_insert_ne in H by discriminate.
        rewrite Hm in H. now inversion H.
    + exists (Arr2 d c rows), (List.length rows).
      repeat split; try assumption.
      destruct (decide (_dform ∈ dom (<[_parentid:=np_arange (List.length rows)]> p))).
      * now inversion H.
      * unfold getitem in H. rewrite lookup_insert_ne in H by discriminate.
        rewrite Hm in H. now inversion H.
Qed.

Lemma leading_dim_np_arange n : leading_dim (np_arange n) = Some n.
Proof. unfold np_arange. simpl. now rewrite length_map, length_seq. Qed.

(** Validating twice. *)
Lemma verify_particles_fixpoint p p' :
  verify_particles p = ok p' ->
  verify_particles p' = ok p'
  /\ _parentid ∈ dom p' /\ _dform ∈ dom p'
  /\ (forall k a, p !! k = Some a -> p' !! k = Some a).
Proof.
  intros H.
  destruct (verify_particles_shape p p' H)
    as (m & n & Hm & Hreq & Hall & Hlen & Hn & ->).
  assert (Hsub : forall k a, p !! k = Some a ->
                             with_defaults p n m !! k = Some a).
  { intros k a Ha. unfold with_defaults.
    assert (Hin : k ∈ dom p) by (apply elem_of_dom; eauto).
    destruct (decide (_parentid ∈ dom p)) as [Hp|Hp].
    - destruct (decide (_dform ∈ dom p)) as [Hd|Hd]; [exact Ha|].
      rewrite lookup_insert_ne; [exact Ha | congruence].
    - destruct (decide (_dform ∈ _)) as [Hd|Hd].
      + rewrite lookup_insert_ne; [exact Ha | congruence].
      + rewrite !lookup_insert_ne; [exact Ha | congruence |].
        intros <-. apply Hd. apply elem_of_dom.
        rewrite lookup_insert_ne; [eauto | discriminate]. }
  assert (Hpid : _parentid ∈ dom (with_defaults p n m)).
  { unfold with_defaults. destruct (decide (_parentid ∈ dom p)) as [Hp|Hp].
    - destruct (decide (_dform ∈ dom p)); [exact Hp|].
      rewrite dom_insert_L. apply elem_of_union. now right.
    - destruct (decide (_dform ∈ _)).
      + rewrite dom_insert_L. apply elem_of_union. left.
        now apply elem_of_singleton.
      + rewrite !dom_insert_L. apply elem_of_union. right.
        apply elem_of_union. left. now apply elem_of_singleton. }
  assert (Hdf : _dform ∈ dom (with_defaults p n m)).
  { unfold with_defaults.
    destruct (decide (_dform ∈ _)) as [Hd|Hd]; [exact Hd|].
    rewrite dom_insert_L. apply elem_of_union. left.
    now apply elem_of_singleton. }
  assert (Hdom : dom (with_defaults p n m) ⊆ all_possible_keys_in_particles).
  { assert (Hpo : _parentid ∈ all_possible_keys_in_particles) by compute_done.
    assert (Hdo : _dform ∈ all_possible_keys_in_particles) by compute_done.
    assert (Hp : forall k a, p !! k = Some a ->
                             k ∈ all_possible_keys_in_particles)
      by (intros k a Ha; apply Hall, elem_of_dom; eauto).
    intros k Hk. apply elem_of_dom in Hk as [a Ha]. revert Ha.
    unfold with_defaults.
    destruct (decide (_parentid ∈ dom p)).
    - destruct (decide (_dform ∈ dom p)); [apply Hp|].
      intros Ha. apply lookup_insert_Some in Ha as [[<- _]|[_ Ha]];
        [exact Hdo | exact (Hp _ _ Ha)].
    - destruct (decide (_dform ∈ _)).
      + intros Ha. apply lookup_insert_Some in Ha as [[<- _]|[_ Ha]];
          [exact Hpo | exact (Hp _ _ Ha)].
      + intros Ha. apply lookup_insert_Some in Ha as [[<- _]|[_ Ha]];
          [exact Hdo|].
        apply lookup_insert_Some in Ha as [[<- _]|[_ Ha]];
          [exact Hpo | exact (Hp _ _ Ha)]. }
  assert (Hlen' : forall k a, with_defaults p n m !! k = Some a ->
                              leading_dim a = leading_dim m).
  { intros k a. unfold with_defaults.
    destruct (int_times_zero m) as (_ & Hld & _).
    destruct (decide (_parentid ∈ dom p)) as [Hp|Hp].
    - destruct (decide (_dform ∈ dom p)); [apply Hlen|].
      intros Ha. apply lookup_insert_Some in Ha as [[_ <-]|[_ Ha]];
        [exact Hld | exact (Hlen _ _ Ha)].
    - destruct (decide (_dform ∈ _)).
      + intros Ha. apply lookup_insert_Some in Ha as [[_ <-]|[_ Ha]];
          [| exact (Hlen _ _ Ha)].
        rewrite leading_dim_np_arange. symmetry. now apply Hn.
      + intros Ha. apply lookup_insert_Some in Ha as [[_ <-]|[_ Ha]];
          [exact Hld|].
        apply lookup_insert_Some in Ha as [[_ <-]|[_ Ha]];
          [| exact (Hlen _ _ Ha)].
        rewrite leading_dim_np_arange. symmetry. now apply Hn. }
  split; [| split; [exact Hpid | split; [exact Hdf | exact Hsub]]].
  unfold verify_particles.
  rewrite compare_given_ok.
  - cbn [mbind result_bind ok raise].
    unfold confirm_equal_length_arrays_in_dict, getitem.
    rewrite (Hsub _ _ Hm). cbn [mbind result_bind ok raise].
    rewrite (proj2 (mismatched_keys_empty_iff _ m) Hlen').
    rewrite (decide_True (P := (∅ : gset string) = ∅)) by reflexivity.
    cbn [mbind result_bind ok raise].
    rewrite (decide_True (P := _parentid ∈ dom (with_defaults p n m)))
      by exact Hpid.
    cbn [mbind result_bind ok raise].
    rewrite (decide_True (P := _dform ∈ dom (with_defaults p n m)))
      by exact Hdf.
    reflexivity.
  - intros k Hk. apply Hreq, elem_of_dom in Hk as [a Ha].
    apply elem_of_dom. rewrite (Hsub _ _ Ha). eauto.
  - exact Hdom.
Qed.

(** The dictionary left by the validation holds [parentid] and [dform],
    extends the given one, and passes the validation unchanged. *)
Theorem verified_particles_stable p p' :
  verify_particles p = ok p' ->
  verify_particles p' = ok p'
  /\ _parentid ∈ dom p' /\ _dform ∈ dom p'
  /\ (forall k a, p !! k = Some a -> p' !! k = Some a).
Proof. apply verify_particles_fixpoint. Qed.


End Stability.

Lemma verified_particles_stable_witness :
  exists p',
    verify_particles sample_particles = ok p'
    /\ verify_particles p' = ok p' /\ _parentid ∈ dom p' /\ _dform ∈ dom p'.
Proof.
  assert (exists p', verify_particles sample_particles = ok p') as [p' H]
    by (eexists; vm_compute; reflexivity).
  exists p'. split; [exact H|].
  destruct (verified_particles_stable _ _ H) as (H1 & H2 & H3 & _). auto.
Defined.

Section ConstructedInvariant.
Variable GALAXIA_TMP : path.
Variable TTAGS_nres : string.

(** Whatever the signature, the particles of a constructed Input are the
    result of the validation: they hold [parentid] and [dform], only known
    keys, arrays as long as the mass array, and validate unchanged. *)
Theorem constructed_particles_valid fs args kw i :
  Input_init GALAXIA_TMP TTAGS_nres fs args kw = ok i ->
  verify_particles (particles i) = ok (particles i)
  /\ _required_keys_in_particles ⊆ keys i
  /\ keys i ⊆ all_possible_keys_in_particles
  /\ _parentid ∈ keys i /\ _dform ∈ keys i.
Proof.
  intros H.
  assert (Hv : exists p, verify_particles p = ok (particles i)).
  { unfold Input_init in H. bind_inv H.
    match goal with
    | Hver : verify_particles ?p = inr ?q |- _ =>
        exists p; inversion H; subst; exact Hver
    end. }
  destruct Hv as [p Hv].
  destruct (verify_particles_fixpoint p _ Hv) as (Hst & Hp & Hd & _).
  destruct (verify_particles_shape _ _ Hst)
    as (m & n & _ & Hreq & Hall & _).
  unfold keys. auto.
Qed.

End ConstructedInvariant.

Lemma constructed_particles_valid_witness :
  exists i,
    Input_init sample_tmp "nres" sample_files NoArgs
      (file_kwargs sample_pname sample_kname None) = ok i
    /\ verify_particles (particles i) = ok (particles i)
    /\ _parentid ∈ keys i.
Proof.
  assert (exists i, Input_init sample_tmp "nres" sample_files NoArgs
                      (file_kwargs sample_pname sample_kname None) = ok i)
    as [i Hi] by (eexists; vm_compute; reflexivity).
  exists i. split; [exact Hi|].
  destruct (constructed_particles_valid _ _ _ _ _ _ Hi)
    as (H1 & _ & _ & H2 & _). auto.
Defined.

Lemma wrong_signatures_witness :
  Input_init sample_tmp "nres" sample_files NoArgs
    (mkKwargs (Some sample_particles) (Some sample_rho_pos)
       (Some sample_rho_vel) None None None None None None None)
  = raise ValueError
  /\ Input_init sample_tmp "nres" sample_files NoArgs
       (file_kwargs sample_pname (Path true ["other"; "sim_d6n64_den.ebf"])
          None)
     = raise ValueError.
Proof.
  split.
  - apply (proj1 (proj2 (wrong_signatures sample_tmp "nres" sample_files _))).
    left. reflexivity.
  - apply (proj2 (proj2 (wrong_signatures sample_tmp "nres" sample_files _))
             sample_pname (Path true ["other"; "sim_d6n64_den.ebf"]));
      [reflexivity | reflexivity | discriminate].
Defined.
(** ** The names of the two files, written and parsed back *)

Lemma list_ascii_of_string_app (s t : string) :
  list_ascii_of_string (s ++ t)
  = (list_ascii_of_string s ++ list_ascii_of_string t)%list.
Proof. induction s as [|c s IH]; simpl; [reflexivity | now rewrite IH]. Qed.

Lemma re_parse_go_lit fuel c r acc :
  is_meta c = false ->
  re_parse_go (S fuel) (c :: r) None acc
  = let '(p, r') := match r with
                    | "*"%char :: r' => (PStar (ALit c), r')
                    | _ => (POne (ALit c), r)
                    end in
    re_parse_go fuel r' None (NPiece p :: acc).
Proof.
  intros Hc.
  destruct c as [b0 b1 b2 b3 b4 b5 b6 b7].
  destruct b0, b1, b2, b3, b4, b5, b6, b7; try discriminate Hc; reflexivity.
Qed.

Lemma star_match_other (a : atom) (r : list ascii) :
  head r <> Some "*"%char ->
  match r with
  | "*"%char :: r' => (PStar a, r')
  | _ => (POne a, r)
  end = (POne a, r).
Proof.
  destruct r as [|c r]; [reflexivity|]. simpl. intros Hc.
  destruct c as [b0 b1 b2 b3 b4 b5 b6 b7].
  destruct b0, b1, b2, b3, b4, b5, b6, b7; try reflexivity; congruence.
Qed.

Lemma re_parse_go_lits l : forall fuel rest acc,
  plain l = true ->
  head rest <> Some "*"%char ->
  re_parse_go (List.length l + fuel) (l ++ rest) None acc
  = re_parse_go fuel rest None (rev (lits l) ++ acc).
Proof.
  induction l as [|c l IH]; intros fuel rest acc Hl Hrest; [reflexivity|].
  simpl in Hl. apply andb_prop in Hl as [Hc Hl].
  apply negb_true_iff in Hc.
  change (List.length (c :: l) + fuel)%nat with (S (List.length l + fuel)).
  change ((c :: l) ++ rest)%list with (c :: (l ++ rest))%list.
  rewrite (re_parse_go_lit _ _ _ _ Hc).
  rewrite star_match_other.
  - rewrite IH by assumption. simpl. now rewrite <- app_assoc.
  - destruct l as [|c' l']; [exact Hrest|]. simpl.
    simpl in Hl. apply andb_prop in Hl as [Hc' _].
    intros [= ->]. discriminate Hc'.
Qed.

Lemma re_parse_kernel_pattern nm :
  plain (list_ascii_of_string nm) = true ->
  re_parse (kernel_pattern nm)
  = Some (lits (list_ascii_of_string nm) ++ kernel_tail_nodes)%list.
Proof.
  intros Hnm. unfold re_parse, kernel_pattern.
  rewrite list_ascii_of_string_app.
  set (l := list_ascii_of_string nm) in *.
  set (t := list_ascii_of_string "_d(\d*)n(\d*)_den.ebf").
  replace (S (List.length (l ++ t)))
    with (List.length l + S (List.length t))%nat
    by (rewrite length_app; lia).
  rewrite re_parse_go_lits; [|exact Hnm|discriminate].
  subst t. cbn.
  rewrite app_nil_r, rev_involutive. unfold kernel_tail_nodes.
  repeat rewrite <- app_assoc. reflexivity.
Qed.

Lemma match_nodes_lit c ns s :
  match_nodes (NPiece (POne (ALit c)) :: ns) (c :: s) = match_nodes ns s.
Proof.
  cbn [match_nodes match_pieces atom_matches]. rewrite Ascii.eqb_refl.
  cbn. apply app_nil_r.
Qed.

Lemma match_nodes_lits l ns s :
  match_nodes (lits l ++ ns) (l ++ s) = match_nodes ns s.
Proof.
  induction l as [|c l IH]; [reflexivity|].
  change (match_nodes (NPiece (POne (ALit c)) :: (lits l ++ ns))
            (c :: (l ++ s)) = match_nodes ns s).
  now rewrite match_nodes_lit.
Qed.

Lemma match_nodes_group_star a ns s :
  match_nodes (NGroup [PStar a] :: ns) s = group_star ns (star_splits a s).
Proof. reflexivity. Qed.

Lemma group_star_app ns L1 L2 :
  group_star ns (L1 ++ L2) = (group_star ns L1 ++ group_star ns L2)%list.
Proof. unfold group_star. now rewrite !flat_map_app. Qed.

Lemma group_star_grow ns c L :
  group_star ns (map (fun '(m, r) => (c :: m, r)) L)
  = map (grow c) (group_star ns L).
Proof.
  induction L as [|[m r] L IH]; [reflexivity|].
  change ((m, r) :: L) with ([(m, r)] ++ L)%list.
  rewrite map_app, !group_star_app, map_app, IH. f_equal.
  unfold group_star. cbn. rewrite !app_nil_r, map_map.
  apply map_ext. now intros [caps r'].
Qed.

Lemma head_group_star_cons a ns c s m caps r :
  atom_matches a c = true ->
  head (match_nodes (NGroup [PStar a] :: ns) s) = Some (m :: caps, r) ->
  head (match_nodes (NGroup [PStar a] :: ns) (c :: s))
  = Some ((c :: m) :: caps, r).
Proof.
  intros Hc. rewrite !match_nodes_group_star. cbn [star_splits].
  rewrite Hc, group_star_app, group_star_grow.
  destruct (group_star ns (star_splits a s)) as [|x G]; [discriminate|].
  intros [= ->]. reflexivity.
Qed.

Lemma head_group_star_app a ns l s m caps r :
  forallb (atom_matches a) l = true ->
  head (match_nodes (NGroup [PStar a] :: ns) s) = Some (m :: caps, r) ->
  head (match_nodes (NGroup [PStar a] :: ns) (l ++ s))
  = Some ((l ++ m)%list :: caps, r).
Proof.
  induction l as [|c l IH]; intros Hl Hs; [exact Hs|].
  simpl in Hl. apply andb_prop in Hl as [Hc Hl].
  change ((c :: l) ++ s)%list with (c :: (l ++ s))%list.
  change ((c :: l) ++ m)%list with (c :: (l ++ m))%list.
  apply head_group_star_cons; auto.
Qed.

Lemma head_group_star_stop a ns s caps r :
  match s with c :: _ => atom_matches a c = false | [] => True end ->
  head (match_nodes ns s) = Some (caps, r) ->
  head (match_nodes (NGroup [PStar a] :: ns) s) = Some ([] :: caps, r).
Proof.
  intros Hs Hh. rewrite match_nodes_group_star.
  assert (star_splits a s = [([], s)]) as ->.
  { destruct s as [|c s]; [reflexivity|]. simpl. now rewrite Hs. }
  unfold group_star. cbn. rewrite !app_nil_r.
  destruct (match_nodes ns s) as [|[caps' r'] M]; [discriminate|].
  now inversion Hh.
Qed.

Lemma re_search_head ns s caps r :
  head (match_nodes ns s) = Some (caps, r) -> re_search ns s = Some caps.
Proof.
  intros H. destruct s; simpl;
    (destruct (match_nodes ns _) as [|[caps' r'] M]; [discriminate|]);
    now inversion H.
Qed.

(** Decimal digits: [str] of a natural number reads back under [int]. *)
Lemma digits_value_app l1 : forall acc l2,
  digits_value acc (l1 ++ l2)
  = match digits_value acc l1 with
    | Some a => digits_value a l2
    | None => None
    end.
Proof.
  induction l1 as [|c l1 IH]; intros acc l2; [reflexivity|].
  simpl. destruct (is_digit c); [apply IH | reflexivity].
Qed.

Lemma pretty_N_char_digit (x : N) :
  (x < 10)%N ->
  is_digit (pretty_N_char x) = true
  /\ Z.of_nat (nat_of_ascii (pretty_N_char x) - 48) = Z.of_N x.
Proof.
  intros Hx.
  assert (x = 0 \/ x = 1 \/ x = 2 \/ x = 3 \/ x = 4 \/ x = 5 \/ x = 6
          \/ x = 7 \/ x = 8 \/ x = 9)%N as H by lia.
  repeat (destruct H as [-> | H]; [split; reflexivity|]).
  subst x. split; reflexivity.
Qed.

Lemma pretty_N_go_digits (x : N) : forall s,
  exists l,
    pretty_N_go x s = string_of_list_ascii l ++ s
    /\ forallb is_digit l = true
    /\ ((0 < x)%N -> l <> [])
    /\ forall acc,
         digits_value acc l
         = Some (acc * 10 ^ Z.of_nat (List.length l) + Z.of_N x)%Z.
Proof.
  induction (N.lt_wf_0 x) as [x _ IH]; intros s.
  destruct (decide (x = 0)%N) as [-> | Hx].
  - exists []. rewrite pretty_N_go_0. repeat split; try reflexivity; try lia.
    intros acc. simpl. f_equal. lia.
  - assert (0 < x)%N as Hpos by lia.
    rewrite pretty_N_go_step by exact Hpos.
    destruct (IH (x `div` 10)%N (N.div_lt x 10 Hpos eq_refl)
                (String (pretty_N_char (x `mod` 10)) s))
      as (l & Hl & Hd & _ & Hv).
    destruct (pretty_N_char_digit (x `mod` 10)%N) as [Hc1 Hc2].
    { apply N.mod_lt. lia. }
    exists (l ++ [pretty_N_char (x `mod` 10)%N])%list. repeat split.
    + rewrite Hl. clear. induction l as [|c l IHl]; [reflexivity|].
      change (String c (string_of_list_ascii l
                        ++ String (pretty_N_char (x `mod` 10)) s)
              = String c (string_of_list_ascii
                            (l ++ [pretty_N_char (x `mod` 10)]%N) ++ s)).
      now rewrite IHl.
    + rewrite forallb_app, Hd. simpl. now rewrite Hc1.
    + intros _. now destruct l.
    + intros acc. rewrite digits_value_app, Hv. simpl. rewrite Hc1, Hc2.
      f_equal. rewrite length_app. simpl.
      rewrite Nat2Z.inj_add, Z.pow_add_r by lia.
      pose proof (N.div_mod x 10 ltac:(lia)) as Hdm.
      change (10 ^ Z.of_nat 1)%Z with 10%Z. 
      assert (Z.of_N x = 10 * Z.of_N (x `div` 10) + Z.of_N (x `mod` 10))%Z
        as -> by lia.
      ring.
Qed.

Lemma pretty_Z_digits (n : Z) :
  (0 <= n)%Z ->
  let l := list_ascii_of_string (pretty n) in
  l <> [] /\ forallb is_digit l = true /\ digits_value 0 l = Some n.
Proof.
  intros Hn. destruct n as [|p|p]; [repeat split; discriminate| |lia].
  change (pretty (Z.pos p)) with (pretty (N.pos p)).
  unfold pretty, pretty_N. rewrite decide_False by discriminate.
  destruct (pretty_N_go_digits (N.pos p) "") as (l & Hl & Hd & Hne & Hv).
  rewrite Hl. cbn zeta.
  assert (forall l s, list_ascii_of_string (string_of_list_ascii l ++ s)
                      = (l ++ list_ascii_of_string s)%list) as Hls.
  { clear. intros l s. induction l as [|c l IHl]; [reflexivity|].
    change (c :: list_ascii_of_string (string_of_list_ascii l ++ s)
            = c :: (l ++ list_ascii_of_string s)%list).
    now rewrite IHl. }
  rewrite Hls. simpl. rewrite app_nil_r. repeat split.
  - apply Hne. lia.
  - exact Hd.
  - rewrite Hv; f_equal; lia.
Qed.

Lemma plain_name_spec nm :
  plain_name nm = true ->
  plain (list_ascii_of_string nm) = true
  /\ forallb (atom_matches ADot) (list_ascii_of_string nm) = true
  /\ forallb (fun c => negb (Ascii.eqb c "/")) (list_ascii_of_string nm) = true.
Proof.
  unfold plain_name, plain. induction (list_ascii_of_string nm) as [|c l IH];
    [auto|].
  simpl. intros H. apply andb_prop in H as [Hc Hl].
  apply andb_prop in Hc as [Hc _].
  apply andb_prop in Hc as [Hc H3]. apply andb_prop in Hc as [H1 H2].
  destruct (IH Hl) as (I1 & I2 & I3).
  rewrite H1, H2, H3, I1, I2, I3. auto.
Qed.

Lemma py_int_digits l n :
  l <> [] -> digits_value 0 l = Some n ->
  py_int (string_of_list_ascii l) = ok n.
Proof.
  intros Hne Hv. unfold py_int.
  rewrite list_ascii_of_string_of_list_ascii.
  destruct l as [|c l]; [contradiction|]. now rewrite Hv.
Qed.

Lemma findall_first_kernel_name nm dh dn :
  plain (list_ascii_of_string nm) = true ->
  forallb is_digit dh = true -> forallb is_digit dn = true ->
  findall_first (kernel_pattern nm)
    (nm ++ "_d" ++ string_of_list_ascii dh ++ "n"
        ++ string_of_list_ascii dn ++ "_den.ebf")
  = ok [string_of_list_ascii dh; string_of_list_ascii dn].
Proof.
  intros Hnm Hh Hn. unfold findall_first.
  rewrite re_parse_kernel_pattern by exact Hnm.
  rewrite !list_ascii_of_string_app, !list_ascii_of_string_of_list_ascii.
  set (l := list_ascii_of_string nm).
  rewrite (re_search_head _ _ [dh; dn] []); [reflexivity|].
  rewrite match_nodes_lits. unfold kernel_tail_nodes.
  change (list_ascii_of_string "_d" ++ ?x)%list with ("_" :: "d" :: x)%char.
  rewrite !match_nodes_lit.
  rewrite <- (app_nil_r dh) at 2.
  apply head_group_star_app; [exact Hh|].
  apply head_group_star_stop; [reflexivity|].
  change (list_ascii_of_string "n" ++ ?x)%list with ("n" :: x)%char.
  rewrite match_nodes_lit.
  rewrite <- (app_nil_r dn) at 2.
  apply head_group_star_app; [exact Hn|].
  reflexivity.
Qed.

Lemma parse_pname_written nm :
  forallb (atom_matches ADot) (list_ascii_of_string nm) = true ->
  parse_pname (nm ++ ".ebf") = ok nm.
Proof.
  intros Hnm. unfold parse_pname, findall_first.
  change (re_parse "(.*).ebf")
    with (Some [NGroup [PStar ADot]; NPiece (POne ADot);
                NPiece (POne (ALit "e")); NPiece (POne (ALit "b"));
                NPiece (POne (ALit "f"))]%char).
  rewrite list_ascii_of_string_app.
  rewrite (re_search_head _ _ [list_ascii_of_string nm] []).
  - cbn. now rewrite string_of_list_ascii_of_string.
  - rewrite <- (app_nil_r (list_ascii_of_string nm)) at 2.
    apply head_group_star_app; [exact Hnm | reflexivity].
Qed.

Lemma parse_kname_written nm (h n : Z) :
  plain (list_ascii_of_string nm) = true ->
  (0 <= h)%Z -> (0 <= n)%Z ->
  parse_kname nm (nm ++ "_d" ++ pretty h ++ "n" ++ pretty n ++ "_den.ebf")
  = ok (h, n).
Proof.
  intros Hnm Hh Hn.
  destruct (pretty_Z_digits h Hh) as (Hh1 & Hh2 & Hh3).
  destruct (pretty_Z_digits n Hn) as (Hn1 & Hn2 & Hn3).
  cbn zeta in *. unfold parse_kname.
  rewrite <- (string_of_list_ascii_of_string (pretty h)).
  rewrite <- (string_of_list_ascii_of_string (pretty n)).
  rewrite findall_first_kernel_name by assumption.
  cbn [mbind result_bind ok].
  rewrite (py_int_digits (list_ascii_of_string (pretty h)) h)
    by assumption.
  cbn [mbind result_bind ok].
  rewrite (py_int_digits (list_ascii_of_string (pretty n)) n)
    by assumption.
  reflexivity.
Qed.

(** A file name without [/] under a directory *)
Lemma split_on_none s :
  forallb (fun c => negb (Ascii.eqb c "/")) (list_ascii_of_string s) = true ->
  split_on "/" s = [s].
Proof.
  induction s as [|c s IH]; [reflexivity|].
  simpl. intros H. apply andb_prop in H as [Hc Hs].
  apply negb_true_iff in Hc. rewrite Hc, (IH Hs). reflexivity.
Qed.

Lemma path_of_string_file s :
  forallb (fun c => negb (Ascii.eqb c "/")) (list_ascii_of_string s) = true ->
  (2 <= String.length s)%nat ->
  path_of_string s = Path false [s].
Proof.
  intros Hs Hlen. unfold path_of_string. rewrite (split_on_none _ Hs).
  destruct s as [|c [|c' s]]; simpl in Hlen; try lia.
  simpl in Hs. apply andb_prop in Hs as [Hc _].
  apply negb_true_iff in Hc.
  cbn [List.filter String.eqb orb negb String.prefix].
  destruct (ascii_dec "/" c) as [<- | _]; [discriminate Hc|].
  destruct (Ascii.eqb c "."); reflexivity.
Qed.

Lemma path_under dir s :
  path_name (path_join dir (Path false [s])) = s
  /\ path_parent (path_join dir (Path false [s])) = dir.
Proof.
  destruct dir as [a ps]. unfold path_join, path_name, path_parent. simpl.
  now rewrite last_last, removelast_last.
Qed.

Lemma string_length_app (s t : string) :
  String.length (s ++ t) = (String.length s + String.length t)%nat.
Proof.
  induction s as [|c s IH]; [reflexivity|].
  change (S (String.length (s ++ t)) = S (String.length s + String.length t)).
  now rewrite IH.
Qed.

Lemma digits_no_slash l :
  forallb is_digit l = true ->
  forallb (fun c => negb (Ascii.eqb c "/")) l = true.
Proof.
  induction l as [|c l IH]; [reflexivity|].
  simpl. intros H. apply andb_prop in H as [Hc Hl]. rewrite (IH Hl).
  destruct (Ascii.eqb_spec c "/") as [-> | _]; [discriminate Hc | reflexivity].
Qed.

Lemma hdim_nonneg i : (0 <= hdim i)%Z.
Proof. unfold hdim. destruct (rho_vel i); lia. Qed.

Lemma default_names_shape i n :
  plain_name (name i) = true -> ngb i = PyInt n -> (0 <= n)%Z ->
  default_pname i = path_join (input_dir i) (Path false [name i ++ ".ebf"])
  /\ default_kname i
     = path_join (input_dir i)
         (Path false [name i ++ "_d" ++ pretty (hdim i) ++ "n" ++ pretty n
                        ++ "_den.ebf"]).
Proof.
  intros Hnm Hngb Hn. apply plain_name_spec in Hnm as (_ & _ & Hsl).
  destruct (pretty_Z_digits n Hn) as (_ & Hdn & _).
  destruct (pretty_Z_digits (hdim i) (hdim_nonneg i)) as (_ & Hdh & _).
  cbn zeta in Hdn, Hdh.
  apply digits_no_slash in Hdn, Hdh.
  unfold default_pname, default_kname. rewrite Hngb. cbn [py_str].
  split; f_equal; apply path_of_string_file.
  - rewrite list_ascii_of_string_app, forallb_app, Hsl. reflexivity.
  - rewrite string_length_app. simpl. lia.
  - rewrite !list_ascii_of_string_app, !forallb_app, Hsl, Hdn, Hdh.
    reflexivity.
  - rewrite !string_length_app. simpl. lia.
Qed.

Lemma default_names_parsed (i : Input) (n : Z) :
  plain_name (name i) = true -> ngb i = PyInt n -> (0 <= n)%Z ->
  path_parent (default_pname i) = input_dir i
  /\ path_parent (default_kname i) = input_dir i
  /\ parse_pname (path_name (default_pname i)) = ok (name i)
  /\ parse_kname (name i) (path_name (default_kname i)) = ok (hdim i, n).
Proof.
  intros Hnm Hngb Hn.
  destruct (default_names_shape i n Hnm Hngb Hn) as [-> ->].
  apply plain_name_spec in Hnm as (Hpl & Hdot & _).
  repeat split; try apply path_under.
  - rewrite (proj1 (path_under _ _)). now apply parse_pname_written.
  - rewrite (proj1 (path_under _ _)).
    apply parse_kname_written; auto using hdim_nonneg.
Qed.

(** The file names the writers choose are the ones the file-based
    signature understands: for a plain name (characters below code point
    128, no regular-expression metacharacter, no [/], no line break) and a
    neighbour count that is a natural number below 2^63, both default paths
    lie in the input directory, the particle file name gives back the name,
    and the kernel file name gives back the dimension and the neighbour
    count. *)
Theorem default_names_parse_back (i : Input) (n : Z) :
  plain_name (name i) = true -> ngb i = PyInt n -> (0 <= n < 2 ^ 63)%Z ->
  path_parent (default_pname i) = input_dir i
  /\ path_parent (default_kname i) = input_dir i
  /\ parse_pname (path_name (default_pname i)) = ok (name i)
  /\ parse_kname (name i) (path_name (default_kname i)) = ok (hdim i, n).
Proof.
  intros Hnm Hngb [Hn _]. now apply default_names_parsed.
Qed.

Lemma default_names_parse_back_witness :
  parse_pname (path_name (default_pname sample_input)) = ok "sim"
  /\ parse_kname "sim" (path_name (default_kname sample_input))
     = ok (6%Z, 64%Z).
Proof.
  assert (Hplain : plain_name (name sample_input) = true)
    by (vm_compute; reflexivity).
  assert (Hb64 : (0 <= 64 < 2 ^ 63)%Z) by (split; [lia | reflexivity]).
  destruct (default_names_parse_back sample_input 64 Hplain eq_refl
              Hb64) as (_ & _ & H1 & H2).
  split; [exact H1 | exact H2].
Defined.

Section Reload.
Variable GALAXIA_TMP : path.
Variable TTAGS_nres : string.

Lemma from_files_input_dir fs pn kn kw kw' :
  from_files fs pn kn kw = inr kw' ->
  kw_input_dir kw' = Some (path_parent pn).
Proof.
  unfold from_files. intros H. bind_inv H.
  destruct (truthy _); bind_inv H; inversion H; subst; reflexivity.
Qed.

Lemma Input_init_files_dir fs kw pn kn i :
  kw_pname kw = Some pn -> kw_kname kw = Some kn ->
  Input_init GALAXIA_TMP TTAGS_nres fs NoArgs kw = inr i ->
  input_dir i = path_parent pn.
Proof.
  unfold Input_init. intros Hp Hk H. rewrite Hp, Hk in H. bind_inv H.
  destruct (from_files fs pn kn kw) as [e|kw'] eqn:Hff; [discriminate|].
  apply from_files_input_dir in Hff.
  match goal with
  | Hpair : _ = inr (_, _) |- _ => inversion Hpair; subst; clear Hpair
  end.
  inversion H; subst; simpl. now rewrite Hff.
Qed.

(** An Input constructed from the two default paths of another one, whose
    name is plain and whose neighbour count is a natural number below 2^63,
    takes over its name, its neighbour count and its directory, and holds
    the two paths. *)
Theorem reload_recovers_names fs fk (i i2 : Input) (n : Z) :
  plain_name (name i) = true -> ngb i = PyInt n -> (0 <= n < 2 ^ 63)%Z ->
  Input_init GALAXIA_TMP TTAGS_nres fs NoArgs
    (file_kwargs (default_pname i) (default_kname i) fk) = ok i2 ->
  name i2 = name i /\ ngb i2 = ngb i /\ input_dir i2 = input_dir i
  /\ pname_attr i2 = Some (default_pname i)
  /\ kname_attr i2 = Some (default_kname i).
Proof.
  intros Hnm Hngb [Hn _] Hi.
  destruct (default_names_parsed i n Hnm Hngb Hn) as (Hd & _ & Hp & Hk).
  pose proof (Input_init_files_dir fs
                (file_kwargs (default_pname i) (default_kname i) fk)
                (default_pname i) (default_kname i) i2 eq_refl eq_refl Hi)
    as Hdir.
  apply Input_init_files_inv in Hi
    as (pn & kn & Hpn & Hkn & Hpa & Hka & _ & _ & nm & hd & ng
        & Hnm' & Hng' & Hname & Hngb').
  simpl in Hpn, Hkn. inversion Hpn; inversion Hkn; subst pn kn.
  rewrite Hp in Hnm'. inversion Hnm' as [Heq]. rewrite <- Heq in *.
  rewrite Hk in Hng'. inversion Hng'; subst hd ng.
  rewrite Hngb, Hdir, Hd. auto.
Qed.

End Reload.

Lemma reload_recovers_names_witness :
  exists i2,
    Input_init sample_tmp "nres" sample_files NoArgs
      (file_kwargs (default_pname sample_input) (default_kname sample_input)
         None) = ok i2
    /\ name i2 = "sim" /\ ngb i2 = PyInt 64 /\ input_dir i2 = sample_dir.
Proof.
  assert (exists i2, Input_init sample_tmp "nres" sample_files NoArgs
                       (file_kwargs (default_pname sample_input)
                          (default_kname sample_input) None) = ok i2)
    as [i2 Hi] by (eexists; vm_compute; reflexivity).
  exists i2. split; [exact Hi|].
  assert (Hplain : plain_name (name sample_input) = true)
    by (vm_compute; reflexivity).
  assert (Hb64 : (0 <= 64 < 2 ^ 63)%Z) by (split; [lia | reflexivity]).
  destruct (reload_recovers_names sample_tmp "nres" sample_files None
              sample_input i2 64 Hplain eq_refl Hb64 Hi)
    as (H1 & H2 & H3 & _).
  auto.
Defined.
(** ** The matcher finds what the fragment accepts *)

Lemma in_star_splits a s : forall m r,
  In (m, r) (star_splits a s)
  <-> s = (m ++ r)%list /\ forallb (atom_matches a) m = true.
Proof.
  induction s as [|c s IH]; intros m r.
  - simpl. split.
    + intros [[= <- <-] | []]. auto.
    + intros [E _]. symmetry in E. apply app_eq_nil in E as [-> ->]. now left.
  - cbn [star_splits]. destruct (atom_matches a c) eqn:Hc.
    + rewrite in_app_iff, in_map_iff. split.
      * intros [([m' r'] & [= <- <-] & Hin) | [[= <- <-] | []]].
        -- apply IH in Hin as [-> Hm]. simpl. now rewrite Hc.
        -- auto.
      * intros [E Hm]. destruct m as [|c' m'].
        -- right. left. simpl in E. now subst.
        -- left. simpl in E. injection E as <- ->.
           simpl in Hm. apply andb_prop in Hm as [_ Hm].
           exists (m', r). split; [reflexivity|]. apply IH. auto.
    + simpl. split.
      * intros [[= <- <-] | []]. auto.
      * intros [E Hm]. destruct m as [|c' m'].
        -- left. simpl in E. now subst.
        -- simpl in E. injection E as <- ->. simpl in Hm.
           rewrite Hc in Hm. discriminate.
Qed.

Lemma in_match_pieces ps : forall s m r,
  In (m, r) (match_pieces ps s)
  <-> s = (m ++ r)%list /\ pieces_accept ps m.
Proof.
  induction ps as [|[a|a] ps IH]; intros s m r.
  - simpl. split.
    + intros [[= <- <-] | []]. auto.
    + intros [-> ->]. now left.
  - cbn [match_pieces pieces_accept]. destruct s as [|c s].
    + split; [intros [] | intros [E (c & m' & -> & _)]; discriminate].
    + destruct (atom_matches a c) eqn:Hc.
      * rewrite in_map_iff. split.
        -- intros ([m' r'] & [= <- <-] & Hin).
           apply IH in Hin as [-> Hm]. split; [reflexivity|]. eauto.
        -- intros [E (c' & m' & -> & Hc' & Hm)]. simpl in E.
           injection E as <- ->. exists (m', r). split; [reflexivity|].
           apply IH. auto.
      * split; [intros [] |].
        intros [E (c' & m' & -> & Hc' & _)]. simpl in E.
        injection E as <- _. congruence.
  - cbn [match_pieces pieces_accept]. rewrite in_flat_map. split.
    + intros ([m1 r1] & Hin & Hin').
      apply in_star_splits in Hin as [-> Hm1].
      apply in_map_iff in Hin' as ([m2 r2] & [= <- <-] & Hin').
      apply IH in Hin' as [-> Hm2].
      split; [now rewrite app_assoc | eauto].
    + intros [-> (m1 & m2 & -> & Hm1 & Hm2)].
      exists (m1, (m2 ++ r)%list). split.
      * apply in_star_splits. split; [now rewrite app_assoc | exact Hm1].
      * apply in_map_iff. exists (m2, r). split; [reflexivity|].
        apply IH. auto.
Qed.

Lemma in_match_nodes ns : forall s caps r,
  In (caps, r) (match_nodes ns s)
  <-> exists m, s = (m ++ r)%list /\ nodes_accept ns m caps.
Proof.
  induction ns as [|[p|ps] ns IH]; intros s caps r.
  - simpl. split.
    + intros [[= <- <-] | []]. exists []. auto.
    + intros (m & -> & -> & ->). now left.
  - cbn [match_nodes nodes_accept]. rewrite in_flat_map. split.
    + intros ([m1 r1] & Hin & Hin').
      apply in_match_pieces in Hin as [-> Hm1].
      apply IH in Hin' as (m2 & -> & Hm2).
      exists (m1 ++ m2)%list. split; [now rewrite app_assoc | eauto].
    + intros (m & -> & m1 & m2 & -> & Hm1 & Hm2).
      exists (m1, (m2 ++ r)%list). split.
      * apply in_match_pieces. split; [now rewrite app_assoc | exact Hm1].
      * apply IH. eauto.
  - cbn [match_nodes nodes_accept]. rewrite in_flat_map. split.
    + intros ([m1 r1] & Hin & Hin').
      apply in_match_pieces in Hin as [-> Hm1].
      apply in_map_iff in Hin' as ([caps' r'] & [= <- <-] & Hin').
      apply IH in Hin' as (m2 & -> & Hm2).
      exists (m1 ++ m2)%list. split; [now rewrite app_assoc|].
      exists m1, m2, caps'. auto.
    + intros (m & -> & m1 & m2 & caps' & -> & -> & Hm1 & Hm2).
      exists (m1, (m2 ++ r)%list). split.
      * apply in_match_pieces. split; [now rewrite app_assoc | exact Hm1].
      * apply in_map_iff. exists (caps', r). split; [reflexivity|].
        apply IH. eauto.
Qed.

(** [re.search]: nothing is found exactly when no part of the text is
    accepted, and what is found is the groups of an accepted part. *)
Lemma re_search_None ns s :
  re_search ns s = None
  <-> forall pre m post caps,
        s = (pre ++ m ++ post)%list -> ~ nodes_accept ns m caps.
Proof.
  induction s as [|c s IH].
  - simpl. destruct (match_nodes ns []) as [|[caps r] M] eqn:E.
    + split; [|reflexivity]. intros _ pre m post caps Hs Hacc.
      symmetry in Hs. apply app_eq_nil in Hs as [-> Hs].
      apply app_eq_nil in Hs as [-> ->].
      assert (In (caps, []) (match_nodes ns [])) as Hin
        by (apply in_match_nodes; exists []; auto).
      now rewrite E in Hin.
    + split; [discriminate|]. intros Hno. exfalso.
      assert (In (caps, r) (match_nodes ns [])) as Hin by (rewrite E; now left).
      apply in_match_nodes in Hin as (m & Hs & Hacc).
      apply (Hno [] m r caps); [exact Hs | exact Hacc].
  - cbn [re_search]. destruct (match_nodes ns (c :: s)) as [|[caps r] M] eqn:E.
    + rewrite IH. split.
      * intros Hno pre m post caps Hs Hacc. destruct pre as [|c' pre].
        -- assert (In (caps, post) (match_nodes ns (c :: s))) as Hin
             by (apply in_match_nodes; exists m; auto).
           now rewrite E in Hin.
        -- simpl in Hs. injection Hs as <- ->.
           now apply (Hno pre m post caps).
      * intros Hno pre m post caps Hs. apply (Hno (c :: pre) m post caps).
        simpl. now rewrite Hs.
    + split; [discriminate|]. intros Hno. exfalso.
      assert (In (caps, r) (match_nodes ns (c :: s))) as Hin
        by (rewrite E; now left).
      apply in_match_nodes in Hin as (m & Hs & Hacc).
      apply (Hno [] m r caps); [exact Hs | exact Hacc].
Qed.

Lemma re_search_Some ns s caps :
  re_search ns s = Some caps ->
  exists pre m post, s = (pre ++ m ++ post)%list /\ nodes_accept ns m caps.
Proof.
  induction s as [|c s IH].
  - simpl. destruct (match_nodes ns []) as [|[caps' r] M] eqn:E;
      [discriminate|].
    intros [= <-].
    assert (In (caps', r) (match_nodes ns [])) as Hin by (rewrite E; now left).
    apply in_match_nodes in Hin as (m & Hs & Hacc). exists [], m, r. auto.
  - cbn [re_search]. destruct (match_nodes ns (c :: s)) as [|[caps' r] M] eqn:E.
    + intros Hs. destruct (IH Hs) as (pre & m & post & -> & Hacc).
      exists (c :: pre), m, post. auto.
    + intros [= <-].
      assert (In (caps', r) (match_nodes ns (c :: s))) as Hin
        by (rewrite E; now left).
      apply in_match_nodes in Hin as (m & Hs & Hacc). exists [], m, r. auto.
Qed.

(** ** The pattern of the kernel file name *)

Lemma nodes_accept_one a ns m caps :
  nodes_accept (NPiece (POne a) :: ns) m caps
  <-> exists c m', m = c :: m' /\ atom_matches a c = true
                   /\ nodes_accept ns m' caps.
Proof.
  cbn [nodes_accept pieces_accept]. split.
  - intros (m1 & m2 & -> & (c & m' & -> & Hc & ->) & Hacc). eauto.
  - intros (c & m' & -> & Hc & Hacc). exists [c], m'.
    split; [reflexivity|]. split; [|exact Hacc]. exists c, []. auto.
Qed.

Lemma nodes_accept_lit c ns m caps :
  nodes_accept (NPiece (POne (ALit c)) :: ns) m caps
  <-> exists m', m = c :: m' /\ nodes_accept ns m' caps.
Proof.
  rewrite nodes_accept_one. split.
  - intros (c' & m' & -> & Hc & Hacc). simpl in Hc.
    apply Ascii.eqb_eq in Hc as <-. eauto.
  - intros (m' & -> & Hacc). exists c, m'. simpl.
    now rewrite Ascii.eqb_refl.
Qed.

Lemma nodes_accept_group_star a ns m caps :
  nodes_accept (NGroup [PStar a] :: ns) m caps
  <-> exists m1 m2 caps',
        m = (m1 ++ m2)%list /\ caps = m1 :: caps'
        /\ forallb (atom_matches a) m1 = true /\ nodes_accept ns m2 caps'.
Proof.
  cbn [nodes_accept pieces_accept]. split.
  - intros (m1 & m2 & caps' & -> & -> & (m1' & m0 & -> & Hm & ->) & Hacc).
    rewrite app_nil_r. eauto 10.
  - intros (m1 & m2 & caps' & -> & -> & Hm & Hacc).
    exists m1, m2, caps'. repeat split; try assumption.
    exists m1, []. now rewrite app_nil_r.
Qed.

Lemma nodes_accept_lits l ns m caps :
  nodes_accept (lits l ++ ns) m caps
  <-> exists m', m = (l ++ m')%list /\ nodes_accept ns m' caps.
Proof.
  revert m. induction l as [|c l IH]; intros m.
  - simpl. split; [eauto | now intros (m' & -> & H)].
  - change (lits (c :: l) ++ ns)%list
      with (NPiece (POne (ALit c)) :: (lits l ++ ns))%list.
    rewrite nodes_accept_lit. split.
    + intros (m1 & -> & Hacc). apply IH in Hacc as (m' & -> & Hacc). eauto.
    + intros (m' & -> & Hacc). exists (l ++ m')%list.
      split; [reflexivity|]. apply IH. eauto.
Qed.

Lemma kernel_tail_accept m caps :
  nodes_accept kernel_tail_nodes m caps
  <-> exists dh dn c,
        m = (list_ascii_of_string "_d" ++ dh ++ list_ascii_of_string "n"
               ++ dn ++ list_ascii_of_string "_den"
               ++ c :: list_ascii_of_string "ebf")%list
        /\ forallb is_digit dh = true /\ forallb is_digit dn = true
        /\ c <> "010"%char /\ caps = [dh; dn].
Proof.
  unfold kernel_tail_nodes. split.
  - intros H.
    apply nodes_accept_lit in H as (m1 & -> & H).
    apply nodes_accept_lit in H as (m2 & -> & H).
    apply nodes_accept_group_star in H as (dh & m3 & caps1 & -> & -> & Hdh & H).
    apply nodes_accept_lit in H as (m4 & -> & H).
    apply nodes_accept_group_star in H as (dn & m5 & caps2 & -> & -> & Hdn & H).
    apply nodes_accept_lit in H as (m6 & -> & H).
    apply nodes_accept_lit in H as (m7 & -> & H).
    apply nodes_accept_lit in H as (m8 & -> & H).
    apply nodes_accept_lit in H as (m9 & -> & H).
    apply nodes_accept_one in H as (c & m10 & -> & Hc & H).
    apply nodes_accept_lit in H as (m11 & -> & H).
    apply nodes_accept_lit in H as (m12 & -> & H).
    apply nodes_accept_lit in H as (m13 & -> & H).
    destruct H as [-> ->].
    exists dh, dn, c. repeat split; try assumption.
    simpl in Hc. intros ->. discriminate Hc.
  - intros (dh & dn & c & -> & Hdh & Hdn & Hc & ->).
    apply nodes_accept_lit. eexists. split; [reflexivity|].
    apply nodes_accept_lit. eexists. split; [reflexivity|].
    apply nodes_accept_group_star. exists dh. do 2 eexists.
    split; [reflexivity|]. split; [reflexivity|]. split; [exact Hdh|].
    apply nodes_accept_lit. eexists. split; [reflexivity|].
    apply nodes_accept_group_star. exists dn. do 2 eexists.
    split; [reflexivity|]. split; [reflexivity|]. split; [exact Hdn|].
    apply nodes_accept_lit. eexists. split; [reflexivity|].
    apply nodes_accept_lit. eexists. split; [reflexivity|].
    apply nodes_accept_lit. eexists. split; [reflexivity|].
    apply nodes_accept_lit. eexists. split; [reflexivity|].
    apply nodes_accept_one. exists c. eexists. split; [reflexivity|].
    split.
    { simpl. destruct (Ascii.eqb_spec c "010"); [contradiction | reflexivity]. }
    apply nodes_accept_lit. eexists. split; [reflexivity|].
    apply nodes_accept_lit. eexists. split; [reflexivity|].
    apply nodes_accept_lit. eexists. split; [reflexivity|].
    split; reflexivity.
Qed.

Lemma kernel_occurs_accept nm k :
  kernel_occurs nm k
  <-> exists pre m post caps,
        list_ascii_of_string k = (pre ++ m ++ post)%list
        /\ nodes_accept (lits (list_ascii_of_string nm) ++ kernel_tail_nodes)
             m caps.
Proof.
  unfold kernel_occurs. split.
  - intros (pre & dh & dn & c & post & Hk & Hdh & Hdn & Hc).
    exists pre. eexists. exists post, [dh; dn]. split.
    2:{ apply nodes_accept_lits. eexists. split; [reflexivity|].
        apply kernel_tail_accept. exists dh, dn, c. auto. }
    rewrite Hk. f_equal. rewrite <- !app_assoc. simpl.
    repeat (rewrite <- ?app_assoc; simpl; f_equal).
  - intros (pre & m & post & caps & Hk & Hacc).
    apply nodes_accept_lits in Hacc as (m' & -> & Hacc).
    apply kernel_tail_accept in Hacc as (dh & dn & c & -> & Hdh & Hdn & Hc & _).
    exists pre, dh, dn, c, post. repeat split; try assumption.
    rewrite Hk. f_equal. rewrite <- !app_assoc. simpl.
    repeat (rewrite <- ?app_assoc; simpl; f_equal).
Qed.

Lemma digits_value_nonneg l : forall acc z,
  (0 <= acc)%Z -> digits_value acc l = Some z -> (0 <= z)%Z.
Proof.
  induction l as [|c l IH]; intros acc z Hacc; simpl.
  - now intros [= <-].
  - destruct (is_digit c); [|discriminate]. apply IH. lia.
Qed.

Lemma py_int_cases s :
  py_int s = raise ValueError
  \/ exists z, py_int s = ok z /\ (0 <= z)%Z.
Proof.
  unfold py_int. destruct (list_ascii_of_string s) as [|c l]; [now left|].
  destruct (digits_value 0 (c :: l)) as [z|] eqn:E; [right | now left].
  exists z. split; [reflexivity|].
  apply (digits_value_nonneg (c :: l) 0 z); [lia | exact E].
Qed.

(** The outcome of reading the kernel file name, decided by the name *)
Lemma parse_kname_outcome nm k :
  plain_name nm = true ->
  (parse_kname nm k = raise IndexError <-> ~ kernel_occurs nm k)
  /\ (kernel_occurs nm k ->
      parse_kname nm k = raise ValueError
      \/ exists h n, parse_kname nm k = ok (h, n) /\ (0 <= h)%Z /\ (0 <= n)%Z).
Proof.
  intros Hnm. apply plain_name_spec in Hnm as (Hpl & _ & _).
  unfold parse_kname, findall_first.
  rewrite (re_parse_kernel_pattern nm Hpl).
  destruct (re_search _ (list_ascii_of_string k)) as [caps|] eqn:E.
  - apply re_search_Some in E as (pre & m & post & Hk & Hacc).
    assert (Hocc : kernel_occurs nm k)
      by (apply kernel_occurs_accept; eauto 10).
    apply nodes_accept_lits in Hacc as (m' & -> & Hacc).
    apply kernel_tail_accept in Hacc as (dh & dn & c & _ & _ & _ & _ & ->).
    cbn [mbind result_bind ok map].
    assert (Hres :
      (py_int (string_of_list_ascii dh)
         ≫= (fun h => py_int (string_of_list_ascii dn)
                        ≫= fun n => ok (h, n)))
      = raise ValueError
      \/ exists h n,
           (py_int (string_of_list_ascii dh)
              ≫= (fun h => py_int (string_of_list_ascii dn)
                             ≫= fun n => ok (h, n)))
           = ok (h, n) /\ (0 <= h)%Z /\ (0 <= n)%Z).
    { destruct (py_int_cases (string_of_list_ascii dh)) as [-> | (h & -> & Hh)];
        [now left|].
      cbn [mbind result_bind ok].
      destruct (py_int_cases (string_of_list_ascii dn)) as [-> | (n & -> & Hn)];
        [now left|].
      right. exists h, n. auto. }
    split; [|intros _; exact Hres].
    split; [|intros Hno; contradiction].
    intros Hix. destruct Hres as [Hv | (h & n & Hv & _)];
      rewrite Hv in Hix; discriminate.
  - cbn [mbind result_bind raise]. split.
    + split; [|reflexivity]. intros _ Hocc.
      apply kernel_occurs_accept in Hocc as (pre & m & post & caps & Hk & Hacc).
      exact (proj1 (re_search_None _ _) E pre m post caps Hk Hacc).
    + intros Hocc. exfalso.
      apply kernel_occurs_accept in Hocc as (pre & m & post & caps & Hk & Hacc).
      exact (proj1 (re_search_None _ _) E pre m post caps Hk Hacc).
Qed.

Section KernelName.
Variable GALAXIA_TMP : path.
Variable TTAGS_nres : string.

Lemma from_files_bad_kname fs pn kn kw nm e :
  path_parent pn = path_parent kn ->
  parse_pname (path_name pn) = ok nm ->
  parse_kname nm (path_name kn) = raise e ->
  from_files fs pn kn kw = raise e.
Proof.
  intros Hpar Hnm Hk. unfold from_files.
  rewrite decide_True by exact Hpar. simpl. rewrite Hnm. simpl.
  now rewrite Hk.
Qed.

(** C7, as the code has it.  The names the writers choose are read back:
    for a plain name [nm] and natural numbers [h] and [n] below 2^63, the
    kernel file name [nm_d<h>n<n>_den.ebf] beside the particle file
    [nm.ebf] gives the dimension [h] and the neighbour count [n] (6 and 64
    for [sim_d6n64_den.ebf]), and the constructed Input keeps the name and
    the neighbour count.  Other kernel file names are not told apart by their
    form: the pattern is searched anywhere in the name.  Where it occurs
    nowhere, and only there, reading the name fails with [IndexError], and
    so does the construction; where it occurs, reading the name gives two
    natural numbers or fails with [ValueError].  File names are taken to
    consist of characters below code point 128. *)
Theorem kernel_name_parsing :
  (forall nm h n,
     plain_name nm = true -> (0 <= h < 2 ^ 63)%Z -> (0 <= n < 2 ^ 63)%Z ->
     parse_pname (nm ++ ".ebf") = ok nm
     /\ parse_kname nm (nm ++ "_d" ++ pretty h ++ "n" ++ pretty n
                          ++ "_den.ebf") = ok (h, n))
  /\ (forall fs kw pn kn nm h n i,
        kw_pname kw = Some pn -> kw_kname kw = Some kn ->
        plain_name nm = true ->
        (0 <= h < 2 ^ 63)%Z -> (0 <= n < 2 ^ 63)%Z ->
        path_name pn = nm ++ ".ebf" ->
        path_name kn = nm ++ "_d" ++ pretty h ++ "n" ++ pretty n
                          ++ "_den.ebf" ->
        Input_init GALAXIA_TMP TTAGS_nres fs NoArgs kw = ok i ->
        name i = nm /\ ngb i = PyInt n)
  /\ (forall nm k,
        plain_name nm = true -> is_ascii k = true ->
        (parse_kname nm k = raise IndexError <-> ~ kernel_occurs nm k)
        /\ (kernel_occurs nm k ->
            parse_kname nm k = raise ValueError
            \/ exists h n, parse_kname nm k = ok (h, n)
                           /\ (0 <= h)%Z /\ (0 <= n)%Z))
  /\ (forall fs kw pn kn nm,
        kw_pname kw = Some pn -> kw_kname kw = Some kn ->
        path_parent pn = path_parent kn ->
        plain_name nm = true -> path_name pn = nm ++ ".ebf" ->
        is_ascii (path_name kn) = true ->
        ~ kernel_occurs nm (path_name kn) ->
        Input_init GALAXIA_TMP TTAGS_nres fs NoArgs kw = raise IndexError).
Proof.
  split; [|split; [|split]].
  - intros nm h n Hnm [Hh _] [Hn _].
    destruct (plain_name_spec nm Hnm) as (Hpl & Hdot & _).
    split; [now apply parse_pname_written | now apply parse_kname_written].
  - intros fs kw pn kn nm h n i Hp Hk Hnm [Hh _] [Hn _] Hpn Hkn Hi.
    destruct (plain_name_spec nm Hnm) as (Hpl & Hdot & _).
    apply Input_init_files_inv in Hi
      as (pn' & kn' & Hp' & Hk' & _ & _ & _ & _ & nm' & hd & ng
          & Hnm' & Hng' & Hname & Hngb).
    rewrite Hp in Hp'. rewrite Hk in Hk'.
    assert (pn' = pn) by congruence. assert (kn' = kn) by congruence.
    subst pn' kn'.
    rewrite Hpn, (parse_pname_written nm Hdot) in Hnm'.
    assert (Hn1 : nm' = nm) by (now inversion Hnm').
    rewrite Hn1 in Hng', Hname.
    rewrite Hkn, (parse_kname_written nm h n Hpl Hh Hn) in Hng'.
    assert (Hn2 : ng = n) by (now inversion Hng').
    rewrite Hn2 in Hngb. auto.
  - intros nm k Hnm _. now apply parse_kname_outcome.
  - intros fs kw pn kn nm Hp Hk Hpar Hnm Hpn _ Hno.
    destruct (plain_name_spec nm Hnm) as (Hpl & Hdot & _).
    unfold Input_init. rewrite Hp, Hk.
    rewrite (from_files_bad_kname fs pn kn kw nm IndexError Hpar);
      [reflexivity | | ].
    + rewrite Hpn. now apply parse_pname_written.
    + now apply (parse_kname_outcome nm (path_name kn) Hnm).
Qed.

End KernelName.

Lemma kernel_name_parsing_witness :
  parse_kname "sim" "sim_d6n64_den.ebf" = ok (6%Z, 64%Z)
  /\ (exists i,
        Input_init sample_tmp "nres" sample_files NoArgs
          (file_kwargs sample_pname sample_kname None) = ok i
        /\ name i = "sim" /\ ngb i = PyInt 64)
  /\ ~ kernel_occurs "sim" "sim_6_64.ebf"
  /\ Input_init sample_tmp "nres" sample_files NoArgs
       (file_kwargs sample_pname sample_kname_bad None) = raise IndexError.
Proof.
  destruct (kernel_name_parsing sample_tmp "nres")
    as (Hparse & Hgood & Hname & Hbad).
  assert (Hplain : plain_name "sim" = true) by (vm_compute; reflexivity).
  assert (Hb6 : (0 <= 6 < 2 ^ 63)%Z) by (split; [lia | reflexivity]).
  assert (Hb64 : (0 <= 64 < 2 ^ 63)%Z) by (split; [lia | reflexivity]).
  assert (Hno : ~ kernel_occurs "sim" "sim_6_64.ebf").
  { apply (Hname "sim" "sim_6_64.ebf" Hplain); vm_compute; reflexivity. }
  split; [|split; [|split]].
  - exact (proj2 (Hparse "sim" 6%Z 64%Z Hplain Hb6 Hb64)).
  - assert (exists i, Input_init sample_tmp "nres" sample_files NoArgs
                        (file_kwargs sample_pname sample_kname None) = ok i)
      as [i Hi] by (eexists; vm_compute; reflexivity).
    exists i. split; [exact Hi|].
    exact (Hgood sample_files (file_kwargs sample_pname sample_kname None)
             sample_pname sample_kname "sim" 6%Z 64%Z i
             eq_refl eq_refl Hplain Hb6 Hb64 eq_refl eq_refl Hi).
  - exact Hno.
  - apply (Hbad sample_files (file_kwargs sample_pname sample_kname_bad None)
             sample_pname sample_kname_bad "sim");
      try reflexivity; try exact Hplain; try exact Hno.
Defined.

(** C7, as stated, fails: beside [sim.ebf], the kernel file name
    [oldsim_d3n8_den_ebf.bak] is not of the form
    [<name>_d<hdim>n<ngb>_den.ebf] and yet the construction succeeds, with
    8 neighbours; and the name [sim_dn_den.ebf], without numbers, fails
    with the [ValueError] of [int('')]. *)
Lemma kernel_name_violation_accepted :
  (exists i,
     Input_init sample_tmp "nres" sample_odd_files NoArgs
       (file_kwargs sample_pname sample_kname_odd None) = ok i
     /\ name i = "sim" /\ ngb i = PyInt 8)
  /\ Input_init sample_tmp "nres" sample_files NoArgs
       (file_kwargs sample_pname sample_kname_empty None) = raise ValueError.
Proof.
  split.
  - assert (exists i, Input_init sample_tmp "nres" sample_odd_files NoArgs
                        (file_kwargs sample_pname sample_kname_odd None) = ok i)
      as [i Hi] by (eexists; vm_compute; reflexivity).
    exists i. split; [exact Hi|].
    apply Input_init_files_inv in Hi
      as (pn & kn & Hp & Hk & _ & _ & _ & _ & nm & hd & ng
          & Hnm & Hng & Hname & Hngb).
    simpl in Hp, Hk.
    assert (pn = sample_pname) by congruence.
    assert (kn = sample_kname_odd) by congruence. subst pn kn.
    assert (Hnm' : parse_pname (path_name sample_pname) = ok "sim")
      by (vm_compute; reflexivity).
    assert (Hsim : nm = "sim") by (rewrite Hnm' in Hnm; now inversion Hnm).
    rewrite Hsim in Hng, Hname.
    assert (Hng' : parse_kname "sim" (path_name sample_kname_odd)
                   = ok (3%Z, 8%Z)) by (vm_compute; reflexivity).
    assert (H8 : ng = 8%Z) by (rewrite Hng' in Hng; now inversion Hng).
    rewrite H8 in Hngb. split; assumption.
  - unfold Input_init. cbn [file_kwargs kw_pname kw_kname].
    rewrite (from_files_bad_kname sample_files sample_pname sample_kname_empty
               _ "sim" ValueError); [reflexivity | reflexivity | |];
      vm_compute; reflexivity.
Qed.
(** * The file descriptor of an isochrone directory *)

(** ** Words and lines *)

Lemma is_word_spec s :
  is_word s = true <-> s <> "" /\ no_space s = true.
Proof.
  unfold is_word, no_space. rewrite andb_true_iff, negb_true_iff.
  now rewrite String.eqb_neq.
Qed.

Lemma string_app_assoc (s t u : string) : (s ++ t) ++ u = s ++ (t ++ u).
Proof.
  induction s as [|c s IH]; [reflexivity|].
  change (String c ((s ++ t) ++ u) = String c (s ++ (t ++ u))).
  now rewrite IH.
Qed.

Lemma no_space_app s t :
  no_space (s ++ t) = no_space s && no_space t.
Proof.
  unfold no_space. now rewrite list_ascii_of_string_app, forallb_app.
Qed.

Lemma py_split_space c s :
  py_isspace c = true -> py_split (String c s) = py_split s.
Proof. intros Hc. simpl. now rewrite Hc. Qed.

Lemma py_split_word w : forall c rest,
  w <> "" -> no_space w = true -> py_isspace c = true ->
  py_split (w ++ String c rest) = w :: py_split rest.
Proof.
  induction w as [|a w IH]; intros c rest Hne Hw Hc; [contradiction|].
  unfold no_space in Hw. simpl in Hw. apply andb_prop in Hw as [Ha Hw].
  apply negb_true_iff in Ha.
  change (String a w ++ String c rest) with (String a (w ++ String c rest)).
  destruct w as [|a' w'].
  - change ("" ++ String c rest) with (String c rest).
    cbn [py_split]. rewrite Ha, Hc. reflexivity.
  - assert (Hs : py_split (String a' w' ++ String c rest)
                 = String a' w' :: py_split rest)
      by (apply IH; [discriminate | exact Hw | exact Hc]).
    change (String a' w' ++ String c rest)
      with (String a' (w' ++ String c rest)) in *.
    assert (Ha' : py_isspace a' = false).
    { simpl in Hw. apply andb_prop in Hw as [Hx _].
      now apply negb_true_iff in Hx. }
    remember (String a' (w' ++ String c rest)) as s' eqn:Es.
    cbn [py_split]. rewrite Ha. rewrite Es at 1. rewrite Ha', Hs.
    reflexivity.
Qed.

Lemma py_split_last w :
  w <> "" -> no_space w = true -> py_split w = [w].
Proof.
  induction w as [|a w IH]; intros Hne Hw; [contradiction|].
  unfold no_space in Hw. simpl in Hw. apply andb_prop in Hw as [Ha Hw].
  apply negb_true_iff in Ha.
  destruct w as [|a' w'].
  - cbn [py_split]. now rewrite Ha.
  - assert (Hs : py_split (String a' w') = [String a' w'])
      by (apply IH; [discriminate | exact Hw]).
    assert (Ha' : py_isspace a' = false).
    { simpl in Hw. apply andb_prop in Hw as [Hx _].
      now apply negb_true_iff in Hx. }
    remember (String a' w') as s' eqn:Es.
    cbn [py_split]. rewrite Ha. rewrite Es at 1. rewrite Ha', Hs.
    reflexivity.
Qed.

Lemma py_split_concat ws :
  Forall (fun w => is_word w = true) ws ->
  py_split (String.concat " " ws) = ws.
Proof.
  induction ws as [|w ws IH]; intros Hws; [reflexivity|].
  inversion Hws as [|? ? Hw Hws']; subst.
  apply is_word_spec in Hw as [Hne Hw].
  destruct ws as [|w2 ws].
  - simpl. now apply py_split_last.
  - change (String.concat " " (w :: w2 :: ws))
      with (w ++ String " " (String.concat " " (w2 :: ws))).
    rewrite py_split_word by auto. now rewrite IH.
Qed.

Lemma no_space_no_break c :
  py_isspace c = false ->
  Ascii.eqb c "010" || Ascii.eqb c "013" = false.
Proof.
  intros Hc.
  destruct (Ascii.eqb_spec c "010") as [-> | _]; [discriminate Hc|].
  destruct (Ascii.eqb_spec c "013") as [-> | _]; [discriminate Hc|].
  reflexivity.
Qed.

Lemma one_line_app s t : one_line (s ++ t) = one_line s && one_line t.
Proof.
  unfold one_line. now rewrite list_ascii_of_string_app, forallb_app.
Qed.

Lemma no_space_one_line s : no_space s = true -> one_line s = true.
Proof.
  unfold no_space, one_line.
  induction (list_ascii_of_string s) as [|c l IH]; [reflexivity|].
  simpl. intros H. apply andb_prop in H as [Hc Hl].
  apply negb_true_iff in Hc.
  rewrite (no_space_no_break c Hc), (IH Hl). reflexivity.
Qed.

Lemma readline_line s rest :
  one_line s = true ->
  readline (s ++ String "010" rest) = s ++ String "010" "".
Proof.
  unfold one_line. induction s as [|c s IH]; intros Hs; [reflexivity|].
  simpl in Hs. apply andb_prop in Hs as [Hc Hs].
  apply negb_true_iff in Hc.
  change (readline (String c (s ++ String "010" rest))
          = String c (s ++ String "010" "")).
  cbn [readline]. rewrite Hc, (IH Hs). reflexivity.
Qed.

Lemma rstrip_newlines_line s :
  one_line s = true -> rstrip_newlines (s ++ String "010" "") = s.
Proof.
  unfold one_line. induction s as [|c s IH]; intros Hs; [reflexivity|].
  simpl in Hs. apply andb_prop in Hs as [Hc Hs].
  apply negb_true_iff in Hc. apply orb_false_elim in Hc as [Hc _].
  change (rstrip_newlines (String c (s ++ String "010" "")) = String c s).
  cbn [rstrip_newlines]. rewrite (IH Hs), Hc. now destruct s.
Qed.

Lemma strip_newlines_line s :
  one_line s = true -> strip_newlines (s ++ String "010" "") = s.
Proof.
  intros Hs. unfold strip_newlines.
  destruct s as [|c s]; [reflexivity|].
  assert (lstrip_newlines (String c s ++ String "010" "")
          = String c s ++ String "010" "") as ->.
  { unfold one_line in Hs. simpl in Hs. apply andb_prop in Hs as [Hc _].
    apply negb_true_iff in Hc. apply orb_false_elim in Hc as [Hc _].
    change (String c s ++ String "010" "")
      with (String c (s ++ String "010" "")).
    cbn [lstrip_newlines]. now rewrite Hc. }
  now apply rstrip_newlines_line.
Qed.

Lemma digit_no_space c : is_digit c = true -> py_isspace c = false.
Proof.
  unfold is_digit, py_isspace. cbv zeta. intros H.
  apply andb_prop in H as [H1 H2].
  apply Nat.leb_le in H1. apply Nat.leb_le in H2.
  repeat match goal with
         | |- context [(?a <=? ?b)%nat] => destruct (Nat.leb_spec a b)
         | |- context [(?a =? ?b)%nat] => destruct (Nat.eqb_spec a b)
         end; simpl; try reflexivity; lia.
Qed.

Lemma digits_no_space l :
  forallb is_digit l = true ->
  forallb (fun c => negb (py_isspace c)) l = true.
Proof.
  induction l as [|c l IH]; [reflexivity|].
  simpl. intros H. apply andb_prop in H as [Hc Hl].
  now rewrite (digit_no_space c Hc), (IH Hl).
Qed.

Lemma pretty_nat_word (n : nat) : is_word (pretty n) = true.
Proof.
  destruct (pretty_Z_digits (Z.of_nat n) ltac:(lia)) as (Hne & Hd & _).
  cbn zeta in *.
  assert (pretty (Z.of_nat n) = pretty n) as E
    by (unfold pretty at 2, pretty_nat; now destruct n).
  rewrite E in *. apply is_word_spec. split.
  - intros E0. rewrite E0 in Hne. now apply Hne.
  - now apply digits_no_space.
Qed.

(** ** The headers that differ *)

Lemma distinct_headers_keeps hs : forall check,
  (forall h, h ∈ hs -> h ∈ check) -> distinct_headers check hs = check.
Proof.
  induction hs as [|h hs IH]; intros check Hin; [reflexivity|].
  simpl. rewrite decide_True by (apply Hin; left).
  apply IH. intros h' Hh'. apply Hin. now right.
Qed.

Lemma distinct_headers_length hs : forall check,
  (List.length check <= List.length (distinct_headers check hs))%nat.
Proof.
  induction hs as [|h hs IH]; intros check; [reflexivity|].
  simpl. destruct (decide (h ∈ check)); [apply IH|].
  etransitivity; [|apply IH]. rewrite length_app. simpl. lia.
Qed.

Lemma distinct_headers_grows hs : forall check h,
  h ∈ hs -> h ∉ check ->
  (List.length check < List.length (distinct_headers check hs))%nat.
Proof.
  induction hs as [|h' hs IH]; intros check h Hin Hout.
  - now apply elem_of_nil in Hin.
  - simpl. destruct (decide (h' ∈ check)) as [Hc | Hc].
    + apply (IH check h); [|exact Hout].
      apply elem_of_cons in Hin as [-> | Hin]; [contradiction | exact Hin].
    + eapply Nat.lt_le_trans; [|apply distinct_headers_length].
      rewrite length_app. simpl. lia.
Qed.

Lemma distinct_headers_one h0 hs :
  (Forall (eq h0) hs /\ distinct_headers [] (h0 :: hs) = [h0])
  \/ (~ Forall (eq h0) hs
      /\ (1 < List.length (distinct_headers [] (h0 :: hs)))%nat).
Proof.
  assert (distinct_headers [] (h0 :: hs) = distinct_headers [h0] hs) as ->.
  { reflexivity. }
  destruct (decide (Forall (eq h0) hs)) as [Hall | Hnot]; [left | right].
  - split; [exact Hall|]. apply distinct_headers_keeps.
    intros h Hh. rewrite Forall_forall in Hall.
    rewrite <- (Hall h Hh). left.
  - split; [exact Hnot|].
    apply not_Forall_Exists in Hnot; [|apply _].
    apply Exists_exists in Hnot as (h & Hh & Hne).
    apply (distinct_headers_grows hs [h0] h Hh).
    intros Hin. apply list_elem_of_singleton in Hin. congruence.
Qed.

(** ** Sorting by code points *)

#[local] Instance str_le_total : Total str_le.
Proof. intros s t. apply String.leb_total. Qed.

Lemma magnitude_columns_spec header :
  Sorted str_le (magnitude_columns header)
  /\ NoDup (magnitude_columns header)
  /\ forall c, c ∈ magnitude_columns header
               <-> c ∈ header /\ c ∉ _required_keys.
Proof.
  unfold magnitude_columns, sorted. repeat split.
  - apply Sorted_merge_sort. apply _.
  - rewrite merge_sort_Permutation. apply NoDup_elements.
  - rewrite merge_sort_Permutation, elem_of_elements, elem_of_difference,
      !elem_of_list_to_set in H. tauto.
  - rewrite merge_sort_Permutation, elem_of_elements, elem_of_difference,
      !elem_of_list_to_set in H. tauto.
  - intros [Hc Hn].
    rewrite merge_sort_Permutation, elem_of_elements, elem_of_difference,
      !elem_of_list_to_set. tauto.
Qed.

Lemma magnitude_columns_nil header :
  magnitude_columns header = [] <->
  ~ exists c, c ∈ header /\ c ∉ _required_keys.
Proof.
  split.
  - intros E [c Hc]. apply (magnitude_columns_spec header) in Hc.
    rewrite E in Hc. now apply elem_of_nil in Hc.
  - intros Hno. destruct (magnitude_columns header) as [|c l] eqn:E;
      [reflexivity|].
    exfalso. apply Hno. exists c.
    apply (magnitude_columns_spec header). rewrite E. left.
Qed.

(** ** The line of the descriptor *)

Lemma concat_words_app ws1 ws2 :
  ws1 <> [] -> ws2 <> [] ->
  String.concat " " (ws1 ++ ws2)
  = String.concat " " ws1 ++ " " ++ String.concat " " ws2.
Proof.
  induction ws1 as [|w ws1 IH]; intros H1 H2; [contradiction|].
  destruct ws1 as [|w' ws1].
  - destruct ws2; [contradiction | reflexivity].
  - change (String.concat " " ((w :: w' :: ws1) ++ ws2))
      with (w ++ " " ++ String.concat " " ((w' :: ws1) ++ ws2)).
    rewrite IH by (discriminate || assumption).
    change (String.concat " " (w :: w' :: ws1))
      with (w ++ " " ++ String.concat " " (w' :: ws1)).
    now rewrite !string_app_assoc.
Qed.

Lemma concat_words_one_line ws :
  Forall (fun w => is_word w = true) ws ->
  one_line (String.concat " " ws) = true.
Proof.
  induction ws as [|w ws IH]; intros Hws; [reflexivity|].
  inversion Hws as [|? ? Hw Hws']; subst.
  apply is_word_spec in Hw as [_ Hw]. apply no_space_one_line in Hw.
  destruct ws as [|w2 ws]; [exact Hw|].
  change (String.concat " " (w :: w2 :: ws))
    with (w ++ " " ++ String.concat " " (w2 :: ws)).
  rewrite !one_line_app, Hw, (IH Hws'). reflexivity.
Qed.

Lemma first_line_words ws :
  Forall (fun w => is_word w = true) ws ->
  py_split (strip_newlines
              (readline (String.concat " " ws
                           ++ String "010" (String "010" ""))))
  = ws.
Proof.
  intros Hws. pose proof (concat_words_one_line ws Hws) as Hl.
  rewrite readline_line, strip_newlines_line by exact Hl.
  now apply py_split_concat.
Qed.

Lemma descriptor_text_words iso mags ws0 :
  mags <> [] -> ws0 <> [] ->
  "Python_" ++ Isochrone_name iso = String.concat " " ws0 ->
  descriptor_text iso mags
  = String.concat " "
      (ws0 ++ [pretty (List.length (_required_keys ++ mags));
               pretty (List.length _required_keys);
               pretty (List.length mags)] ++ mags)
      ++ String "010" (String "010" "").
Proof.
  intros Hm H0 E.
  rewrite concat_words_app by (assumption || discriminate).
  rewrite concat_words_app by (assumption || discriminate).
  rewrite <- E. unfold descriptor_text.
  cbn [String.concat]. now rewrite !string_app_assoc.
Qed.

Section IsochroneFacts.
Context {F : Type} `{Countable F}.
Variable ISO_REQUI_METAL : gset F.
Variable ISO_FILE_DESCRI : string.

#[local] Abbreviation write :=
  (_write_file_descriptor ISO_REQUI_METAL ISO_FILE_DESCRI).
#[local] Abbreviation descriptor := (file_descriptor_path ISO_FILE_DESCRI).

(** The two outcomes of the writer *)
Lemma write_file_descriptor_cases iso data fs :
  (exists header,
     valid_isochrone_data ISO_REQUI_METAL data header
     /\ write iso data fs
        = (ok (_required_keys ++ magnitude_columns header)%list,
           <[descriptor iso
               := TextFile (descriptor_text iso (magnitude_columns header))]>
             fs))
  \/ ((~ exists header, valid_isochrone_data ISO_REQUI_METAL data header)
      /\ write iso data fs = (raise ValueError, fs)).
Proof.
  unfold _write_file_descriptor.
  destruct data as [|[f0 h0] rest].
  { right. split; [|reflexivity]. intros (h & Hne & _). now apply Hne. }
  set (data := (f0, h0) :: rest).
  destruct (decide (list_to_set (map fst data) = ISO_REQUI_METAL))
    as [Hmet | Hmet].
  2:{ right. split; [|reflexivity]. intros (h & _ & Hm & _). now apply Hmet. }
  change (map snd data) with (h0 :: map snd rest).
  destruct (distinct_headers_one h0 (map snd rest)) as [[Hall ->] | [Hnot Hlen]].
  2:{ right. rewrite decide_True by exact Hlen. split; [|reflexivity].
      intros (h & _ & _ & Hsame & _). apply Hnot.
      inversion Hsame as [|? ? Hh0 Hrest]; simpl in Hh0; subst.
      rewrite Forall_map. eapply Forall_impl; [exact Hrest|].
      intros x Hx. now symmetry. }
  rewrite decide_False by (simpl; lia).
  assert (Hsame : Forall (fun x => snd x = h0) data).
  { constructor; [reflexivity|]. rewrite Forall_map in Hall.
    eapply Forall_impl; [exact Hall|]. intros x Hx. now symmetry. }
  assert (Hhdr : forall h, valid_isochrone_data ISO_REQUI_METAL data h ->
                           h = h0).
  { intros h (_ & _ & Hs & _). inversion Hs; subst. reflexivity. }
  destruct (decide ((list_to_set _required_keys : gset string)
                      ∖ list_to_set h0 = ∅)) as [Hrem | Hrem].
  2:{ right. split; [|reflexivity]. intros (h & Hv).
      pose proof (Hhdr h Hv) as ->. destruct Hv as (_ & _ & _ & Hreq & _).
      apply Hrem. apply set_eq. intros k.
      rewrite elem_of_difference, !elem_of_list_to_set.
      split; [intros [Hk1 Hk2]; exfalso; auto | intros Hk].
      now apply elem_of_empty in Hk. }
  assert (Hreq : forall k, k ∈ _required_keys -> k ∈ h0).
  { intros k Hk. destruct (decide (k ∈ h0)) as [Hin | Hout]; [exact Hin|].
    exfalso. assert (k ∈ (∅ : gset string)) as Hk';
      [|now apply elem_of_empty in Hk'].
    rewrite <- Hrem, elem_of_difference, !elem_of_list_to_set. auto. }
  fold (magnitude_columns h0).
  destruct (magnitude_columns h0) as [|c l] eqn:Emag.
  { right. split; [|reflexivity]. intros (h & Hv).
    pose proof (Hhdr h Hv) as ->. destruct Hv as (_ & _ & _ & _ & Hex).
    apply magnitude_columns_nil in Emag. now apply Emag. }
  left. exists h0. split; [|now rewrite Emag].
  split; [discriminate|]. split; [exact Hmet|]. split; [exact Hsame|].
  split; [exact Hreq|].
  exists c. apply (magnitude_columns_spec h0). rewrite Emag. left.
Qed.

Lemma mag_names_written iso fs mags ws0 :
  mags <> [] -> Forall (fun w => is_word w = true) mags ->
  ws0 <> [] -> Forall (fun w => is_word w = true) ws0 ->
  "Python_" ++ Isochrone_name iso = String.concat " " ws0 ->
  mag_names ISO_FILE_DESCRI iso
    (<[descriptor iso := TextFile (descriptor_text iso mags)]> fs)
  = inr (drop 4 (ws0 ++ [pretty (List.length (_required_keys ++ mags));
                         pretty (List.length _required_keys);
                         pretty (List.length mags)] ++ mags)).
Proof.
  intros Hm Hmw H0 Hw0 E. unfold mag_names.
  rewrite lookup_insert_eq.
  rewrite (descriptor_text_words iso mags ws0 Hm H0 E).
  rewrite first_line_words; [reflexivity|].
  apply Forall_app. split; [exact Hw0|].
  repeat (constructor; [apply pretty_nat_word|]). exact Hmw.
Qed.

(** The magnitude columns of valid data whose column names are words *)
Lemma magnitude_columns_words data header :
  valid_isochrone_data ISO_REQUI_METAL data header ->
  Forall (fun x => forallb is_word (snd x) = true) data ->
  Forall (fun w => is_word w = true) (magnitude_columns header).
Proof.
  intros (Hne & _ & Hsame & _) Hw.
  destruct data as [|[f0 h0] rest]; [contradiction|].
  inversion Hsame as [|? ? Hh _]; inversion Hw as [|? ? Hw0 _]; subst.
  simpl in *. rewrite forallb_forall in Hw0.
  apply Forall_forall. intros c Hc.
  apply (magnitude_columns_spec h0) in Hc as [Hc _].
  apply Hw0. now apply list_elem_of_In.
Qed.

(** The validation of the isochrone data is exact: the descriptor is
    written if and only if the data are not empty, cover exactly the
    required metallicities, and have one and the same header, in the same
    column order, that holds every required column and at least one
    magnitude column.  Every failure is a [ValueError] (also for empty
    data, and never the [IndexError] of [check[0]]), raised before the file
    system is touched. *)
Theorem descriptor_validation iso data fs :
  ((exists order fs', write iso data fs = (ok order, fs'))
   <-> exists header, valid_isochrone_data ISO_REQUI_METAL data header)
  /\ forall e fs',
       write iso data fs = (raise e, fs') -> e = ValueError /\ fs' = fs.
Proof.
  destruct (write_file_descriptor_cases iso data fs)
    as [(header & Hv & Hw) | (Hno & Hw)]; rewrite Hw.
  - split.
    + split; [intros _; now exists header | intros _; eauto].
    + intros e fs' [=].
  - split.
    + split; [intros (order & fs' & [=]) | intros Hv; contradiction].
    + intros e fs' [= <- <-]. auto.
Qed.

(** What a successful call returns and writes: the required columns
    followed by the magnitude columns of the common header, which are the
    other columns of the header, each once, in increasing order of code
    points; the descriptor file holds their line, and no other file
    changes. *)
Theorem descriptor_columns iso data fs order fs' :
  write iso data fs = (ok order, fs') ->
  exists header magnames,
    Forall (fun x => snd x = header) data
    /\ order = (_required_keys ++ magnames)%list
    /\ magnames <> []
    /\ Sorted str_le magnames /\ NoDup magnames
    /\ (forall c, c ∈ magnames <-> c ∈ header /\ c ∉ _required_keys)
    /\ fs' = <[descriptor iso := TextFile (descriptor_text iso magnames)]> fs
    /\ forall p, p <> descriptor iso -> fs' !! p = fs !! p.
Proof.
  destruct (write_file_descriptor_cases iso data fs)
    as [(header & Hv & Hw) | (Hno & Hw)]; rewrite Hw; intros [= <- <-].
  destruct (magnitude_columns_spec header) as (Hs & Hn & Hc).
  exists header, (magnitude_columns header).
  destruct Hv as (_ & _ & Hsame & _ & c & Hex).
  split; [exact Hsame|]. split; [reflexivity|]. split.
  { intros E. apply (Hc c) in Hex. rewrite E in Hex.
    now apply elem_of_nil in Hex. }
  split; [exact Hs|]. split; [exact Hn|]. split; [exact Hc|].
  split; [reflexivity|].
  intros p Hp. now rewrite lookup_insert_ne.
Qed.

(** The descriptor read back, for names of characters below code point
    128: when the name of the isochrone directory holds no white space and
    the column names are words (not empty, no white space), [mag_names]
    after a successful call gives the magnitude columns the call returned
    after the six required ones, and [to_export_keys] gives them in lower
    case behind the lower-case name. *)
Theorem descriptor_round_trip iso data fs order fs' :
  write iso data fs = (ok order, fs') ->
  is_ascii (Isochrone_name iso) = true ->
  Forall (fun x => forallb is_ascii (snd x) = true) data ->
  no_space (Isochrone_name iso) = true ->
  Forall (fun x => forallb is_word (snd x) = true) data ->
  order = (_required_keys ++ drop 6 order)%list
  /\ mag_names ISO_FILE_DESCRI iso fs' = inr (drop 6 order)
  /\ to_export_keys ISO_FILE_DESCRI iso fs'
     = inr (map (fun m => py_lower (Isochrone_name iso) ++ "_" ++ py_lower m)
                (drop 6 order)).
Proof.
  destruct (write_file_descriptor_cases iso data fs)
    as [(header & Hv & Hw) | (Hno & Hw)]; rewrite Hw; intros [= <- <-].
  intros _ _ Hname Hwords.
  pose proof (magnitude_columns_words data header Hv Hwords) as Hmw.
  assert (Hne : magnitude_columns header <> []).
  { destruct Hv as (_ & _ & _ & _ & Hex).
    intros E. now apply magnitude_columns_nil in E. }
  change (drop 6 (_required_keys ++ magnitude_columns header))
    with (magnitude_columns header).
  assert (Hmag : mag_names ISO_FILE_DESCRI iso
                   (<[descriptor iso
                        := TextFile (descriptor_text iso
                                       (magnitude_columns header))]> fs)
                 = inr (magnitude_columns header)).
  { rewrite (mag_names_written iso fs (magnitude_columns header)
               ["Python_" ++ Isochrone_name iso]); try easy.
    constructor; [|constructor]. apply is_word_spec. split; [easy|].
    now rewrite no_space_app, Hname. }
  split; [reflexivity|]. split; [exact Hmag|].
  unfold to_export_keys. now rewrite Hmag.
Qed.

(** The name of the directory is written into the line unquoted: a name of
    two words moves every field by one, and [mag_names] then begins with
    the number of magnitude columns. *)
Theorem descriptor_name_of_two_words iso data fs order fs' a b :
  write iso data fs = (ok order, fs') ->
  is_ascii (Isochrone_name iso) = true ->
  Forall (fun x => forallb is_ascii (snd x) = true) data ->
  Isochrone_name iso = a ++ " " ++ b ->
  no_space a = true -> is_word b = true ->
  Forall (fun x => forallb is_word (snd x) = true) data ->
  mag_names ISO_FILE_DESCRI iso fs'
  = inr (pretty (List.length (drop 6 order)) :: drop 6 order).
Proof.
  destruct (write_file_descriptor_cases iso data fs)
    as [(header & Hv & Hw) | (Hno & Hw)]; rewrite Hw; intros [= <- <-].
  intros _ _ Hname Ha Hb Hwords.
  pose proof (magnitude_columns_words data header Hv Hwords) as Hmw.
  assert (Hne : magnitude_columns header <> []).
  { destruct Hv as (_ & _ & _ & _ & Hex).
    intros E. now apply magnitude_columns_nil in E. }
  change (drop 6 (_required_keys ++ magnitude_columns header))
    with (magnitude_columns header).
  rewrite (mag_names_written iso fs (magnitude_columns header)
             ["Python_" ++ a; b]); try easy.
  - constructor; [|constructor; [exact Hb | constructor]].
    apply is_word_spec. split; [easy|]. now rewrite no_space_app, Ha.
  - rewrite Hname. cbn [String.concat]. now rewrite !string_app_assoc.
Qed.

End IsochroneFacts.

Lemma sample_isochrone_data_valid :
  valid_isochrone_data sample_metallicities sample_isochrone_data
    sample_header.
Proof.
  split; [discriminate|].
  split; [vm_compute; reflexivity|].
  split.
  { apply List.Forall_cons; [reflexivity|].
    apply List.Forall_cons; [reflexivity | apply List.Forall_nil]. }
  split.
  - intros k Hk. apply list_elem_of_In. apply list_elem_of_In in Hk.
    simpl in *. tauto.
  - exists "F814W". split.
    + apply list_elem_of_In. simpl. tauto.
    + intros Hk. apply list_elem_of_In in Hk. simpl in Hk.
      repeat (destruct Hk as [Hk | Hk]; [discriminate Hk|]). exact Hk.
Qed.

Lemma sample_descriptor_written iso :
  _write_file_descriptor sample_metallicities sample_descriptor iso
    sample_isochrone_data ∅
  = (ok sample_order, sample_descriptor_files iso).
Proof.
  destruct (write_file_descriptor_cases sample_metallicities
              sample_descriptor iso sample_isochrone_data ∅)
    as [(header & Hv & Hw) | (Hno & _)].
  - assert (header = sample_header) as ->.
    { destruct Hv as (_ & _ & Hsame & _).
      inversion Hsame as [|? ? Hh _]. now symmetry. }
    assert (Hm : magnitude_columns sample_header = ["F555W"; "F814W"])
      by (vm_compute; reflexivity).
    rewrite Hm in Hw. exact Hw.
  - exfalso. apply Hno. exists sample_header.
    exact sample_isochrone_data_valid.
Qed.

Lemma descriptor_validation_witness :
  (exists order fs',
     _write_file_descriptor sample_metallicities sample_descriptor
       sample_isochrone sample_isochrone_data ∅ = (ok order, fs'))
  /\ exists e fs',
       _write_file_descriptor sample_metallicities sample_descriptor
         sample_isochrone
         [(0%Z, sample_header); (1%Z, sample_header_reordered)] ∅
       = (raise e, fs')
       /\ e = ValueError /\ fs' = ∅.
Proof.
  split.
  - apply (descriptor_validation sample_metallicities sample_descriptor
             sample_isochrone sample_isochrone_data ∅).
    exists sample_header. exact sample_isochrone_data_valid.
  - assert (Hr : _write_file_descriptor sample_metallicities
                   sample_descriptor sample_isochrone
                   [(0%Z, sample_header); (1%Z, sample_header_reordered)] ∅
                 = (raise ValueError, ∅)) by (vm_compute; reflexivity).
    exists ValueError, ∅. split; [exact Hr|].
    exact (proj2 (descriptor_validation sample_metallicities
                    sample_descriptor sample_isochrone _ ∅) _ _ Hr).
Defined.

Lemma descriptor_columns_witness :
  _write_file_descriptor sample_metallicities sample_descriptor
    sample_isochrone sample_isochrone_data ∅
  = (ok sample_order, sample_descriptor_files sample_isochrone)
  /\ exists header magnames : list string,
       sample_order = (_required_keys ++ magnames)%list
       /\ Sorted str_le magnames
       /\ (forall c, c ∈ magnames <-> c ∈ header /\ c ∉ _required_keys).
Proof.
  pose proof (sample_descriptor_written sample_isochrone) as Hw.
  split; [exact Hw|].
  destruct (descriptor_columns sample_metallicities sample_descriptor
              sample_isochrone sample_isochrone_data ∅ sample_order
              (sample_descriptor_files sample_isochrone) Hw)
    as (header & magnames & _ & Ho & _ & Hs & _ & Hc & _).
  exists header, magnames. auto.
Defined.

Lemma descriptor_round_trip_witness :
  _write_file_descriptor sample_metallicities sample_descriptor
    sample_isochrone sample_isochrone_data ∅
  = (ok sample_order, sample_descriptor_files sample_isochrone)
  /\ mag_names sample_descriptor sample_isochrone
       (sample_descriptor_files sample_isochrone)
     = inr (drop 6 sample_order).
Proof.
  pose proof (sample_descriptor_written sample_isochrone) as Hw.
  split; [exact Hw|].
  assert (H1 : is_ascii (Isochrone_name sample_isochrone) = true)
    by (vm_compute; reflexivity).
  assert (H2 : forallb is_ascii sample_header = true)
    by (vm_compute; reflexivity).
  assert (H3 : no_space (Isochrone_name sample_isochrone) = true)
    by (vm_compute; reflexivity).
  assert (H4 : forallb is_word sample_header = true)
    by (vm_compute; reflexivity).
  apply (descriptor_round_trip sample_metallicities sample_descriptor
           sample_isochrone sample_isochrone_data ∅ sample_order
           (sample_descriptor_files sample_isochrone) Hw H1).
  - apply List.Forall_cons; [exact H2|].
    apply List.Forall_cons; [exact H2 | apply List.Forall_nil].
  - exact H3.
  - apply List.Forall_cons; [exact H4|].
    apply List.Forall_cons; [exact H4 | apply List.Forall_nil].
Defined.

Lemma descriptor_name_of_two_words_witness :
  _write_file_descriptor sample_metallicities sample_descriptor
    sample_isochrone_two_words sample_isochrone_data ∅
  = (ok sample_order, sample_descriptor_files sample_isochrone_two_words)
  /\ mag_names sample_descriptor sample_isochrone_two_words
       (sample_descriptor_files sample_isochrone_two_words)
     = inr (pretty (List.length (drop 6 sample_order))
              :: drop 6 sample_order).
Proof.
  pose proof (sample_descriptor_written sample_isochrone_two_words) as Hw.
  split; [exact Hw|].
  assert (H1 : is_ascii (Isochrone_name sample_isochrone_two_words) = true)
    by (vm_compute; reflexivity).
  assert (H2 : forallb is_ascii sample_header = true)
    by (vm_compute; reflexivity).
  assert (H3 : Isochrone_name sample_isochrone_two_words
               = "my" ++ " " ++ "WFIRST") by (vm_compute; reflexivity).
  assert (H4 : no_space "my" = true) by (vm_compute; reflexivity).
  assert (H5 : is_word "WFIRST" = true) by (vm_compute; reflexivity).
  assert (H6 : forallb is_word sample_header = true)
    by (vm_compute; reflexivity).
  apply (descriptor_name_of_two_words sample_metallicities sample_descriptor
           sample_isochrone_two_words sample_isochrone_data ∅ sample_order
           (sample_descriptor_files sample_isochrone_two_words)
           "my" "WFIRST" Hw H1).
  - apply List.Forall_cons; [exact H2|].
    apply List.Forall_cons; [exact H2 | apply List.Forall_nil].
  - exact H3.
  - exact H4.
  - exact H5.
  - apply List.Forall_cons; [exact H6|].
    apply List.Forall_cons; [exact H6 | apply List.Forall_nil].
Defined.
